(** * prepare.py: dataset splitter and record flattener

    A shallow embedding of [split_dataset] and [organize_conclusion] of
    [prepare.py], with the properties of the splitter (partition of the index
    range, sizes, validation errors, determinism) and of the flattener
    (output lines, failure conditions).

    Conventions of the embedding:
    - Python floats are IEEE binary64 numbers, [spec_float] with [prec = 53]
      and [emax = 1024]; every operation rounds to nearest, ties to even.
    - Python exceptions are values of [exn]; a computation is a function of
      the mutable state it runs on and returns [inl e] when it raises [e].
    - a [dict] is the list of its (key, value) pairs in insertion order;
      a [set] of indices is a [gset nat].
    - the interpreter's [random] module is an interface ([PyRandom]) with
      the documented contract of [random.seed] and [random.sample]. *)

From Stdlib Require Import ssreflect ZArith SpecFloat Ascii.
From stdpp Require Import gmap strings list pretty.

Set Warnings "-register-all,-rewrite-rw,-clear-no-such-hyp".
Local Open Scope general_if_scope.
Local Open Scope Z_scope.

(** ** Binary64 arithmetic *)

Module Float.

Abbreviation prec := 53%Z (only parsing).
Abbreviation emax := 1024%Z (only parsing).

Definition float := spec_float.

Definition add : float → float → float := SFadd prec emax.
Definition sub : float → float → float := SFsub prec emax.
Definition mul : float → float → float := SFmul prec emax.
Definition div : float → float → float := SFdiv prec emax.
Definition abs : float → float := SFabs.
(** [ltb x y] is Python's [x < y] ([False] when either side is NaN). *)
Definition ltb : float → float → bool := SFltb.
Definition leb : float → float → bool := SFleb.

(** The nearest binary64 number to the integer [z]. *)
Definition of_Z (z : Z) : float := binary_normalize prec emax z 0 false.

(** The float written [num/den] in decimal notation, for [num] and [den]
    exactly representable: the correctly rounded quotient is the nearest
    binary64 number to the decimal, which is what the literal denotes. *)
Definition lit (num den : Z) : float := div (of_Z num) (of_Z den).

(** [1.0]. *)
Definition one : float := Eval vm_compute in lit 1 1.

Definition is_nan (x : float) : bool :=
  match x with S754_nan => true | _ => false end.

Definition is_finite (x : float) : bool :=
  match x with S754_zero _ | S754_finite _ _ _ => true | _ => false end.

(** [0 <= x] for a number [x]: the sign bit is clear, or [x] is [-0.0]. *)
Definition nonneg (x : float) : bool :=
  match x with
  | S754_zero _ => true
  | S754_finite s _ _ | S754_infinity s => negb s
  | S754_nan => false
  end.

(** Truncation toward zero of a finite number ([float.__trunc__]). *)
Definition trunc (x : float) : option Z :=
  match x with
  | S754_zero _ => Some 0
  | S754_finite s m e =>
      Some (cond_Zopp s (if 0 <=? e then Z.pos m * 2 ^ e
                         else Z.pos m `quot` 2 ^ (- e)))
  | _ => None
  end.

(** The mathematical floor of a finite number: the largest integer not
    above [± m * 2^e]. *)
Definition floor (x : float) : option Z :=
  match x with
  | S754_zero _ => Some 0
  | S754_finite s m e =>
      Some (if 0 <=? e then cond_Zopp s (Z.pos m) * 2 ^ e
            else cond_Zopp s (Z.pos m) `div` 2 ^ (- e))
  | _ => None
  end.

End Float.

Abbreviation float := Float.float.

Arguments Float.add : simpl never.
Arguments Float.sub : simpl never.
Arguments Float.mul : simpl never.
Arguments Float.div : simpl never.
Arguments Float.of_Z : simpl never.
Arguments Float.lit : simpl never.

(** ** Python values

    The values a dataset is made of: what [json.load] produces.  A [dict] is
    the list of its items in insertion order, with keys that are strings and
    pairwise distinct ([dict_wf]). *)

Inductive value :=
  | VNone
  | VBool (b : bool)
  | VInt (z : Z)
  | VFloat (f : float)
  | VStr (s : string)
  | VList (l : list value)
  | VDict (d : list (string * value)).

(** ** Exceptions and computations *)

Inductive exn :=
  | TypeError (msg : string)
  | ValueError (msg : string)
  | OverflowError (msg : string)
  | IndexError (msg : string)
  | KeyError (key : value).

(** A computation over a state [S]: the outcome and the state it leaves. *)
Definition M (S A : Type) : Type := S → (exn + A) * S.

Definition run_bind {S A B} (k : A → M S B) (m : M S A) : M S B :=
  λ s, match m s with
       | (inr x, s') => k x s'
       | (inl e, s') => (inl e, s')
       end.

#[global] Instance M_ret {S} : MRet (M S) := λ A x s, (inr x, s).
#[global] Instance M_bind {S} : MBind (M S) := λ A B, run_bind.
#[global] Instance M_throw {S} : MThrow exn (M S) := λ A e s, (inl e, s).

(** A pure step that may raise. *)
Definition lift {S A} (r : exn + A) : M S A := λ s, (r, s).
Definition modify {S} (f : S → S) : M S unit := λ s, (inr tt, f s).

(** [for x in l: body x], stopping at the first exception. *)
Fixpoint for_each {S A} (l : list A) (body : A → M S unit) : M S unit :=
  match l with
  | [] => mret tt
  | x :: l' => body x ;; for_each l' body
  end.

(** ** Dictionaries and selections *)

Definition dict_keys {V} (d : list (string * V)) : list string := d.*1.

Definition dict_wf {V} (d : list (string * V)) : Prop := NoDup (dict_keys d).

(** [d[k] = v]: the value of an existing key is replaced in place, a new
    key is appended. *)
Fixpoint dict_set {V} (k : string) (v : V) (d : list (string * V))
    : list (string * V) :=
  match d with
  | [] => [(k, v)]
  | (k', v') :: d' =>
      if decide (k' = k) then (k', v) :: d' else (k', v') :: dict_set k v d'
  end.

(** [dict(pairs)]. *)
Definition dict_of_pairs {V} (pairs : list (string * V)) : list (string * V) :=
  foldl (λ d kv, dict_set kv.1 kv.2 d) [] pairs.

Fixpoint dict_get {V} (d : list (string * V)) (k : string) : option V :=
  match d with
  | [] => None
  | (k', v) :: d' => if decide (k' = k) then Some v else dict_get d' k
  end.

(** [[items[i] for i in indices]]. *)
Fixpoint select {A} (items : list A) (indices : list nat) : exn + list A :=
  match indices with
  | [] => inr []
  | i :: indices' =>
      match items !! i with
      | None => inl (IndexError "list index out of range")
      | Some x =>
          match select items indices' with
          | inl e => inl e
          | inr xs => inr (x :: xs)
          end
      end
  end.

(** ** Number conversions *)

(** [float(n)] for an [int] operand of a float operation. *)
Definition int_to_float (n : Z) : exn + float :=
  match Float.of_Z n with
  | S754_infinity _ => inl (OverflowError "int too large to convert to float")
  | x => inr x
  end.

(** [int(x)] for a float [x]. *)
Definition float_to_int (x : float) : exn + Z :=
  match x with
  | S754_nan => inl (ValueError "cannot convert float NaN to integer")
  | S754_infinity _ =>
      inl (OverflowError "cannot convert float infinity to integer")
  | _ => inr (default 0 (Float.trunc x))
  end.

(** [int(total_size * ratio)]. *)
Definition split_size (total_size : nat) (ratio : float) : exn + Z :=
  match int_to_float (Z.of_nat total_size) with
  | inl e => inl e
  | inr n => float_to_int (Float.mul n ratio)
  end.

Arguments split_size : simpl never.

(** ** The [random] module

    The generator is process-wide state.  [random.seed(a)] replaces it by a
    state that depends on [a] only.  [random.sample(population, k)] selects
    by position: it picks [k] pairwise distinct positions below
    [len(population)], in draw order, and advances the generator; which
    positions are picked depends on the state, [len(population)] and [k]. *)

Class PyRandom := {
  rng : Type;
  seeded : Z → rng;
  sample_positions : rng → nat → nat → list nat * rng;
  sample_positions_length g n k :
    (k ≤ n)%nat → length (sample_positions g n k).1 = k;
  sample_positions_NoDup g n k :
    (k ≤ n)%nat → NoDup (sample_positions g n k).1;
  sample_positions_lt g n k i :
    (k ≤ n)%nat → i ∈ (sample_positions g n k).1 → (i < n)%nat;
}.

(** The dictionary of the three index lists. *)
Record split_indices := {
  train_indices : list nat;
  val_indices : list nat;
  test_indices : list nat;
}.

(** [list(set(xs) - set(ys))]. *)
Definition set_difference (xs ys : list nat) : list nat :=
  elements ((list_to_set xs : gset nat) ∖ list_to_set ys).

(** [1e-10]. *)
Definition tolerance : float := Eval vm_compute in Float.lit 1 (10 ^ 10).

(** [abs(train_ratio + val_ratio + test_ratio - 1.0) > 1e-10]. *)
Definition ratio_check_fails (train_ratio val_ratio test_ratio : float) : bool :=
  Float.ltb tolerance
    (Float.abs
       (Float.sub (Float.add (Float.add train_ratio val_ratio) test_ratio)
          Float.one)).

(** [isinstance(data, (list, dict))]. *)
Definition is_list_or_dict (data : value) : bool :=
  match data with VList _ | VDict _ => true | _ => false end.

Arguments ratio_check_fails : simpl never.

Definition type_error : exn := TypeError "Data must be a list or dictionary".
Definition ratio_error : exn := ValueError "Ratios must sum to 1".
Definition sample_error : exn :=
  ValueError "Sample larger than population or is negative".

Module random.

(** [random.seed(a)]. *)
Definition seed `{PyRandom} (a : Z) : M rng unit := λ _, (inr tt, seeded a).

(** [random.sample(population, k)]. *)
Definition sample `{PyRandom} {A} (population : list A) (k : Z)
    : M rng (list A) :=
  λ g,
    let n := length population in
    if bool_decide (0 ≤ k ≤ Z.of_nat n) then
      let '(positions, g') := sample_positions g n (Z.to_nat k) in
      (select population positions, g')
    else
      (inl sample_error, g).

End random.

Section Splitter.
Context `{PyRandom}.

(** Lines 33 to 63 of [split_dataset], on the item sequence: the sizes, the
    two draws, the set differences, the three selections and the record of
    the indices.  [test_ratio] plays no part here. *)
Definition split_items {A} (items : list A) (train_ratio val_ratio : float)
    : M rng (list A * list A * list A * split_indices) :=
  let total_size := length items in
  let all_indices := seq 0 total_size in
  train_size ← lift (split_size total_size train_ratio);
  val_size ← lift (split_size total_size val_ratio);
  train_indices ← random.sample all_indices train_size;
  let remaining_indices := set_difference all_indices train_indices in
  val_indices ← random.sample remaining_indices val_size;
  let test_indices := set_difference remaining_indices val_indices in
  train_set ← lift (select items train_indices);
  val_set ← lift (select items val_indices);
  test_set ← lift (select items test_indices);
  mret (train_set, val_set, test_set,
        {| train_indices := train_indices;
           val_indices := val_indices;
           test_indices := test_indices |}).

(** [split_dataset(data, train_ratio, val_ratio, test_ratio, random_seed)]:
    the type check, the ratio check, the seeding, then the split of
    [list(data.items())] or of [data.copy()]; the subsets of a [dict] are
    turned into [dict]s again.  The ratios are floats, as the docstring has
    them. *)
Definition split_dataset (data : value)
    (train_ratio val_ratio test_ratio : float) (random_seed : Z)
    : M rng (value * value * value * split_indices) :=
  if negb (is_list_or_dict data) then
    mthrow type_error
  else if ratio_check_fails train_ratio val_ratio test_ratio then
    mthrow ratio_error
  else
    random.seed random_seed;;
    match data with
    | VDict d =>
        '(train_set, val_set, test_set, indices) ←
          split_items d train_ratio val_ratio;
        mret (VDict (dict_of_pairs train_set), VDict (dict_of_pairs val_set),
              VDict (dict_of_pairs test_set), indices)
    | VList l =>
        '(train_set, val_set, test_set, indices) ←
          split_items l train_ratio val_ratio;
        mret (VList train_set, VList val_set, VList test_set, indices)
    | _ => mthrow type_error
    end.

End Splitter.

(** ** The flattener

    Iteration, subscripting and formatting as the interpreter does them on
    the values of the model, [json.dumps] with its default options, and the
    files written, as a map from file name to content. *)

Definition type_name (v : value) : string :=
  match v with
  | VNone => "NoneType"
  | VBool _ => "bool"
  | VInt _ => "int"
  | VFloat _ => "float"
  | VStr _ => "str"
  | VList _ => "list"
  | VDict _ => "dict"
  end.

Definition dquote : ascii := "034"%char.
Definition newline : string := String "010"%char "".

(** The characters of a string, each as a string of length one. *)
Fixpoint string_chars (s : string) : list string :=
  match s with
  | EmptyString => []
  | String a s' => String a "" :: string_chars s'
  end.

(** [iter(v)], run to the end. *)
Definition iterate (v : value) : exn + list value :=
  match v with
  | VList l => inr l
  | VDict d => inr (VStr <$> dict_keys d)
  | VStr s => inr (VStr <$> string_chars s)
  | _ => inl (TypeError ("'" +:+ type_name v +:+ "' object is not iterable"))
  end.

(** The position an integer subscript [i] denotes in a sequence of length
    [n]: negative subscripts count from the end. *)
Definition seq_index (n : nat) (i : Z) : option nat :=
  let i' := if i <? 0 then i + Z.of_nat n else i in
  if bool_decide (0 ≤ i' < Z.of_nat n) then Some (Z.to_nat i') else None.

(** The integer an [int] or [bool] subscript stands for. *)
Definition as_index (k : value) : option Z :=
  match k with
  | VInt i => Some i
  | VBool b => Some (if b then 1 else 0)
  | _ => None
  end.

(** [c[k]]. *)
Definition getitem (c k : value) : exn + value :=
  match c with
  | VDict d =>
      match k with
      | VStr s =>
          match dict_get d s with
          | Some v => inr v
          | None => inl (KeyError k)
          end
      | VList _ | VDict _ =>
          inl (TypeError ("unhashable type: '" +:+ type_name k +:+ "'"))
      | _ => inl (KeyError k)
      end
  | VList l =>
      match as_index k with
      | Some i =>
          match seq_index (length l) i ≫= (l !!.) with
          | Some v => inr v
          | None => inl (IndexError "list index out of range")
          end
      | None =>
          inl (TypeError ("list indices must be integers or slices, not "
                          +:+ type_name k))
      end
  | VStr s =>
      match as_index k with
      | Some i =>
          match seq_index (length (string_chars s)) i
                ≫= (string_chars s !!.) with
          | Some ch => inr (VStr ch)
          | None => inl (IndexError "string index out of range")
          end
      | None =>
          inl (TypeError ("string indices must be integers, not '"
                          +:+ type_name k +:+ "'"))
      end
  | _ => inl (TypeError ("'" +:+ type_name c +:+ "' object is not subscriptable"))
  end.

Definition hex_digit (n : nat) : ascii :=
  default "0"%char (String.list_ascii_of_string "0123456789abcdef" !! n).

(** One character of a JSON string with [ensure_ascii]: the quote, the
    backslash and everything outside [' '..'~'] are escaped. *)
Definition json_escape_char (a : ascii) : string :=
  let n := nat_of_ascii a in
  if decide (n = 34%nat) then String "\"%char (String dquote "")
  else if decide (n = 92%nat) then "\\"
  else if decide (n = 10%nat) then "\n"
  else if decide (n = 13%nat) then "\r"
  else if decide (n = 9%nat) then "\t"
  else if decide (n = 8%nat) then "\b"
  else if decide (n = 12%nat) then "\f"
  else if bool_decide (32 ≤ n ≤ 126)%nat then String a ""
  else "\u00" +:+ String (hex_digit (n / 16)) (String (hex_digit (n mod 16)) "").

Fixpoint json_escape (s : string) : string :=
  match s with
  | EmptyString => ""
  | String a s' => json_escape_char a +:+ json_escape s'
  end.

Definition json_string (s : string) : string :=
  String dquote (json_escape s +:+ String dquote "").

Definition files := gmap string string.

(** [f.write(text)] on the file opened under [filename]. *)
Definition write (filename text : string) : M files unit :=
  modify (λ fs, <[filename := default "" (fs !! filename) +:+ text]> fs).

(** [open(filename, 'w')]: the file is created, or emptied. *)
Definition open_w (filename : string) : M files unit :=
  modify (<[filename := ""]>).

Section Flattener.
(** [str(v)] for the values that are not strings; [float.__repr__] on the
    finite floats. *)
Variable py_str : value → string.

(** [f"{v}"]. *)
Definition format_value (v : value) : string :=
  match v with
  | VStr s => s
  | _ => py_str v
  end.

(** [json.dumps(v)]. *)
Fixpoint json_dumps (v : value) : string :=
  match v with
  | VNone => "null"
  | VBool b => if b then "true" else "false"
  | VInt z => pretty z
  | VFloat f =>
      match f with
      | S754_nan => "NaN"
      | S754_infinity s => if s then "-Infinity" else "Infinity"
      | _ => py_str v
      end
  | VStr s => json_string s
  | VList l => "[" +:+ String.concat ", " (map json_dumps l) +:+ "]"
  | VDict d =>
      "{" +:+ String.concat ", "
                (map (λ kv, json_string kv.1 +:+ ": " +:+ json_dumps kv.2) d)
          +:+ "}"
  end.

(** The body of the loop of [organize_conclusion], for one [entry]. *)
Definition flatten_entry (dataset : value) (filename : string) (entry : value)
    : M files unit :=
  record ← lift (getitem dataset entry);
  contexts ← lift (getitem record (VStr "CONTEXTS"));
  cs ← lift (iterate contexts);
  let conclusion :=
    foldl (λ acc c, acc +:+ (format_value c +:+ newline)) "" cs in
  record ← lift (getitem dataset entry);
  long_answer ← lift (getitem record (VStr "LONG_ANSWER"));
  let conclusion := conclusion +:+ (format_value long_answer +:+ newline) in
  record ← lift (getitem dataset entry);
  question ← lift (getitem record (VStr "QUESTION"));
  record ← lift (getitem dataset entry);
  meshes ← lift (getitem record (VStr "MESHES"));
  record ← lift (getitem dataset entry);
  final_decision ← lift (getitem record (VStr "final_decision"));
  let data :=
    VDict [("idx", entry); ("QUESTION", question);
           ("CONCLUSION", VStr conclusion); ("TYPE", meshes);
           ("FINAL_DECISION", final_decision)] in
  write filename (json_dumps data +:+ newline).

(** [organize_conclusion(dataset, filename)]; opening and writing the file
    are taken to succeed. *)
Definition organize_conclusion (dataset : value) (filename : string)
    : M files unit :=
  open_w filename;;
  entries ← lift (iterate dataset);
  for_each entries (flatten_entry dataset filename).

End Flattener.

(** ** Notions of the specification *)

(** [len(data)]. *)
Definition len (data : value) : nat :=
  match data with
  | VList l => length l
  | VDict d => length d
  | VStr s => length (string_chars s)
  | _ => 0
  end.

(** The empty collection of the family of [data]. *)
Definition empty_like (data : value) : value :=
  match data with
  | VDict _ => VDict []
  | _ => VList []
  end.

(** The keys of a [dict] value are pairwise distinct. *)
Definition data_wf (data : value) : Prop :=
  match data with
  | VDict d => dict_wf d
  | _ => True
  end.

(** The three ratios sum to 1.0 within 1e-10, in binary64 arithmetic:
    [abs(train_ratio + val_ratio + test_ratio - 1.0) <= 1e-10]. *)
Definition sums_to_one (train_ratio val_ratio test_ratio : float) : Prop :=
  Float.leb
    (Float.abs
       (Float.sub (Float.add (Float.add train_ratio val_ratio) test_ratio)
          Float.one))
    tolerance = true.

(** What [split_items] returns on [items] when it draws [a] train and [b]
    validation indices. *)
Definition good_split {A} (items : list A) (a b : Z)
    (r : list A * list A * list A * split_indices) : Prop :=
  let '(train_set, val_set, test_set, indices) := r in
  length (train_indices indices) = Z.to_nat a ∧
  length (val_indices indices) = Z.to_nat b ∧
  train_indices indices ++ val_indices indices ++ test_indices indices
    ≡ₚ seq 0 (length items) ∧
  train_set = omap (items !!.) (train_indices indices) ∧
  val_set = omap (items !!.) (val_indices indices) ∧
  test_set = omap (items !!.) (test_indices indices) ∧
  length train_set = length (train_indices indices) ∧
  length val_set = length (val_indices indices) ∧
  length test_set = length (test_indices indices).

Definition is_dict (v : value) : bool :=
  match v with
  | VDict _ => true
  | _ => false
  end.

(** Two small datasets. *)
Definition five_items : value := VList [VInt 1; VInt 2; VInt 3; VInt 4; VInt 5].

Definition four_keys : list (string * value) :=
  [("a", VInt 1); ("b", VInt 2); ("c", VInt 3); ("d", VInt 4)].

(** The fields the flattener reads in a record. *)
Definition required_fields : list string :=
  ["CONTEXTS"; "LONG_ANSWER"; "QUESTION"; "MESHES"; "final_decision"].

Definition has_field (record : value) (field : string) : Prop :=
  match record with
  | VDict fields => is_Some (dict_get fields field)
  | _ => False
  end.

Definition as_string (v : value) : option string :=
  match v with
  | VStr s => Some s
  | _ => None
  end.

(** The conclusion string: each context followed by a newline, then the
    long answer followed by a newline. *)
Definition conclusion_of (contexts : list string) (long_answer : string)
    : string :=
  foldr (λ c rest, c +:+ newline +:+ rest) (long_answer +:+ newline) contexts.

(** The object the flattener is to emit for the record stored under [id]:
    defined when the record has the required fields, [CONTEXTS] being a
    list of strings and [LONG_ANSWER] a string. *)
Definition flat_record (id : string) (record : value) : option value :=
  match record with
  | VDict fields =>
      contexts ← dict_get fields "CONTEXTS";
      cs ← match contexts with
           | VList l => mapM as_string l
           | _ => None
           end;
      long_answer ← dict_get fields "LONG_ANSWER" ≫= as_string;
      question ← dict_get fields "QUESTION";
      meshes ← dict_get fields "MESHES";
      final_decision ← dict_get fields "final_decision";
      Some (VDict [("idx", VStr id); ("QUESTION", question);
                   ("CONCLUSION", VStr (conclusion_of cs long_answer));
                   ("TYPE", meshes); ("FINAL_DECISION", final_decision)])
  | _ => None
  end.

(** The record of the example of the specification. *)
Definition example_record : value :=
  VDict [("CONTEXTS", VList [VStr "A."; VStr "B."]);
         ("LONG_ANSWER", VStr "C."); ("QUESTION", VStr "Q?");
         ("MESHES", VList [VStr "x"]); ("final_decision", VStr "yes")].

(** A record without [QUESTION], [MESHES] and [final_decision]. *)
Definition incomplete_record : value :=
  VDict [("CONTEXTS", VList []); ("LONG_ANSWER", VStr "C.")].

(** The object the example record is flattened to, under the id 1. *)
Definition example_object : value :=
  VDict [("idx", VStr "1"); ("QUESTION", VStr "Q?");
         ("CONCLUSION",
          VStr ("A." +:+ newline +:+ "B." +:+ newline +:+ "C." +:+ newline));
         ("TYPE", VList [VStr "x"]); ("FINAL_DECISION", VStr "yes")].

(** A string between double quotes. *)
Definition quoted (s : string) : string :=
  String dquote (s +:+ String dquote "").

(** The line of the example of the specification: the JSON object with
    the fields idx, QUESTION, CONCLUSION, TYPE and FINAL_DECISION, in that
    order, separated by a comma and a space, followed by a newline. *)
Definition example_line : string :=
  "{" +:+ quoted "idx" +:+ ": " +:+ quoted "1" +:+ ", "
  +:+ quoted "QUESTION" +:+ ": " +:+ quoted "Q?" +:+ ", "
  +:+ quoted "CONCLUSION" +:+ ": " +:+ quoted "A.\nB.\nC.\n" +:+ ", "
  +:+ quoted "TYPE" +:+ ": [" +:+ quoted "x" +:+ "], "
  +:+ quoted "FINAL_DECISION" +:+ ": " +:+ quoted "yes" +:+ "}" +:+ newline.

(** ** A reference generator

    A 64-bit linear congruential generator, and the selection loop of
    [random.sample] on a pool: the drawn item leaves the pool and the last
    item of the pool takes its place. *)

Definition lcg_next (g : Z) : Z :=
  (6364136223846793005 * g + 1442695040888963407) `mod` 2 ^ 64.

Definition lcg_randbelow (n : nat) (g : Z) : nat * Z :=
  let g' := lcg_next g in
  (Z.to_nat ((g' ≫ 33) `mod` Z.of_nat n), g').

Fixpoint pool_sample (k : nat) (pool : list nat) (g : Z) : list nat * Z :=
  match k with
  | O => ([], g)
  | S k' =>
      let '(j, g1) := lcg_randbelow (length pool) g in
      match pool !! j, last pool with
      | Some x, Some y =>
          let '(r, g2) :=
            pool_sample k' (take (length pool - 1) (<[j:=y]> pool)) g1 in
          (x :: r, g2)
      | _, _ => ([], g1)
      end
  end.

Definition lcg_sample_positions (g : Z) (n k : nat) : list nat * Z :=
  pool_sample k (seq 0 n) g.

Arguments lcg_next : simpl never.
Arguments lcg_randbelow : simpl never.


(** ** Further notions *)

(** The value under [CONTEXTS] can be iterated over. *)
Definition contexts_iterable (record : value) : Prop :=
  ∃ fields contexts cs,
    record = VDict fields ∧ dict_get fields "CONTEXTS" = Some contexts ∧
    iterate contexts = inr cs.

(** The characters [' '] to ['~']: ASCII, and no control character. *)
Definition printable_char (a : ascii) : bool :=
  let n := nat_of_ascii a in (32 <=? n)%nat && (n <=? 126)%nat.

Fixpoint printable (s : string) : bool :=
  match s with
  | EmptyString => true
  | String a s' => printable_char a && printable s'
  end.

(** The text of a file made of the given lines. *)
Definition lines_of (texts : list string) : string :=
  foldr (λ t rest, t +:+ newline +:+ rest) "" texts.

(** ** The script

    The statements run when the file is executed, from the call of
    [split_dataset] on: the sizes printed, the three subsets and the index
    lists written with [json.dump(..., indent=2)], and the two files of
    lines.  [data] is what [json.load] has returned; opening and writing
    the files are taken to succeed. *)

(** The defaults of [split_dataset]: 0.96, 0.0, 0.04 and 42. *)
Definition default_train_ratio : float := Eval vm_compute in Float.lit 96 100.
Definition default_val_ratio : float := Eval vm_compute in Float.lit 0 1.
Definition default_test_ratio : float := Eval vm_compute in Float.lit 4 100.
Definition default_seed : Z := 42.

Fixpoint spaces (n : nat) : string :=
  match n with
  | O => ""
  | S n' => String " "%char (spaces n')
  end.

(** A newline and the indentation of a nesting level, two spaces a level. *)
Definition newline_indent (level : nat) : string :=
  newline +:+ spaces (2 * level).

(** The dictionary of the index lists, as a value. *)
Definition indices_value (indices : split_indices) : value :=
  VDict [("train_indices",
          VList ((λ i, VInt (Z.of_nat i)) <$> train_indices indices));
         ("val_indices",
          VList ((λ i, VInt (Z.of_nat i)) <$> val_indices indices));
         ("test_indices",
          VList ((λ i, VInt (Z.of_nat i)) <$> test_indices indices))].

Section Script.
Context `{PyRandom}.
Variable py_str : value → string.

(** [json.dumps(v, indent=2)], at a nesting level: an empty list or
    mapping on one line, the items of the others one a line. *)
Fixpoint json_dumps_indent (level : nat) (v : value) : string :=
  match v with
  | VList l =>
      match l with
      | [] => "[]"
      | _ =>
          "[" +:+ newline_indent (S level)
          +:+ String.concat ("," +:+ newline_indent (S level))
                (map (json_dumps_indent (S level)) l)
          +:+ newline_indent level +:+ "]"
      end
  | VDict d =>
      match d with
      | [] => "{}"
      | _ =>
          "{" +:+ newline_indent (S level)
          +:+ String.concat ("," +:+ newline_indent (S level))
                (map (λ kv, json_string kv.1 +:+ ": "
                            +:+ json_dumps_indent (S level) kv.2) d)
          +:+ newline_indent level +:+ "}"
      end
  | _ => json_dumps py_str v
  end.

(** What the script acts on: the generator, the files and the standard
    output. *)
Record world := {
  generator : rng;
  disk : files;
  stdout : string;
}.

Definition with_generator {A} (m : M rng A) : M world A :=
  λ w, let '(r, g) := m (generator w) in
       (r, {| generator := g; disk := disk w; stdout := stdout w |}).

Definition with_disk {A} (m : M files A) : M world A :=
  λ w, let '(r, fs) := m (disk w) in
       (r, {| generator := generator w; disk := fs; stdout := stdout w |}).

(** [print(text)]. *)
Definition print (text : string) : M world unit :=
  modify (λ w, {| generator := generator w; disk := disk w;
                  stdout := stdout w +:+ (text +:+ newline) |}).

(** [json.dump(v, f, indent=2)] on the file opened under [filename]. *)
Definition json_dump (v : value) (filename : string) : M files unit :=
  write filename (json_dumps_indent 0 v).

(** Lines 93 to 115. *)
Definition main (data : value) : M world unit :=
  '(train_set, val_set, test_set, split_indices) ←
    with_generator
      (split_dataset data default_train_ratio default_val_ratio
         default_test_ratio default_seed);
  print ("Total dataset size: " +:+ pretty (len data));;
  print ("Training set size: " +:+ pretty (len train_set));;
  print ("Validation set size: " +:+ pretty (len val_set));;
  print ("Test set size: " +:+ pretty (len test_set));;
  with_disk (open_w "data/train_set.json";;
             json_dump train_set "data/train_set.json";;
             organize_conclusion py_str train_set "haystack.jsonl");;
  with_disk (open_w "data/val_set.json";;
             json_dump val_set "data/val_set.json");;
  with_disk (open_w "data/test_set.json";;
             json_dump test_set "data/test_set.json";;
             organize_conclusion py_str test_set "needle.jsonl");;
  with_disk (open_w "data/split_indices.json";;
             json_dump (indices_value split_indices)
               "data/split_indices.json").

End Script.

(** The four lines the script prints. *)
Definition size_report (total train val test : nat) : string :=
  lines_of ["Total dataset size: " +:+ pretty total;
            "Training set size: " +:+ pretty train;
            "Validation set size: " +:+ pretty val;
            "Test set size: " +:+ pretty test].

(** The files the script writes. *)
Definition script_files : list string :=
  ["data/train_set.json"; "haystack.jsonl"; "data/val_set.json";
   "data/test_set.json"; "needle.jsonl"; "data/split_indices.json"].

(** Two records for the examples of the script. *)
Definition two_records : list (string * value) :=
  [("1", example_record); ("2", example_record)].

(** A record that lacks [MESHES] and [final_decision]. *)
Definition record_without_meshes : list (string * value) :=
  [("CONTEXTS", VList [VStr "A."]); ("LONG_ANSWER", VStr "C.");
   ("QUESTION", VStr "Q?")].

(** ** The constants and the conversions on examples

    The mantissas and exponents are those of the binary64 numbers the
    decimal literals denote. *)

Example one_value : Float.one = S754_finite false 4503599627370496 (-52).
Proof. reflexivity. Qed.

Example tolerance_value :
  tolerance = S754_finite false 7737125245533627 (-86).
Proof. reflexivity. Qed.

Example lit_0_6 : Float.lit 6 10 = S754_finite false 5404319552844595 (-53).
Proof. vm_compute. reflexivity. Qed.

Example lit_0_2 : Float.lit 2 10 = S754_finite false 7205759403792794 (-55).
Proof. vm_compute. reflexivity. Qed.

Example lit_0_75 : Float.lit 3 4 = S754_finite false 6755399441055744 (-53).
Proof. vm_compute. reflexivity. Qed.

Example lit_minus_0_5 :
  Float.lit (-1) 2 = S754_finite true 4503599627370496 (-53).
Proof. vm_compute. reflexivity. Qed.

Example lit_0 : Float.lit 0 1 = S754_zero false.
Proof. vm_compute. reflexivity. Qed.

(** [int(5 * 0.6) = 3], [int(100 * 0.29) = 28] (the product is
    28.999999999999996), [int(3 * (1/3)) = 1] (the product rounds to 1.0),
    [int(1 * -0.5) = 0] (truncation, not floor). *)
Example split_size_5_0_6 : split_size 5 (Float.lit 6 10) = inr 3.
Proof. vm_compute. reflexivity. Qed.

Example split_size_100_0_29 : split_size 100 (Float.lit 29 100) = inr 28.
Proof. vm_compute. reflexivity. Qed.

Example split_size_3_third : split_size 3 (Float.lit 1 3) = inr 1.
Proof. vm_compute. reflexivity. Qed.

Example split_size_1_minus_half : split_size 1 (Float.lit (-1) 2) = inr 0.
Proof. vm_compute. reflexivity. Qed.

Example floor_minus_half : Float.floor (Float.lit (-1) 2) = Some (-1).
Proof. vm_compute. reflexivity. Qed.

Example float_to_int_nan :
  float_to_int (Float.mul (Float.of_Z 0) (S754_infinity false))
  = inl (ValueError "cannot convert float NaN to integer").
Proof. vm_compute. reflexivity. Qed.

Example dict_of_pairs_duplicate :
  dict_of_pairs [("a", 1); ("b", 2); ("a", 3)] = [("a", 3); ("b", 2)].
Proof. reflexivity. Qed.

Example json_dumps_nested :
  json_dumps (λ _, "") (VList [VInt (-12); VNone; VBool true; VDict []])
  = "[-12, null, true, {}]".
Proof. vm_compute. reflexivity. Qed.

(** ** Facts of binary64 arithmetic *)

Section Rounding.
Variables prec emax : Z.

Lemma shr_1_nonneg mrs : 0 ≤ shr_m mrs → 0 ≤ shr_m (shr_1 mrs).
Proof.
  destruct mrs as [m r s]. simpl.
  destruct m as [|[p|p|]|[p|p|]]; simpl; lia.
Qed.

Lemma iter_shr_1_nonneg p : ∀ mrs,
  0 ≤ shr_m mrs → 0 ≤ shr_m (SpecFloat.iter_pos shr_1 p mrs).
Proof.
  induction p as [p IH|p IH|]; intros mrs Hm; simpl.
  - by apply IH, IH, shr_1_nonneg.
  - by apply IH, IH.
  - by apply shr_1_nonneg.
Qed.

Lemma shr_fexp_nonneg m e l :
  0 ≤ m → 0 ≤ shr_m (shr_fexp prec emax m e l).1.
Proof.
  intros Hm. unfold shr_fexp, shr.
  assert (0 ≤ shr_m (shr_record_of_loc m l)) as H0.
  { by destruct l as [|[| |]]. }
  destruct (fexp prec emax (Zdigits2 m + e) - e) as [|p|p]; simpl; try done.
  by apply iter_shr_1_nonneg.
Qed.

Lemma round_nearest_even_nonneg m l : 0 ≤ m → 0 ≤ round_nearest_even m l.
Proof.
  intros Hm. destruct l as [|[| |]]; simpl; try lia.
  destruct (Z.even m); lia.
Qed.

(** Rounding a non-negative mantissa gives zero, a finite number or an
    infinity, of the sign asked for. *)
Lemma binary_round_aux_sign sx mx ex lx :
  0 ≤ mx →
  match binary_round_aux prec emax sx mx ex lx with
  | S754_zero s | S754_infinity s | S754_finite s _ _ => s = sx
  | S754_nan => False
  end.
Proof.
  intros Hm. unfold binary_round_aux.
  pose proof (shr_fexp_nonneg mx ex lx Hm) as H1.
  destruct (shr_fexp prec emax mx ex lx) as [mrs' e']. simpl in H1.
  pose proof (round_nearest_even_nonneg (shr_m mrs') (loc_of_shr_record mrs') H1) as H2.
  pose proof (shr_fexp_nonneg _ e' loc_Exact H2) as H3.
  destruct (shr_fexp prec emax _ e' loc_Exact) as [mrs'' e'']. simpl in H3.
  destruct (shr_m mrs'') as [|m|m]; [done| |lia].
  by destruct (e'' <=? emax - prec).
Qed.

Lemma binary_round_sign sx mx ex :
  match binary_round prec emax sx mx ex with
  | S754_zero s | S754_infinity s | S754_finite s _ _ => s = sx
  | S754_nan => False
  end.
Proof.
  unfold binary_round.
  destruct (shl_align mx ex _) as [mz ez]. by apply binary_round_aux_sign.
Qed.

Lemma binary_normalize_not_nan m e szero :
  binary_normalize prec emax m e szero ≠ S754_nan.
Proof.
  destruct m as [|p|p]; simpl; [done| |].
  - pose proof (binary_round_sign false p e). by destruct binary_round.
  - pose proof (binary_round_sign true p e). by destruct binary_round.
Qed.

Lemma binary_normalize_sign m e :
  0 ≤ m →
  match binary_normalize prec emax m e false with
  | S754_zero s | S754_infinity s | S754_finite s _ _ => s = false
  | S754_nan => False
  end.
Proof.
  intros Hm. destruct m as [|p|p]; simpl; [done| |lia].
  apply binary_round_sign.
Qed.

End Rounding.

Lemma of_Z_not_nan z : Float.of_Z z ≠ S754_nan.
Proof. apply binary_normalize_not_nan. Qed.

Lemma of_Z_nonneg z : 0 ≤ z → Float.nonneg (Float.of_Z z) = true.
Proof.
  intros Hz. pose proof (binary_normalize_sign 53 1024 z 0 Hz) as Hs.
  unfold Float.of_Z. by destruct binary_normalize; simpl; subst.
Qed.

Lemma mul_nonneg x y :
  Float.nonneg x = true → Float.nonneg y = true →
  Float.mul x y ≠ S754_nan → Float.nonneg (Float.mul x y) = true.
Proof.
  unfold Float.mul. destruct x as [sx|sx| |sx mx ex], y as [sy|sy| |sy my ey];
    simpl; try done; intros Hx Hy Hn; try (by destruct sx, sy).
  apply negb_true_iff in Hx, Hy. subst sx sy.
  pose proof (binary_round_aux_sign 53 1024 (xorb false false)
                (Z.pos (mx * my)) (ex + ey) loc_Exact) as Hs.
  destruct binary_round_aux; simpl in *; try done; by rewrite Hs.
Qed.

(** On the non-negative numbers [int()] is the floor. *)
Lemma trunc_floor x : Float.nonneg x = true → Float.trunc x = Float.floor x.
Proof.
  destruct x as [s|s| |s m e]; simpl; try done.
  intros ->%negb_true_iff. simpl. f_equal.
  destruct (0 <=? e) eqn:He; [done|].
  apply Z.leb_gt in He. rewrite Z.quot_div_nonneg; [lia| |done].
  apply Z.pow_pos_nonneg; lia.
Qed.

Lemma add_not_nan x y :
  x ≠ S754_nan → Float.is_finite y = true → Float.add x y ≠ S754_nan.
Proof.
  unfold Float.add. destruct x as [sx|sx| |sx mx ex], y as [sy|sy| |sy my ey];
    simpl; try done; intros _ _.
  - by destruct sx, sy.
  - apply binary_normalize_not_nan.
Qed.

Lemma sub_not_nan x y :
  x ≠ S754_nan → Float.is_finite y = true → Float.sub x y ≠ S754_nan.
Proof.
  unfold Float.sub. destruct x as [sx|sx| |sx mx ex], y as [sy|sy| |sy my ey];
    simpl; try done; intros _ _.
  - by destruct sx, sy.
  - apply binary_normalize_not_nan.
Qed.

Lemma abs_not_nan x : x ≠ S754_nan → Float.abs x ≠ S754_nan.
Proof. by destruct x. Qed.

Lemma finite_not_nan x : Float.is_finite x = true → x ≠ S754_nan.
Proof. by destruct x. Qed.

(** On numbers, [x < y] is the negation of [y <= x]. *)
Lemma ltb_negb_leb x y :
  x ≠ S754_nan → y ≠ S754_nan → Float.ltb x y = negb (Float.leb y x).
Proof.
  unfold Float.ltb, Float.leb, SFltb, SFleb.
  destruct x as [sx|sx| |sx mx ex], y as [sy|sy| |sy my ey];
    simpl; try done; intros _ _; try (by destruct sx, sy);
    try (by destruct sx); try (by destruct sy).
  change (Pos.compare_cont Eq mx my) with (mx ?= my)%positive.
  change (Pos.compare_cont Eq my mx) with (my ?= mx)%positive.
  rewrite (Z.compare_antisym ey ex) (Pos.compare_antisym my mx).
  by destruct sx, sy, (ey ?= ex), (my ?= mx)%positive.
Qed.

(** ** Selections, set differences and dictionaries *)

Section Select.
Context {A : Type}.
Implicit Types (items xs : list A) (indices : list nat).

Lemma select_inr items indices xs :
  select items indices = inr xs →
  xs = omap (items !!.) indices ∧ length xs = length indices.
Proof.
  revert xs. induction indices as [|i indices IH]; intros xs; simpl.
  { by intros [= <-]. }
  destruct (items !! i) as [x|]; [|done].
  destruct (select items indices) as [e|xs']; [done|].
  intros [= <-]. destruct (IH xs' eq_refl) as [-> Hlen].
  by rewrite /= Hlen.
Qed.

Lemma select_in_range items indices :
  Forall (λ i, (i < length items)%nat) indices →
  ∃ xs, select items indices = inr xs.
Proof.
  induction 1 as [|i indices Hi _ [xs IH]]; simpl; [by eexists|].
  destruct (lookup_lt_is_Some_2 items i Hi) as [x ->].
  rewrite IH. by eexists.
Qed.

Lemma select_inl items indices e :
  select items indices = inl e → e = IndexError "list index out of range".
Proof.
  induction indices as [|i indices IH]; simpl; [done|].
  destruct (items !! i); [|by intros [= <-]].
  destruct (select items indices); [|done].
  intros [= <-]. by apply IH.
Qed.

Lemma omap_lookup_seq_app pre items :
  omap ((pre ++ items) !!.) (seq (length pre) (length items)) = items.
Proof.
  revert pre. induction items as [|x items IH]; intros pre; simpl; [done|].
  rewrite list_lookup_middle //. f_equal.
  specialize (IH (pre ++ [x])).
  by rewrite -app_assoc length_app /= Nat.add_1_r in IH.
Qed.

Lemma omap_lookup_seq items : omap (items !!.) (seq 0 (length items)) = items.
Proof. apply (omap_lookup_seq_app []). Qed.

Lemma NoDup_omap_lookup items indices :
  NoDup items → NoDup indices → NoDup (omap (items !!.) indices).
Proof.
  intros Hitems. induction 1 as [|i indices Hi Hnd IH]; simpl; [constructor|].
  destruct (items !! i) as [x|] eqn:Hx; [|done].
  apply NoDup_cons. split; [|done].
  intros (j & Hj & Hjx)%list_elem_of_omap.
  by rewrite (NoDup_lookup items i j x) in Hi.
Qed.

Lemma elem_of_omap_lookup items indices x :
  x ∈ omap (items !!.) indices → x ∈ items.
Proof.
  intros (j & _ & Hj)%list_elem_of_omap. by eapply list_elem_of_lookup_2.
Qed.

End Select.

Lemma elem_of_set_difference x xs ys :
  x ∈ set_difference xs ys ↔ x ∈ xs ∧ x ∉ ys.
Proof.
  unfold set_difference.
  by rewrite elem_of_elements elem_of_difference !elem_of_list_to_set.
Qed.

Lemma NoDup_set_difference xs ys : NoDup (set_difference xs ys).
Proof. apply NoDup_elements. Qed.

(** Removing a selection from a duplicate-free list: the selection and the
    difference together are the list, in some order. *)
Lemma set_difference_perm xs ys :
  NoDup xs → NoDup ys → ys ⊆ xs → ys ++ set_difference xs ys ≡ₚ xs.
Proof.
  intros Hxs Hys Hsub. apply NoDup_Permutation; [|done|].
  - apply NoDup_app. split; [done|]. split; [|apply NoDup_set_difference].
    intros x Hx. rewrite elem_of_set_difference. tauto.
  - intros x. rewrite elem_of_app elem_of_set_difference.
    destruct (decide (x ∈ ys)); naive_solver.
Qed.

Section Dict.
Context {V : Type}.
Implicit Types (d : list (string * V)).

Lemma dict_set_fresh k v d :
  k ∉ dict_keys d → dict_set k v d = d ++ [(k, v)].
Proof.
  induction d as [|[k' v'] d IH]; simpl; [done|].
  rewrite not_elem_of_cons. intros [Hne Hk].
  rewrite decide_False; [done|]. by rewrite IH.
Qed.

Lemma dict_of_pairs_app acc d :
  dict_wf (acc ++ d) →
  foldl (λ d kv, dict_set kv.1 kv.2 d) acc d = acc ++ d.
Proof.
  revert acc. induction d as [|[k v] d IH]; intros acc Hwf; simpl.
  { by rewrite app_nil_r. }
  rewrite dict_set_fresh.
  - unfold dict_wf, dict_keys in Hwf.
    rewrite fmap_app /= in Hwf. apply NoDup_app in Hwf as (_ & Hwf & _).
    intros Hk. apply (Hwf k Hk). left.
  - rewrite IH -app_assoc //.
Qed.

(** A duplicate-free list of pairs is the [dict] made of it. *)
Lemma dict_of_pairs_wf d : dict_wf d → dict_of_pairs d = d.
Proof. intros Hwf. by apply (dict_of_pairs_app []). Qed.

Lemma dict_wf_perm d d' : d ≡ₚ d' → dict_wf d → dict_wf d'.
Proof. unfold dict_wf, dict_keys. by intros ->. Qed.

Lemma dict_wf_app_l d d' : dict_wf (d ++ d') → dict_wf d.
Proof.
  unfold dict_wf, dict_keys. rewrite fmap_app. by intros (? & _)%NoDup_app.
Qed.

Lemma dict_wf_app_r d d' : dict_wf (d ++ d') → dict_wf d'.
Proof.
  unfold dict_wf, dict_keys. rewrite fmap_app. by intros (_ & _ & ?)%NoDup_app.
Qed.

Lemma dict_get_elem_of d k v : dict_wf d → (k, v) ∈ d → dict_get d k = Some v.
Proof.
  induction d as [|[k' v'] d IH]; simpl; [by intros _ ?%elem_of_nil|].
  unfold dict_wf, dict_keys. rewrite fmap_cons NoDup_cons /=.
  intros [Hk Hnd] [[= -> ->]|Hin]%elem_of_cons.
  - by rewrite decide_True.
  - rewrite decide_False; [|by apply IH].
    intros ->. apply Hk. by apply (list_elem_of_fmap_2 fst _ (k, v)).
Qed.

End Dict.

(** ** The splitter, step by step *)

Ltac unfold_M :=
  unfold mbind, M_bind, run_bind, mret, M_ret, mthrow, M_throw, lift, modify.

Section SplitterFacts.
Context `{PyRandom}.

Lemma random_sample_fail {A} (population : list A) k g :
  ¬ (0 ≤ k ≤ Z.of_nat (length population)) →
  random.sample population k g = (inl sample_error, g).
Proof. intros Hk. unfold random.sample. by rewrite bool_decide_false. Qed.

Lemma random_sample_ok {A} (population : list A) k g :
  0 ≤ k ≤ Z.of_nat (length population) →
  ∃ xs g', random.sample population k g = (inr xs, g') ∧
    length xs = Z.to_nat k ∧
    (NoDup population → NoDup xs) ∧
    (∀ x, x ∈ xs → x ∈ population).
Proof.
  intros Hk. unfold random.sample. rewrite bool_decide_true //.
  assert (Z.to_nat k ≤ length population)%nat as Hle by lia.
  pose proof (sample_positions_length g _ _ Hle) as Hlen.
  pose proof (sample_positions_NoDup g _ _ Hle) as Hnd.
  pose proof (λ i, sample_positions_lt g _ _ i Hle) as Hlt.
  destruct (sample_positions g (length population) (Z.to_nat k))
    as [positions g']. simpl in *.
  destruct (select_in_range population positions) as [xs Hxs].
  { apply Forall_forall. intros i Hi. by apply Hlt. }
  exists xs, g'. rewrite Hxs. apply select_inr in Hxs as [-> Hxs].
  split; [done|]. split; [lia|]. split.
  - intros Hpop. by apply NoDup_omap_lookup.
  - intros x. apply elem_of_omap_lookup.
Qed.

Lemma split_items_run {A} (items : list A) train_ratio val_ratio g :
  let n := length items in
  match split_size n train_ratio, split_size n val_ratio with
  | inl e, _ => split_items items train_ratio val_ratio g = (inl e, g)
  | inr _, inl e => split_items items train_ratio val_ratio g = (inl e, g)
  | inr a, inr b =>
      if bool_decide (0 ≤ a ≤ Z.of_nat n) then
        if bool_decide (0 ≤ b ≤ Z.of_nat n - a) then
          ∃ r g', split_items items train_ratio val_ratio g = (inr r, g') ∧
            good_split items a b r
        else
          ∃ g', split_items items train_ratio val_ratio g
                = (inl sample_error, g')
      else split_items items train_ratio val_ratio g = (inl sample_error, g)
  end.
Proof.
  intros n. unfold split_items. unfold_M. fold n.
  destruct (split_size n train_ratio) as [e|a]; [done|].
  destruct (split_size n val_ratio) as [e|b]; [done|].
  case_bool_decide as Ha.
  2:{ rewrite random_sample_fail //. by rewrite length_seq. }
  destruct (random_sample_ok (seq 0 n) a g) as (tr & g1 & -> & Htr & Hnd & Hin).
  { by rewrite length_seq. }
  specialize (Hnd (NoDup_seq _ _)).
  pose proof (set_difference_perm (seq 0 n) tr (NoDup_seq _ _) Hnd Hin) as Hrem.
  set (remaining := set_difference (seq 0 n) tr) in *.
  assert (length remaining = (n - Z.to_nat a)%nat) as Hlen.
  { apply Permutation_length in Hrem.
    rewrite length_app length_seq in Hrem. lia. }
  case_bool_decide as Hb.
  2:{ exists g1. rewrite random_sample_fail //. lia. }
  destruct (random_sample_ok remaining b g1) as (va & g2 & -> & Hva & Hnd' & Hin').
  { lia. }
  specialize (Hnd' (NoDup_set_difference _ _)).
  pose proof (set_difference_perm remaining va
                (NoDup_set_difference _ _) Hnd' Hin') as Htest.
  set (te := set_difference remaining va) in *.
  assert (tr ++ va ++ te ≡ₚ seq 0 n) as Hperm by by rewrite Htest.
  assert (Forall (λ i, (i < length items)%nat) (tr ++ va ++ te)) as Hrange.
  { rewrite Hperm. apply Forall_forall. intros i Hi%elem_of_seq. lia. }
  apply Forall_app in Hrange as [Hr1 Hrange].
  apply Forall_app in Hrange as [Hr2 Hr3].
  destruct (select_in_range items tr Hr1) as [xs1 Hs1].
  destruct (select_in_range items va Hr2) as [xs2 Hs2].
  destruct (select_in_range items te Hr3) as [xs3 Hs3].
  rewrite Hs1 Hs2 Hs3.
  apply select_inr in Hs1 as [-> ?], Hs2 as [-> ?], Hs3 as [-> ?].
  eexists _, g2. split; [done|]. simpl. by repeat split.
Qed.

(** The items of the three subsets are the items of the input. *)
Lemma good_split_items {A} (items : list A) a b train_set val_set test_set idx :
  good_split items a b (train_set, val_set, test_set, idx) →
  train_set ++ val_set ++ test_set ≡ₚ items.
Proof.
  intros (_ & _ & Hperm & -> & -> & -> & _).
  by rewrite -!omap_app Hperm omap_lookup_seq.
Qed.

(** The three index lists partition the index range. *)
Lemma good_split_indices {A} (items : list A) a b r :
  good_split items a b r →
  NoDup (train_indices r.2) ∧ NoDup (val_indices r.2) ∧
  NoDup (test_indices r.2) ∧
  (∀ i, i ∈ train_indices r.2 → i ∉ val_indices r.2) ∧
  (∀ i, i ∈ train_indices r.2 → i ∉ test_indices r.2) ∧
  (∀ i, i ∈ val_indices r.2 → i ∉ test_indices r.2) ∧
  (∀ i, i ∈ train_indices r.2 ∨ i ∈ val_indices r.2 ∨ i ∈ test_indices r.2
        ↔ (i < length items)%nat).
Proof.
  destruct r as [[[tr va] te] idx]. simpl.
  intros (_ & _ & Hperm & _).
  assert (NoDup (train_indices idx ++ val_indices idx ++ test_indices idx))
    as Hnd by (rewrite Hperm; apply NoDup_seq).
  apply NoDup_app in Hnd as (Hn1 & Hd1 & Hnd).
  apply NoDup_app in Hnd as (Hn2 & Hd2 & Hn3).
  repeat split; try done.
  - intros i Hi Hv. apply (Hd1 i Hi), elem_of_app. by left.
  - intros i Hi Hv. apply (Hd1 i Hi), elem_of_app. by right.
  - rewrite -!elem_of_app Hperm elem_of_seq. lia.
  - rewrite -!elem_of_app Hperm elem_of_seq. lia.
Qed.

Lemma good_split_test_size {A} (items : list A) a b r :
  0 ≤ a → 0 ≤ b → good_split items a b r →
  Z.of_nat (length (test_indices r.2)) = Z.of_nat (length items) - a - b.
Proof.
  destruct r as [[[tr va] te] idx]. simpl.
  intros ? ? (Ha & Hb & Hperm & _).
  apply Permutation_length in Hperm.
  rewrite !length_app length_seq in Hperm. lia.
Qed.

End SplitterFacts.

Section SplitDatasetFacts.
Context `{PyRandom}.

Lemma split_size_inl n ratio e :
  split_size n ratio = inl e → e ≠ ratio_error ∧ e ≠ sample_error.
Proof.
  unfold split_size, int_to_float, float_to_int.
  destruct (Float.of_Z _); try (by intros [= <-]);
    destruct (Float.mul _ _); by intros [= <-].
Qed.

Lemma split_items_inl {A} (items : list A) train_ratio val_ratio g e g' :
  split_items items train_ratio val_ratio g = (inl e, g') → e ≠ ratio_error.
Proof.
  pose proof (split_items_run items train_ratio val_ratio g) as Hrun.
  simpl in Hrun.
  destruct (split_size _ train_ratio) as [e1|a] eqn:Ha.
  { rewrite Hrun. intros [= <- _]. by apply split_size_inl in Ha as []. }
  destruct (split_size _ val_ratio) as [e2|b] eqn:Hb.
  { rewrite Hrun. intros [= <- _]. by apply split_size_inl in Hb as []. }
  repeat case_bool_decide.
  - destruct Hrun as (r & g1 & -> & _). done.
  - destruct Hrun as (g1 & ->). by intros [= <- _].
  - rewrite Hrun. by intros [= <- _].
Qed.

(** [split_dataset] after its two checks: the generator is seeded, then the
    items are split. *)
Lemma split_dataset_list l train_ratio val_ratio test_ratio seed g :
  ratio_check_fails train_ratio val_ratio test_ratio = false →
  split_dataset (VList l) train_ratio val_ratio test_ratio seed g =
    match split_items l train_ratio val_ratio (seeded seed) with
    | (inr (train_set, val_set, test_set, indices), g') =>
        (inr (VList train_set, VList val_set, VList test_set, indices), g')
    | (inl e, g') => (inl e, g')
    end.
Proof.
  intros Hc. unfold split_dataset. rewrite Hc /=. unfold_M.
  unfold random.seed.
  by destruct (split_items l _ _ _) as [[e|[[[??]?]?]] ?].
Qed.

Lemma split_dataset_dict d train_ratio val_ratio test_ratio seed g :
  ratio_check_fails train_ratio val_ratio test_ratio = false →
  split_dataset (VDict d) train_ratio val_ratio test_ratio seed g =
    match split_items d train_ratio val_ratio (seeded seed) with
    | (inr (train_set, val_set, test_set, indices), g') =>
        (inr (VDict (dict_of_pairs train_set), VDict (dict_of_pairs val_set),
              VDict (dict_of_pairs test_set), indices), g')
    | (inl e, g') => (inl e, g')
    end.
Proof.
  intros Hc. unfold split_dataset. rewrite Hc /=. unfold_M.
  unfold random.seed.
  by destruct (split_items d _ _ _) as [[e|[[[??]?]?]] ?].
Qed.

Lemma split_dataset_type_error data train_ratio val_ratio test_ratio seed g :
  is_list_or_dict data = false →
  split_dataset data train_ratio val_ratio test_ratio seed g
  = (inl type_error, g).
Proof. intros Hd. unfold split_dataset. by rewrite Hd. Qed.

Lemma split_dataset_ratio_error data train_ratio val_ratio test_ratio seed g :
  is_list_or_dict data = true →
  ratio_check_fails train_ratio val_ratio test_ratio = true →
  split_dataset data train_ratio val_ratio test_ratio seed g
  = (inl ratio_error, g).
Proof. intros Hd Hc. unfold split_dataset. by rewrite Hd Hc. Qed.

(** The subsets of a mapping, as lists of pairs, are the mappings made of
    them: no key occurs twice. *)
Lemma good_split_dicts {V} (d : list (string * V)) a b xs ys zs idx :
  dict_wf d → good_split d a b (xs, ys, zs, idx) →
  dict_of_pairs xs = xs ∧ dict_of_pairs ys = ys ∧ dict_of_pairs zs = zs.
Proof.
  intros Hwf Hgood%good_split_items.
  apply (dict_wf_perm _ _ (symmetry Hgood)) in Hwf.
  pose proof (dict_wf_app_l _ _ Hwf) as H1.
  apply dict_wf_app_r in Hwf.
  pose proof (dict_wf_app_l _ _ Hwf) as H2.
  apply dict_wf_app_r in Hwf.
  by rewrite !dict_of_pairs_wf.
Qed.

(** What a returning call has done. *)
Lemma split_dataset_inr data train_ratio val_ratio test_ratio seed g
    train_set val_set test_set idx g' :
  data_wf data →
  split_dataset data train_ratio val_ratio test_ratio seed g
  = (inr (train_set, val_set, test_set, idx), g') →
  ratio_check_fails train_ratio val_ratio test_ratio = false ∧
  ∃ a b,
    split_size (len data) train_ratio = inr a ∧
    split_size (len data) val_ratio = inr b ∧
    0 ≤ a ∧ 0 ≤ b ∧ a + b ≤ Z.of_nat (len data) ∧
    match data with
    | VList l =>
        ∃ xs ys zs, train_set = VList xs ∧ val_set = VList ys ∧
          test_set = VList zs ∧ good_split l a b (xs, ys, zs, idx)
    | VDict d =>
        ∃ xs ys zs, train_set = VDict xs ∧ val_set = VDict ys ∧
          test_set = VDict zs ∧ good_split d a b (xs, ys, zs, idx)
    | _ => False
    end.
Proof.
  intros Hwf Hrun.
  destruct (is_list_or_dict data) eqn:Hd.
  2:{ by rewrite split_dataset_type_error in Hrun. }
  destruct (ratio_check_fails train_ratio val_ratio test_ratio) eqn:Hc.
  { by rewrite split_dataset_ratio_error in Hrun. }
  split; [done|].
  destruct data as [| | | | |l|d]; try discriminate Hd; cbn [len].
  - rewrite (split_dataset_list _ _ _ _ _ _ Hc) in Hrun.
    pose proof (split_items_run l train_ratio val_ratio (seeded seed)) as Hr.
    simpl in Hr.
    destruct (split_size _ train_ratio) as [e1|a];
      [by rewrite Hr in Hrun|].
    destruct (split_size _ val_ratio) as [e2|b];
      [by rewrite Hr in Hrun|].
    case_bool_decide; [|by rewrite Hr in Hrun].
    case_bool_decide; [|by destruct Hr as (? & Hr); rewrite Hr in Hrun].
    destruct Hr as ([[[xs ys] zs] idx'] & g1 & Hr & Hgood).
    rewrite Hr in Hrun. injection Hrun as <- <- <- <- <-.
    exists a, b. split; [done|]. split; [done|].
    split; [lia|]. split; [lia|]. split; [lia|]. 
    exists xs, ys, zs. do 3 (split; [reflexivity|]). exact Hgood.
  - rewrite (split_dataset_dict _ _ _ _ _ _ Hc) in Hrun.
    pose proof (split_items_run d train_ratio val_ratio (seeded seed)) as Hr.
    simpl in Hr.
    destruct (split_size _ train_ratio) as [e1|a];
      [by rewrite Hr in Hrun|].
    destruct (split_size _ val_ratio) as [e2|b];
      [by rewrite Hr in Hrun|].
    case_bool_decide; [|by rewrite Hr in Hrun].
    case_bool_decide; [|by destruct Hr as (? & Hr); rewrite Hr in Hrun].
    destruct Hr as ([[[xs ys] zs] idx'] & g1 & Hr & Hgood).
    rewrite Hr in Hrun.
    destruct (good_split_dicts d a b xs ys zs idx' Hwf Hgood) as (E1 & E2 & E3).
    rewrite E1 E2 E3 in Hrun. injection Hrun as <- <- <- <- <-.
    exists a, b. split; [done|]. split; [done|].
    split; [lia|]. split; [lia|]. split; [lia|]. 
    exists xs, ys, zs. do 3 (split; [reflexivity|]). exact Hgood.
Qed.

(** When the sizes fit the population, the call returns. *)
Lemma split_dataset_returns data train_ratio val_ratio test_ratio seed g a b :
  is_list_or_dict data = true →
  ratio_check_fails train_ratio val_ratio test_ratio = false →
  split_size (len data) train_ratio = inr a →
  split_size (len data) val_ratio = inr b →
  0 ≤ a → 0 ≤ b → a + b ≤ Z.of_nat (len data) →
  ∃ r g', split_dataset data train_ratio val_ratio test_ratio seed g
          = (inr r, g').
Proof.
  intros Hd Hc Ha Hb ? ? ?.
  destruct data as [| | | | |l|d]; try discriminate Hd; cbn [len] in *.
  - rewrite (split_dataset_list _ _ _ _ _ _ Hc).
    pose proof (split_items_run l train_ratio val_ratio (seeded seed)) as Hr.
    simpl in Hr. rewrite Ha Hb in Hr.
    rewrite !bool_decide_true in Hr; [lia..|].
    destruct Hr as ([[[xs ys] zs] idx'] & g1 & -> & _). by eexists _, _.
  - rewrite (split_dataset_dict _ _ _ _ _ _ Hc).
    pose proof (split_items_run d train_ratio val_ratio (seeded seed)) as Hr.
    simpl in Hr. rewrite Ha Hb in Hr.
    rewrite !bool_decide_true in Hr; [lia..|].
    destruct Hr as ([[[xs ys] zs] idx'] & g1 & -> & _). by eexists _, _.
Qed.

(** When a size does not fit the population, the sampling step raises. *)
Lemma split_dataset_sample_error data train_ratio val_ratio test_ratio seed g
    a b :
  is_list_or_dict data = true →
  ratio_check_fails train_ratio val_ratio test_ratio = false →
  split_size (len data) train_ratio = inr a →
  split_size (len data) val_ratio = inr b →
  ¬ (0 ≤ a ∧ 0 ≤ b ∧ a + b ≤ Z.of_nat (len data)) →
  (split_dataset data train_ratio val_ratio test_ratio seed g).1
  = inl sample_error.
Proof.
  intros Hd Hc Ha Hb Hfit.
  destruct data as [| | | | |l|d]; try discriminate Hd; cbn [len] in *.
  - rewrite (split_dataset_list _ _ _ _ _ _ Hc).
    pose proof (split_items_run l train_ratio val_ratio (seeded seed)) as Hr.
    simpl in Hr. rewrite Ha Hb in Hr.
    repeat case_bool_decide; [lia| |].
    + by destruct Hr as (g1 & ->).
    + by rewrite Hr.
  - rewrite (split_dataset_dict _ _ _ _ _ _ Hc).
    pose proof (split_items_run d train_ratio val_ratio (seeded seed)) as Hr.
    simpl in Hr. rewrite Ha Hb in Hr.
    repeat case_bool_decide; [lia| |].
    + by destruct Hr as (g1 & ->).
    + by rewrite Hr.
Qed.

(** The ratio error comes from the ratio check only. *)
Lemma split_dataset_ratio_error_inv data train_ratio val_ratio test_ratio
    seed g :
  (split_dataset data train_ratio val_ratio test_ratio seed g).1
  = inl ratio_error →
  ratio_check_fails train_ratio val_ratio test_ratio = true.
Proof.
  destruct (is_list_or_dict data) eqn:Hd.
  2:{ by rewrite split_dataset_type_error. }
  destruct (ratio_check_fails train_ratio val_ratio test_ratio) eqn:Hc; [done|].
  destruct data as [| | | | |l|d]; try discriminate Hd.
  - rewrite (split_dataset_list _ _ _ _ _ _ Hc).
    destruct (split_items l _ _ _) as [[e|[[[??]?]?]] ?] eqn:Hs; [|done].
    simpl. intros [= ->]. by apply split_items_inl in Hs.
  - rewrite (split_dataset_dict _ _ _ _ _ _ Hc).
    destruct (split_items d _ _ _) as [[e|[[[??]?]?]] ?] eqn:Hs; [|done].
    simpl. intros [= ->]. by apply split_items_inl in Hs.
Qed.

End SplitDatasetFacts.

(** ** Sizes *)

Lemma leb_ltb x y : Float.leb x y = true → Float.ltb y x = false.
Proof.
  intros Hle. rewrite ltb_negb_leb.
  - intros ->. by destruct x.
  - intros ->. by destruct y as [| | |[] ? ?].
  - by rewrite Hle.
Qed.

Lemma sums_to_one_check train_ratio val_ratio test_ratio :
  sums_to_one train_ratio val_ratio test_ratio →
  ratio_check_fails train_ratio val_ratio test_ratio = false.
Proof. apply leb_ltb. Qed.

(** For numbers that are not NaN the check fails exactly when the sum is
    not within the tolerance. *)
Lemma ratio_check_fails_iff train_ratio val_ratio test_ratio :
  Float.is_finite train_ratio = true → Float.is_finite val_ratio = true →
  Float.is_finite test_ratio = true →
  ratio_check_fails train_ratio val_ratio test_ratio = true
  ↔ ¬ sums_to_one train_ratio val_ratio test_ratio.
Proof.
  intros H1 H2 H3. unfold ratio_check_fails, sums_to_one.
  rewrite ltb_negb_leb.
  - done.
  - apply abs_not_nan, sub_not_nan; [|done].
    apply add_not_nan; [|done]. apply add_not_nan; [|done].
    by apply finite_not_nan.
  - by destruct Float.leb; simpl; split.
Qed.

(** [int(total_size * ratio)] is the floor of the product when the ratio is
    not negative. *)
Lemma split_size_floor n ratio a :
  Float.nonneg ratio = true → split_size n ratio = inr a →
  Float.floor (Float.mul (Float.of_Z (Z.of_nat n)) ratio) = Some a ∧ 0 ≤ a.
Proof.
  intros Hr. unfold split_size, int_to_float.
  pose proof (of_Z_nonneg (Z.of_nat n) (Nat2Z.is_nonneg n)) as Hn.
  set (x := Float.of_Z (Z.of_nat n)) in *.
  assert (float_to_int (Float.mul x ratio) = inr a →
          Float.floor (Float.mul x ratio) = Some a ∧ 0 ≤ a) as Hgoal.
  { intros Hf. pose proof (mul_nonneg x ratio Hn Hr) as Hm.
    assert (Float.nonneg (Float.mul x ratio) = true) as Hnn.
    { apply Hm. intros E. by rewrite E in Hf. }
    rewrite -trunc_floor; [done|]. clear Hm.
    destruct (Float.mul x ratio) as [s|s| |s m e]; simpl in *; try done.
    - by injection Hf as <-.
    - apply negb_true_iff in Hnn as ->. injection Hf as <-. split; [done|].
      simpl. destruct (0 <=? e) eqn:He; [lia|]. apply Z.leb_gt in He.
      apply Z.quot_pos; [lia|]. apply Z.pow_pos_nonneg; lia. }
  by destruct x.
Qed.

Lemma split_size_zero_ratio n ratio a s :
  split_size n ratio = inr a → split_size n (S754_zero s) = inr 0.
Proof.
  unfold split_size, int_to_float.
  pose proof (of_Z_not_nan (Z.of_nat n)) as Hn.
  destruct (Float.of_Z (Z.of_nat n)); try done.
Qed.

Lemma split_size_empty ratio :
  Float.is_finite ratio = true → split_size 0 ratio = inr 0.
Proof. by destruct ratio. Qed.

(** ** The reference generator meets the contract *)

Lemma pool_step_perm (pool : list nat) j x y :
  pool !! j = Some x → last pool = Some y →
  x :: take (length pool - 1) (<[j:=y]> pool) ≡ₚ pool.
Proof.
  intros Hj Hl.
  apply last_Some in Hl as [init ->].
  rewrite length_app /= Nat.add_sub.
  destruct (decide (j = length init)) as [->|Hne].
  - rewrite list_lookup_middle // in Hj. injection Hj as <-.
    rewrite insert_app_r_alt; [lia|]. rewrite Nat.sub_diag /=.
    rewrite take_app_length. by rewrite Permutation_cons_append.
  - assert (j < length init)%nat as Hlt.
    { apply lookup_lt_Some in Hj. rewrite length_app /= in Hj. lia. }
    rewrite lookup_app_l // in Hj.
    rewrite insert_app_l //.
    rewrite take_app_length'; [by rewrite length_insert|].
    rewrite insert_take_drop //.
    rewrite -{3}(take_drop_middle init j x) //.
    rewrite -Permutation_cons_append.
    rewrite -!Permutation_middle. apply perm_swap.
Qed.

Lemma lcg_randbelow_lt n g : (0 < n)%nat → ((lcg_randbelow n g).1 < n)%nat.
Proof.
  intros Hn. unfold lcg_randbelow. cbv zeta. cbn [fst].
  generalize (lcg_next g ≫ 33). intros z.
  pose proof (Z.mod_pos_bound z (Z.of_nat n)). lia.
Qed.

#[local] Opaque lcg_randbelow lcg_next.

Lemma pool_sample_spec k : ∀ (pool : list nat) g,
  (k ≤ length pool)%nat → NoDup pool →
  length (pool_sample k pool g).1 = k ∧
  NoDup (pool_sample k pool g).1 ∧
  (pool_sample k pool g).1 ⊆ pool.
Proof.
  induction k as [|k IH]; intros pool g Hk Hnd; simpl.
  { split; [done|]. split; [constructor|]. set_solver. }
  destruct (lcg_randbelow (length pool) g) as [j g1] eqn:Hr.
  assert (j < length pool)%nat as Hj.
  { pose proof (lcg_randbelow_lt (length pool) g) as Hlt.
    rewrite Hr in Hlt. apply Hlt. lia. }
  destruct (lookup_lt_is_Some_2 pool j Hj) as [x Hx]. rewrite Hx.
  destruct (last pool) as [y|] eqn:Hy.
  2:{ apply last_None in Hy. subst. simpl in Hk. lia. }
  pose proof (pool_step_perm pool j x y Hx Hy) as Hperm.
  set (pool' := take (length pool - 1) (<[j:=y]> pool)) in *.
  assert (NoDup (x :: pool')) as Hnd' by by rewrite Hperm.
  apply NoDup_cons in Hnd' as [Hx' Hnd'].
  assert (length pool' = (length pool - 1)%nat) as Hlen.
  { apply Permutation_length in Hperm. simpl in Hperm. lia. }
  destruct (IH pool' g1) as (IH1 & IH2 & IH3); [lia|done|].
  destruct (pool_sample k pool' g1) as [r g2]. simpl in *.
  split; [lia|]. split.
  - apply NoDup_cons. split; [|done]. intros Hin. apply Hx', IH3, Hin.
  - intros z Hz. rewrite -Hperm. set_solver.
Qed.

#[local] Program Instance lcg_random : PyRandom := {|
  rng := Z;
  seeded a := a `mod` 2 ^ 64;
  sample_positions := lcg_sample_positions;
|}.
Next Obligation.
  intros g n k Hk. apply pool_sample_spec; [by rewrite length_seq|apply NoDup_seq].
Qed.
Next Obligation.
  intros g n k Hk. apply pool_sample_spec; [by rewrite length_seq|apply NoDup_seq].
Qed.
Next Obligation.
  intros g n k i Hk Hi.
  apply pool_sample_spec in Hi; [|by rewrite length_seq|apply NoDup_seq].
  apply elem_of_seq in Hi. lia.
Qed.


(** ** Properties of the splitter *)

(** C2: the outcome of [split_dataset] (the subsets and the index lists, or
    the exception raised) is a function of its explicit arguments: two calls
    with the same data, ratios and seed give the same outcome whatever state
    the process-wide generator is in when they are made, since the
    generator is seeded with the supplied seed before any sampling. *)
Theorem split_dataset_deterministic `{PyRandom}
    data train_ratio val_ratio test_ratio seed (g1 g2 : rng) :
  (split_dataset data train_ratio val_ratio test_ratio seed g1).1
  = (split_dataset data train_ratio val_ratio test_ratio seed g2).1.
Proof.
  unfold split_dataset.
  destruct (negb (is_list_or_dict data)); [reflexivity|].
  destruct (ratio_check_fails train_ratio val_ratio test_ratio);
    reflexivity.
Qed.

(** C1 (as amended): for every list or mapping and every ratio triple that
    sums to 1.0 within 1e-10 and whose sizes [int(total * train_ratio)] and
    [int(total * val_ratio)] are not negative and together at most [total],
    [split_dataset] returns, the sizes of the three subsets add up to
    [len(data)], and the three index lists are duplicate-free, pairwise
    disjoint and cover exactly the positions below [len(data)]. *)
Theorem split_dataset_partition `{PyRandom}
    data train_ratio val_ratio test_ratio seed (g : rng) a b :
  is_list_or_dict data = true → data_wf data →
  sums_to_one train_ratio val_ratio test_ratio →
  split_size (len data) train_ratio = inr a →
  split_size (len data) val_ratio = inr b →
  0 ≤ a → 0 ≤ b → a + b ≤ Z.of_nat (len data) →
  ∃ train_set val_set test_set idx g',
    split_dataset data train_ratio val_ratio test_ratio seed g
    = (inr (train_set, val_set, test_set, idx), g') ∧
    (len train_set + len val_set + len test_set = len data)%nat ∧
    NoDup (train_indices idx) ∧ NoDup (val_indices idx) ∧
    NoDup (test_indices idx) ∧
    (∀ i, i ∈ train_indices idx → i ∉ val_indices idx) ∧
    (∀ i, i ∈ train_indices idx → i ∉ test_indices idx) ∧
    (∀ i, i ∈ val_indices idx → i ∉ test_indices idx) ∧
    (∀ i, i ∈ train_indices idx ∨ i ∈ val_indices idx ∨ i ∈ test_indices idx
          ↔ (i < len data)%nat).
Proof.
  intros Hd Hwf Hc%sums_to_one_check Ha Hb ? ? ?.
  destruct (split_dataset_returns data train_ratio val_ratio test_ratio seed g
              a b Hd Hc Ha Hb) as ([[[tr va] te] idx] & g' & Hrun); [lia..|].
  exists tr, va, te, idx, g'. split; [exact Hrun|].
  apply split_dataset_inr in Hrun as (_ & a' & b' & _ & _ & _ & _ & _ & Hgood);
    [|exact Hwf].
  destruct data as [| | | | |l|d]; try (by destruct Hgood);
    destruct Hgood as (xs & ys & zs & -> & -> & -> & Hgood);
    pose proof (good_split_indices _ _ _ _ Hgood) as Hidx;
    apply good_split_items, Permutation_length in Hgood;
    rewrite !length_app in Hgood; cbn [len]; (split; [lia|exact Hidx]).
Qed.

(** C3: for every valid input (ratios that are not negative) on which
    [split_dataset] returns, the train subset and the train index list have
    [floor(total * train_ratio)] elements, the val subset and the val index
    list have [floor(total * val_ratio)] elements, the products being binary64
    products, and the test index list is made of all the remaining
    positions: its size is [total] minus the two other sizes. *)
Theorem split_dataset_sizes `{PyRandom}
    data train_ratio val_ratio test_ratio seed (g : rng)
    train_set val_set test_set idx g' :
  data_wf data →
  Float.nonneg train_ratio = true → Float.nonneg val_ratio = true →
  split_dataset data train_ratio val_ratio test_ratio seed g
  = (inr (train_set, val_set, test_set, idx), g') →
  ∃ a b,
    Float.floor (Float.mul (Float.of_Z (Z.of_nat (len data))) train_ratio)
    = Some a ∧
    Float.floor (Float.mul (Float.of_Z (Z.of_nat (len data))) val_ratio)
    = Some b ∧
    Z.of_nat (len train_set) = a ∧
    Z.of_nat (length (train_indices idx)) = a ∧
    Z.of_nat (len val_set) = b ∧
    Z.of_nat (length (val_indices idx)) = b ∧
    (∀ i, i ∈ test_indices idx ↔
          (i < len data)%nat ∧ (i ∉ train_indices idx) ∧ (i ∉ val_indices idx)) ∧
    Z.of_nat (len test_set) = Z.of_nat (len data) - a - b ∧
    Z.of_nat (length (test_indices idx)) = Z.of_nat (len data) - a - b.
Proof.
  intros Hwf Htr Hva Hrun.
  apply split_dataset_inr in Hrun
    as (_ & a & b & Ha & Hb & H0 & H1 & _ & Hgood); [|exact Hwf].
  apply (split_size_floor _ _ _ Htr) in Ha as [Ha _].
  apply (split_size_floor _ _ _ Hva) in Hb as [Hb _].
  exists a, b. split; [exact Ha|]. split; [exact Hb|]. clear Ha Hb.
  assert (∀ A (items : list A) xs ys zs,
    good_split items a b (xs, ys, zs, idx) →
    Z.of_nat (length xs) = a ∧
    Z.of_nat (length (train_indices idx)) = a ∧
    Z.of_nat (length ys) = b ∧
    Z.of_nat (length (val_indices idx)) = b ∧
    (∀ i, i ∈ test_indices idx ↔
       (i < length items)%nat ∧ (i ∉ train_indices idx) ∧ (i ∉ val_indices idx)) ∧
    Z.of_nat (length zs) = Z.of_nat (length items) - a - b ∧
    Z.of_nat (length (test_indices idx)) = Z.of_nat (length items) - a - b)
    as Hall.
  { intros A items xs ys zs Hgood'.
    pose proof (good_split_indices _ _ _ _ Hgood')
      as (_ & _ & _ & D1 & D2 & D3 & Hcov).
    pose proof (good_split_test_size items a b _ H0 H1 Hgood')
      as Hte.
    destruct Hgood' as (L1 & L2 & _ & _ & _ & _ & L3 & L4 & L5).
    simpl in *. repeat split; try lia.
    - apply Hcov. right. by right.
    - intros Hi. by apply (D2 i).
    - intros Hi. by apply (D3 i).
    - intros (Hlt & N1 & N2). apply Hcov in Hlt. tauto. }
  destruct data as [| | | | |l|d]; try (by destruct Hgood);
    destruct Hgood as (xs & ys & zs & -> & -> & -> & Hgood);
    exact (Hall _ _ _ _ _ Hgood).
Qed.

Lemma good_split_no_val {A} (items : list A) a xs ys zs idx :
  good_split items a 0 (xs, ys, zs, idx) → ys = [] ∧ val_indices idx = [].
Proof.
  intros (_ & Hb & _ & _ & -> & _).
  apply nil_length_inv in Hb. by rewrite Hb.
Qed.

Lemma good_split_no_train {A} (items : list A) b xs ys zs idx :
  good_split items 0 b (xs, ys, zs, idx) → xs = [] ∧ train_indices idx = [].
Proof.
  intros (Ha & _ & _ & -> & _).
  apply nil_length_inv in Ha. by rewrite Ha.
Qed.

Lemma good_split_no_test {A} (items : list A) a b xs ys zs idx :
  0 ≤ a → 0 ≤ b → a + b = Z.of_nat (length items) →
  good_split items a b (xs, ys, zs, idx) → zs = [] ∧ test_indices idx = [].
Proof.
  intros ? ? Hn Hgood.
  pose proof (good_split_test_size items a b _ ltac:(done) ltac:(done) Hgood)
    as Hte. simpl in Hte.
  destruct Hgood as (_ & _ & _ & _ & _ & -> & _).
  assert (length (test_indices idx) = 0%nat) as Hnil by lia.
  apply nil_length_inv in Hnil. by rewrite Hnil.
Qed.

(** C4: on a list or a mapping, with ratios that are finite numbers,
    [split_dataset] raises the ratio error if and only if the three ratios do
    not sum to 1.0 within 1e-10; when they do not, nothing is split and the
    generator is left as it was.  The ratios 0.5, 0.3, 0.3 raise the ratio
    error; the ratios 0.6, 0.2, 0.2 pass the check. *)
Theorem split_dataset_ratio_error_iff `{PyRandom}
    data train_ratio val_ratio test_ratio seed (g : rng) :
  is_list_or_dict data = true →
  Float.is_finite train_ratio = true → Float.is_finite val_ratio = true →
  Float.is_finite test_ratio = true →
  ((split_dataset data train_ratio val_ratio test_ratio seed g).1
   = inl ratio_error
   ↔ ¬ sums_to_one train_ratio val_ratio test_ratio) ∧
  (¬ sums_to_one train_ratio val_ratio test_ratio →
   split_dataset data train_ratio val_ratio test_ratio seed g
   = (inl ratio_error, g)) ∧
  split_dataset data (Float.lit 5 10) (Float.lit 3 10) (Float.lit 3 10) seed g
  = (inl ratio_error, g) ∧
  sums_to_one (Float.lit 6 10) (Float.lit 2 10) (Float.lit 2 10) ∧
  (split_dataset data (Float.lit 6 10) (Float.lit 2 10) (Float.lit 2 10)
     seed g).1 ≠ inl ratio_error.
Proof.
  intros Hd H1 H2 H3.
  pose proof (ratio_check_fails_iff _ _ _ H1 H2 H3) as Hiff.
  split; [|split; [|split; [|split]]].
  - split.
    + intros Hr%split_dataset_ratio_error_inv. by apply Hiff.
    + intros Hn%Hiff. by rewrite split_dataset_ratio_error.
  - intros Hn%Hiff. by apply split_dataset_ratio_error.
  - apply split_dataset_ratio_error; [exact Hd|]. vm_compute. reflexivity.
  - vm_compute. reflexivity.
  - intros Hr%split_dataset_ratio_error_inv.
    vm_compute in Hr. discriminate Hr.
Qed.

(** C5: when [data] is neither a list nor a mapping, [split_dataset] raises
    the type error whatever the other arguments are, before anything else
    is done (the generator is left as it was); and on the list [1, 2, 3]
    with ratios 1.0, 0.0, 0.0 and seed 0 it returns a train subset made of
    the three items and empty val and test subsets. *)
Theorem split_dataset_type_error_first `{PyRandom}
    data train_ratio val_ratio test_ratio seed (g : rng) :
  is_list_or_dict data = false →
  split_dataset data train_ratio val_ratio test_ratio seed g
  = (inl type_error, g) ∧
  ∃ train_set idx g',
    split_dataset (VList [VInt 1; VInt 2; VInt 3])
      (Float.lit 1 1) (Float.lit 0 1) (Float.lit 0 1) 0 g
    = (inr (VList train_set, VList [], VList [], idx), g') ∧
    train_set ≡ₚ [VInt 1; VInt 2; VInt 3] ∧
    val_indices idx = [] ∧ test_indices idx = [].
Proof.
  intros Hd. split; [by apply split_dataset_type_error|].
  set (data3 := VList [VInt 1; VInt 2; VInt 3]).
  assert (ratio_check_fails (Float.lit 1 1) (Float.lit 0 1) (Float.lit 0 1)
          = false) as Hc by (vm_compute; reflexivity).
  assert (split_size (len data3) (Float.lit 1 1) = inr 3) as Ha
    by (vm_compute; reflexivity).
  assert (split_size (len data3) (Float.lit 0 1) = inr 0) as Hb
    by (vm_compute; reflexivity).
  destruct (split_dataset_returns data3 _ _ _ 0 g 3 0 eq_refl Hc Ha Hb)
    as ([[[tr va] te] idx] & g' & Hrun); [simpl; lia..|].
  pose proof Hrun as Hinv.
  apply split_dataset_inr in Hinv
    as (_ & a & b & Ha' & Hb' & _ & _ & _ & Hgood); [|exact I].
  rewrite Ha in Ha'. rewrite Hb in Hb'.
  injection Ha' as <-. injection Hb' as <-.
  destruct Hgood as (xs & ys & zs & -> & -> & -> & Hgood).
  destruct (good_split_no_val _ _ _ _ _ _ Hgood) as [-> Hv].
  destruct (good_split_no_test [VInt 1; VInt 2; VInt 3] 3 0 _ _ _ _
              ltac:(lia) ltac:(lia) eq_refl Hgood) as [-> Ht].
  exists xs, idx, g'. split; [exact Hrun|]. split; [|by split].
  apply good_split_items in Hgood. by rewrite !app_nil_r in Hgood.
Qed.

(** The keys of the subsets of a mapping partition its keys. *)
Lemma dict_keys_partition {V} (d dt dv de : list (string * V)) :
  dict_wf d → dt ++ dv ++ de ≡ₚ d →
  (∀ k, k ∈ dict_keys dt → k ∉ dict_keys dv) ∧
  (∀ k, k ∈ dict_keys dt → k ∉ dict_keys de) ∧
  (∀ k, k ∈ dict_keys dv → k ∉ dict_keys de) ∧
  (∀ k, k ∈ dict_keys dt ∨ k ∈ dict_keys dv ∨ k ∈ dict_keys de
        ↔ k ∈ dict_keys d).
Proof.
  intros Hwf Hperm. unfold dict_wf, dict_keys in *.
  rewrite -Hperm !fmap_app in Hwf.
  apply NoDup_app in Hwf as (_ & D1 & Hwf).
  apply NoDup_app in Hwf as (_ & D2 & _).
  split; [|split; [|split]].
  - intros k Hk Hv. apply (D1 k Hk), elem_of_app. by left.
  - intros k Hk Hv. apply (D1 k Hk), elem_of_app. by right.
  - exact D2.
  - intros k. by rewrite -Hperm !fmap_app !elem_of_app.
Qed.

(** C6: when the input is a mapping, the three subsets returned are
    mappings; their items are the items of the input, and their key sets
    are pairwise disjoint and together the key set of the input.  On a
    mapping of 4 keys with ratios 0.75, 0, 0.25 the call returns and the
    keys are split 3/0/1. *)
Theorem split_dataset_mapping `{PyRandom}
    (d : list (string * value)) train_ratio val_ratio test_ratio seed (g : rng) :
  dict_wf d →
  (∀ train_set val_set test_set idx g',
     split_dataset (VDict d) train_ratio val_ratio test_ratio seed g
     = (inr (train_set, val_set, test_set, idx), g') →
     ∃ dt dv de,
       train_set = VDict dt ∧ val_set = VDict dv ∧ test_set = VDict de ∧
       dt ++ dv ++ de ≡ₚ d ∧
       (∀ k, k ∈ dict_keys dt → k ∉ dict_keys dv) ∧
       (∀ k, k ∈ dict_keys dt → k ∉ dict_keys de) ∧
       (∀ k, k ∈ dict_keys dv → k ∉ dict_keys de) ∧
       (∀ k, k ∈ dict_keys dt ∨ k ∈ dict_keys dv ∨ k ∈ dict_keys de
             ↔ k ∈ dict_keys d)) ∧
  (length d = 4%nat →
   ∃ dt dv de idx g',
     split_dataset (VDict d) (Float.lit 3 4) (Float.lit 0 1) (Float.lit 1 4)
       seed g
     = (inr (VDict dt, VDict dv, VDict de, idx), g') ∧
     length dt = 3%nat ∧ length dv = 0%nat ∧ length de = 1%nat).
Proof.
  intros Hwf. split.
  - intros tr va te idx g' Hrun.
    apply split_dataset_inr in Hrun
      as (_ & a & b & _ & _ & _ & _ & _ & dt & dv & de & -> & -> & -> & Hgood);
      [|exact Hwf].
    exists dt, dv, de. do 3 (split; [reflexivity|]).
    apply good_split_items in Hgood. split; [exact Hgood|].
    by apply dict_keys_partition.
  - intros Hlen.
    assert (ratio_check_fails (Float.lit 3 4) (Float.lit 0 1) (Float.lit 1 4)
            = false) as Hc by (vm_compute; reflexivity).
    assert (split_size (len (VDict d)) (Float.lit 3 4) = inr 3) as Ha
      by (cbn [len]; rewrite Hlen; vm_compute; reflexivity).
    assert (split_size (len (VDict d)) (Float.lit 0 1) = inr 0) as Hb
      by (cbn [len]; rewrite Hlen; vm_compute; reflexivity).
    destruct (split_dataset_returns (VDict d) _ _ _ seed g 3 0 eq_refl Hc
                Ha Hb) as ([[[tr va] te] idx] & g' & Hrun);
      [cbn [len]; lia..|].
    pose proof Hrun as Hinv.
    apply split_dataset_inr in Hinv
      as (_ & a & b & Ha' & Hb' & _ & _ & _
          & dt & dv & de & -> & -> & -> & Hgood); [|exact Hwf].
    rewrite Ha in Ha'. rewrite Hb in Hb'.
    injection Ha' as <-. injection Hb' as <-.
    exists dt, dv, de, idx, g'. split; [exact Hrun|].
    pose proof (good_split_test_size d 3 0 _ ltac:(lia) ltac:(lia) Hgood)
      as Hte.
    destruct Hgood as (L1 & L2 & _ & _ & _ & _ & L3 & L4 & L5).
    simpl in Hte. lia.
Qed.

(** C9: the edge cases of [split_dataset] return.  With [val_ratio = 0],
    ratios that sum to 1.0 within 1e-10 and a train size within the
    population, the call returns with an empty val subset and an empty val
    index list.  On an empty input, with ratios that are finite numbers, the
    ratio validation still applies: when the ratios sum to 1.0 within 1e-10
    the three subsets and the three index lists are empty, and otherwise the
    ratio error is raised. *)
Theorem split_dataset_edge_cases `{PyRandom}
    data train_ratio val_ratio test_ratio seed (g : rng) a s :
  is_list_or_dict data = true →
  (sums_to_one train_ratio (S754_zero s) test_ratio →
   split_size (len data) train_ratio = inr a →
   0 ≤ a ≤ Z.of_nat (len data) →
   ∃ train_set test_set idx g',
     split_dataset data train_ratio (S754_zero s) test_ratio seed g
     = (inr (train_set, empty_like data, test_set, idx), g') ∧
     val_indices idx = []) ∧
  (len data = 0%nat →
   Float.is_finite train_ratio = true → Float.is_finite val_ratio = true →
   Float.is_finite test_ratio = true →
   (sums_to_one train_ratio val_ratio test_ratio →
    ∃ g',
      split_dataset data train_ratio val_ratio test_ratio seed g
      = (inr (empty_like data, empty_like data, empty_like data,
              {| train_indices := []; val_indices := [];
                 test_indices := [] |}), g')) ∧
   (¬ sums_to_one train_ratio val_ratio test_ratio →
    split_dataset data train_ratio val_ratio test_ratio seed g
    = (inl ratio_error, g))).
Proof.
  intros Hd. split.
  - intros Hc%sums_to_one_check Ha Hrange.
    pose proof (split_size_zero_ratio _ _ _ s Ha) as Hb.
    assert (data_wf (empty_like data) → ∃ train_set val_set test_set idx g',
      split_dataset data train_ratio (S754_zero s) test_ratio seed g
      = (inr (train_set, val_set, test_set, idx), g') ∧
      val_set = empty_like data ∧ val_indices idx = []) as Hgoal.
    2:{ destruct Hgoal as (tr & va & te & idx & g' & Hrun & -> & Hv).
        { destruct data; try exact I. constructor. }
        by exists tr, te, idx, g'. }
    intros _.
    destruct data as [| | | | |l|d]; try discriminate Hd; cbn [len] in *.
    + rewrite (split_dataset_list _ _ _ _ _ _ Hc).
      pose proof (split_items_run l train_ratio (S754_zero s) (seeded seed))
        as Hr. simpl in Hr. rewrite Ha Hb in Hr.
      rewrite !bool_decide_true in Hr; [lia..|].
      destruct Hr as ([[[xs ys] zs] idx] & g' & -> & Hgood).
      apply good_split_no_val in Hgood as [-> Hv].
      by exists (VList xs), (VList []), (VList zs), idx, g'.
    + rewrite (split_dataset_dict _ _ _ _ _ _ Hc).
      pose proof (split_items_run d train_ratio (S754_zero s) (seeded seed))
        as Hr. simpl in Hr. rewrite Ha Hb in Hr.
      rewrite !bool_decide_true in Hr; [lia..|].
      destruct Hr as ([[[xs ys] zs] idx] & g' & -> & Hgood).
      apply good_split_no_val in Hgood as [-> Hv].
      by exists (VDict (dict_of_pairs xs)), (VDict []),
                (VDict (dict_of_pairs zs)), idx, g'.
  - intros Hlen H1 H2 H3. split.
    2:{ intros Hn. apply split_dataset_ratio_error; [exact Hd|].
        by apply ratio_check_fails_iff. }
    intros Hc%sums_to_one_check.
    pose proof (split_size_empty _ H1) as Ha.
    pose proof (split_size_empty _ H2) as Hb.
    destruct data as [| | | | |l|d]; try discriminate Hd; cbn [len] in *.
    + apply nil_length_inv in Hlen as ->.
      rewrite (split_dataset_list _ _ _ _ _ _ Hc).
      pose proof (split_items_run (@nil value) train_ratio val_ratio
                    (seeded seed)) as Hr.
      simpl in Hr. rewrite Ha Hb in Hr. simpl in Hr.
      destruct Hr as ([[[xs ys] zs] [i1 i2 i3]] & g' & -> & Hgood).
      destruct (good_split_no_val _ _ _ _ _ _ Hgood) as [-> Hv].
      destruct (good_split_no_train _ _ _ _ _ _ Hgood) as [-> Ht].
      destruct (good_split_no_test [] 0 0 _ _ _ _ ltac:(lia) ltac:(lia)
                  eq_refl Hgood) as [-> Hte].
      simpl in *. subst. by exists g'.
    + apply nil_length_inv in Hlen as ->.
      rewrite (split_dataset_dict _ _ _ _ _ _ Hc).
      pose proof (split_items_run (@nil (string * value)) train_ratio
                    val_ratio (seeded seed)) as Hr.
      simpl in Hr. rewrite Ha Hb in Hr. simpl in Hr.
      destruct Hr as ([[[xs ys] zs] [i1 i2 i3]] & g' & -> & Hgood).
      destruct (good_split_no_val _ _ _ _ _ _ Hgood) as [-> Hv].
      destruct (good_split_no_train _ _ _ _ _ _ Hgood) as [-> Ht].
      destruct (good_split_no_test [] 0 0 _ _ _ _ ltac:(lia) ltac:(lia)
                  eq_refl Hgood) as [-> Hte].
      simpl in *. subst. by exists g'.
Qed.

(** C10 (as amended): the ratio validation tests the sum only.  For every
    ratio triple that sums to 1.0 within 1e-10, negative components
    included (1.5, -0.5, 0.0 is one), no ratio error is raised; and when a
    size computed from the ratios is negative or the two sizes exceed the
    population, the call fails in the sampling step with the error of
    [random.sample].  The triple 1.5, -0.5, 0.0 fails so on every list of
    two items, and returns on every list of one item, whose train subset is
    then the whole list. *)
Theorem split_dataset_checks_sum_only `{PyRandom}
    data train_ratio val_ratio test_ratio seed (g : rng) a b :
  is_list_or_dict data = true →
  sums_to_one train_ratio val_ratio test_ratio →
  (split_dataset data train_ratio val_ratio test_ratio seed g).1
  ≠ inl ratio_error ∧
  (split_size (len data) train_ratio = inr a →
   split_size (len data) val_ratio = inr b →
   ¬ (0 ≤ a ∧ 0 ≤ b ∧ a + b ≤ Z.of_nat (len data)) →
   (split_dataset data train_ratio val_ratio test_ratio seed g).1
   = inl sample_error) ∧
  sums_to_one (Float.lit 3 2) (Float.lit (-1) 2) (Float.lit 0 1) ∧
  (∀ x y,
     (split_dataset (VList [x; y])
        (Float.lit 3 2) (Float.lit (-1) 2) (Float.lit 0 1) seed g).1
     = inl sample_error) ∧
  (∀ x, ∃ idx g',
     split_dataset (VList [x])
       (Float.lit 3 2) (Float.lit (-1) 2) (Float.lit 0 1) seed g
     = (inr (VList [x], VList [], VList [], idx), g')).
Proof.
  intros Hd Hc%sums_to_one_check.
  assert (ratio_check_fails (Float.lit 3 2) (Float.lit (-1) 2) (Float.lit 0 1)
          = false) as Hc' by (vm_compute; reflexivity).
  split; [|split; [|split; [|split]]].
  - intros Hr%split_dataset_ratio_error_inv. congruence.
  - intros Ha Hb Hfit. by eapply split_dataset_sample_error.
  - vm_compute. reflexivity.
  - intros x y.
    apply (split_dataset_sample_error (VList [x; y]) _ _ _ seed g 3 (-1));
      [reflexivity|exact Hc'|vm_compute; reflexivity..|lia].
  - intros x.
    assert (split_size (len (VList [x])) (Float.lit 3 2) = inr 1) as Ha
      by (vm_compute; reflexivity).
    assert (split_size (len (VList [x])) (Float.lit (-1) 2) = inr 0) as Hb
      by (vm_compute; reflexivity).
    destruct (split_dataset_returns (VList [x]) _ _ _ seed g 1 0 eq_refl Hc'
                Ha Hb) as ([[[tr va] te] idx] & g' & Hrun);
      [simpl; lia..|].
    pose proof Hrun as Hinv.
    apply split_dataset_inr in Hinv
      as (_ & a' & b' & Ha' & Hb' & _ & _ & _ & Hgood); [|exact I].
    rewrite Ha in Ha'. rewrite Hb in Hb'.
    injection Ha' as <-. injection Hb' as <-.
    destruct Hgood as (xs & ys & zs & -> & -> & -> & Hgood).
    destruct (good_split_no_val _ _ _ _ _ _ Hgood) as [-> Hv].
    destruct (good_split_no_test [x] 1 0 _ _ _ _ ltac:(lia) ltac:(lia)
                eq_refl Hgood) as [-> Ht].
    apply good_split_items in Hgood. rewrite !app_nil_r in Hgood.
    apply Permutation_singleton_r in Hgood as ->.
    by exists idx, g'.
Qed.

(** ** The splitter on concrete inputs, with the reference generator *)

(** C1, counterexample to the claim as stated: the ratios 1.5, -0.5, 0.0 sum
    to 1.0 and the list [1, 2] is a valid input, yet the call does not
    return: [train_size] is 3, [random.sample] raises. *)
Lemma split_dataset_partition_not_for_all_ratios :
  is_list_or_dict (VList [VInt 1; VInt 2]) = true ∧
  sums_to_one (Float.lit 3 2) (Float.lit (-1) 2) (Float.lit 0 1) ∧
  split_size 2 (Float.lit 3 2) = inr 3 ∧
  (@split_dataset lcg_random (VList [VInt 1; VInt 2])
     (Float.lit 3 2) (Float.lit (-1) 2) (Float.lit 0 1) 42 0).1
  = inl sample_error ∧
  ¬ ∃ r g',
      @split_dataset lcg_random (VList [VInt 1; VInt 2])
        (Float.lit 3 2) (Float.lit (-1) 2) (Float.lit 0 1) 42 0
      = (inr r, g').
Proof.
  assert ((@split_dataset lcg_random (VList [VInt 1; VInt 2])
             (Float.lit 3 2) (Float.lit (-1) 2) (Float.lit 0 1) 42 0)
          = (inl sample_error, 42)) as Hrun by (vm_compute; reflexivity).
  split; [reflexivity|]. split; [vm_compute; reflexivity|].
  split; [vm_compute; reflexivity|]. split; [by rewrite Hrun|].
  intros (r & g' & E). rewrite Hrun in E. discriminate E.
Qed.

(** C1, witness: five items split 0.6 / 0.2 / 0.2. *)
Lemma split_dataset_partition_witness :
  ∃ train_set val_set test_set idx g',
    @split_dataset lcg_random five_items
      (Float.lit 6 10) (Float.lit 2 10) (Float.lit 2 10) 42 0
    = (inr (train_set, val_set, test_set, idx), g') ∧
    (len train_set + len val_set + len test_set = len five_items)%nat ∧
    NoDup (train_indices idx) ∧ NoDup (val_indices idx) ∧
    NoDup (test_indices idx) ∧
    (∀ i, i ∈ train_indices idx → i ∉ val_indices idx) ∧
    (∀ i, i ∈ train_indices idx → i ∉ test_indices idx) ∧
    (∀ i, i ∈ val_indices idx → i ∉ test_indices idx) ∧
    (∀ i, i ∈ train_indices idx ∨ i ∈ val_indices idx ∨ i ∈ test_indices idx
          ↔ (i < len five_items)%nat).
Proof.
  apply (@split_dataset_partition lcg_random five_items
           (Float.lit 6 10) (Float.lit 2 10) (Float.lit 2 10) 42 0 3 1).
  - reflexivity.
  - exact I.
  - vm_compute. reflexivity.
  - vm_compute. reflexivity.
  - vm_compute. reflexivity.
  - lia.
  - lia.
  - vm_compute. discriminate.
Defined.

(** C3, witness: five items split 0.6 / 0.2 / 0.2 give sizes 3, 1, 1. *)
Lemma split_dataset_sizes_witness :
  ∃ train_set val_set test_set idx g',
    @split_dataset lcg_random five_items
      (Float.lit 6 10) (Float.lit 2 10) (Float.lit 2 10) 42 0
    = (inr (train_set, val_set, test_set, idx), g') ∧
    Z.of_nat (len train_set) = 3 ∧ Z.of_nat (len val_set) = 1 ∧
    Z.of_nat (len test_set) = 1.
Proof.
  assert (Float.nonneg (Float.lit 6 10) = true) as N1
    by (vm_compute; reflexivity).
  assert (Float.nonneg (Float.lit 2 10) = true) as N2
    by (vm_compute; reflexivity).
  destruct (@split_dataset lcg_random five_items
              (Float.lit 6 10) (Float.lit 2 10) (Float.lit 2 10) 42 0)
    as [[e|[[[tr va] te] idx]] g'] eqn:Hrun.
  { vm_compute in Hrun. discriminate Hrun. }
  exists tr, va, te, idx, g'. split; [reflexivity|].
  destruct (@split_dataset_sizes lcg_random five_items
              (Float.lit 6 10) (Float.lit 2 10) (Float.lit 2 10) 42 0
              tr va te idx g' I N1 N2 Hrun)
    as (a & b & Ha & Hb & H1 & _ & H2 & _ & _ & H3 & _).
  vm_compute in Ha, Hb. injection Ha as <-. injection Hb as <-.
  repeat split; assumption.
Defined.

(** C4, witness: on five items the ratios 0.5, 0.3, 0.3 raise the ratio
    error and leave the generator as it was. *)
Lemma split_dataset_ratio_error_iff_witness :
  ¬ sums_to_one (Float.lit 5 10) (Float.lit 3 10) (Float.lit 3 10) ∧
  @split_dataset lcg_random five_items
    (Float.lit 5 10) (Float.lit 3 10) (Float.lit 3 10) 42 7
  = (inl ratio_error, 7).
Proof.
  assert (¬ sums_to_one (Float.lit 5 10) (Float.lit 3 10) (Float.lit 3 10))
    as Hn by (vm_compute; discriminate).
  split; [exact Hn|].
  refine (proj1 (proj2 (@split_dataset_ratio_error_iff lcg_random five_items
    (Float.lit 5 10) (Float.lit 3 10) (Float.lit 3 10) 42 7 eq_refl _ _ _))
    Hn); vm_compute; reflexivity.
Defined.

(** C5, witness: a string is not a collection. *)
Lemma split_dataset_type_error_first_witness :
  @split_dataset lcg_random (VStr "not a collection")
    (Float.lit 6 10) (Float.lit 2 10) (Float.lit 2 10) 42 7
  = (inl type_error, 7).
Proof.
  exact (proj1 (@split_dataset_type_error_first lcg_random
    (VStr "not a collection") (Float.lit 6 10) (Float.lit 2 10)
    (Float.lit 2 10) 42 7 eq_refl)).
Defined.

Lemma four_keys_wf : dict_wf four_keys.
Proof. apply (bool_decide_unpack _). vm_compute. exact I. Defined.

(** C6, witness: a mapping of four keys split 0.75 / 0 / 0.25 with seed 1. *)
Lemma split_dataset_mapping_witness :
  ∃ dt dv de idx g',
    @split_dataset lcg_random (VDict four_keys)
      (Float.lit 3 4) (Float.lit 0 1) (Float.lit 1 4) 1 0
    = (inr (VDict dt, VDict dv, VDict de, idx), g') ∧
    length dt = 3%nat ∧ length dv = 0%nat ∧ length de = 1%nat.
Proof.
  exact (proj2 (@split_dataset_mapping lcg_random four_keys
    (Float.lit 3 4) (Float.lit 0 1) (Float.lit 1 4) 1 0 four_keys_wf)
    eq_refl).
Defined.

(** C9, witness: five items with [val_ratio = 0]. *)
Lemma split_dataset_edge_cases_witness :
  ∃ train_set test_set idx g',
    @split_dataset lcg_random five_items
      (Float.lit 6 10) (S754_zero false) (Float.lit 4 10) 42 0
    = (inr (train_set, VList [], test_set, idx), g') ∧
    val_indices idx = [].
Proof.
  refine (proj1 (@split_dataset_edge_cases lcg_random five_items
    (Float.lit 6 10) (S754_zero false) (Float.lit 4 10) 42 0 3 false
    eq_refl) _ _ _).
  - vm_compute. reflexivity.
  - vm_compute. reflexivity.
  - vm_compute. split; discriminate.
Defined.

(** C10, counterexample to the claim as stated: the list [7] is not empty
    and the ratios 1.5, -0.5, 0.0 pass the check, yet the call does not
    fail in the sampling step: it returns, with the whole list as train
    subset. *)
Lemma split_dataset_negative_ratio_may_return :
  sums_to_one (Float.lit 3 2) (Float.lit (-1) 2) (Float.lit 0 1) ∧
  Float.nonneg (Float.lit (-1) 2) = false ∧
  split_size 1 (Float.lit 3 2) = inr 1 ∧
  split_size 1 (Float.lit (-1) 2) = inr 0 ∧
  ∃ g',
    @split_dataset lcg_random (VList [VInt 7])
      (Float.lit 3 2) (Float.lit (-1) 2) (Float.lit 0 1) 42 0
    = (inr (VList [VInt 7], VList [], VList [],
            {| train_indices := [0%nat]; val_indices := [];
               test_indices := [] |}), g').
Proof.
  split; [vm_compute; reflexivity|]. split; [vm_compute; reflexivity|].
  split; [vm_compute; reflexivity|]. split; [vm_compute; reflexivity|].
  eexists. vm_compute. reflexivity.
Qed.

(** C10, witness: the triple 1.5, -0.5, 0.0 on five items. *)
Lemma split_dataset_checks_sum_only_witness :
  (@split_dataset lcg_random five_items
     (Float.lit 3 2) (Float.lit (-1) 2) (Float.lit 0 1) 42 0).1
  = inl sample_error.
Proof.
  assert (sums_to_one (Float.lit 3 2) (Float.lit (-1) 2) (Float.lit 0 1))
    as Hs by (vm_compute; reflexivity).
  refine (proj1 (proj2 (@split_dataset_checks_sum_only lcg_random five_items
    (Float.lit 3 2) (Float.lit (-1) 2) (Float.lit 0 1) 42 0 7 (-2)
    eq_refl Hs)) _ _ _).
  - vm_compute. reflexivity.
  - vm_compute. reflexivity.
  - vm_compute. intros (_ & Hb & _). by apply Hb.
Defined.

(** ** The flattener, step by step *)

Lemma string_app_assoc (s1 s2 s3 : string) :
  (s1 +:+ s2) +:+ s3 = s1 +:+ (s2 +:+ s3).
Proof.
  induction s1 as [|a s1 IH]; [done|].
  change (String a ((s1 +:+ s2) +:+ s3) = String a (s1 +:+ (s2 +:+ s3))).
  by rewrite IH.
Qed.

Lemma string_app_nil_r (s : string) : s +:+ "" = s.
Proof.
  induction s as [|a s IH]; [done|].
  change (String a (s +:+ "") = String a s). by rewrite IH.
Qed.

Lemma foldl_app_foldr {A} (f : A → string) (l : list A) (acc rest : string) :
  foldl (λ acc x, acc +:+ f x) acc l +:+ rest
  = acc +:+ foldr (λ x rest, f x +:+ rest) rest l.
Proof.
  revert acc. induction l as [|x l IH]; intros acc; simpl; [done|].
  by rewrite IH string_app_assoc.
Qed.

Section ForEach.
Context {S A : Type}.
Implicit Types (l : list A) (body : A → M S unit).

Lemma for_each_inr_inv l body s :
  (for_each l body s).1 = inr tt →
  ∀ x, x ∈ l → ∃ s', (body x s').1 = inr tt.
Proof.
  revert s. induction l as [|y l IH]; intros s Hrun x Hx.
  { by apply elem_of_nil in Hx. }
  simpl in Hrun. unfold_M. unfold mbind, M_bind, run_bind in Hrun.
  destruct (body y s) as [[e|[]] s1] eqn:Hy; [done|].
  apply elem_of_cons in Hx as [->|Hx].
  - exists s. by rewrite Hy.
  - by apply (IH s1).
Qed.

Lemma for_each_inl l body x :
  x ∈ l → (∀ s, ∃ e, (body x s).1 = inl e) →
  ∀ s, ∃ e, (for_each l body s).1 = inl e.
Proof.
  intros Hx Hbody s.
  destruct ((for_each l body s).1) as [e|[]] eqn:Hrun; [by exists e|].
  destruct (for_each_inr_inv l body s Hrun x Hx) as [s' Hs'].
  destruct (Hbody s') as [e He]. congruence.
Qed.

End ForEach.

Lemma getitem_field_inr record field v :
  getitem record (VStr field) = inr v →
  ∃ fields, record = VDict fields ∧ dict_get fields field = Some v.
Proof.
  destruct record as [| | | | s|l|d]; simpl; try done.
  destruct (dict_get d field) as [v'|] eqn:Hget; [|done].
  intros [= <-]. by exists d.
Qed.

Section FlattenerFacts.
Variable py_str : value → string.

(** An entry is flattened only if its record is found in the dataset and
    has the five fields. *)
Lemma flatten_entry_inr_inv dataset filename entry fs :
  (flatten_entry py_str dataset filename entry fs).1 = inr tt →
  ∃ record, getitem dataset entry = inr record ∧
    ∀ field, field ∈ required_fields → has_field record field.
Proof.
  unfold flatten_entry. unfold_M.
  destruct (getitem dataset entry) as [e|record] eqn:Hrec; [done|].
  destruct (getitem record (VStr "CONTEXTS")) as [e|contexts] eqn:H1; [done|].
  destruct (iterate contexts) as [e|cs]; [done|].
  destruct (getitem record (VStr "LONG_ANSWER")) as [e|la] eqn:H2; [done|].
  destruct (getitem record (VStr "QUESTION")) as [e|q] eqn:H3; [done|].
  destruct (getitem record (VStr "MESHES")) as [e|m] eqn:H4; [done|].
  destruct (getitem record (VStr "final_decision")) as [e|fd] eqn:H5; [done|].
  intros _. exists record. split; [done|].
  apply getitem_field_inr in H1 as (fields & -> & H1).
  apply getitem_field_inr in H2 as (? & [= <-] & H2).
  apply getitem_field_inr in H3 as (? & [= <-] & H3).
  apply getitem_field_inr in H4 as (? & [= <-] & H4).
  apply getitem_field_inr in H5 as (? & [= <-] & H5).
  intros field Hf. simpl. unfold required_fields in Hf.
  repeat (apply elem_of_cons in Hf as [->|Hf]; [by eexists|]).
  by apply elem_of_nil in Hf.
Qed.

Lemma iterate_strings l cs :
  mapM as_string l = Some cs → VStr <$> cs = l.
Proof.
  revert cs. induction l as [|v l IH]; intros cs; simpl.
  { by intros [= <-]. }
  destruct v; simpl; try done.
  destruct (mapM as_string l) as [cs'|]; simpl; [|done].
  intros [= <-]. simpl. f_equal. by apply IH.
Qed.

(** A record with the required fields is written as one line. *)
Lemma flatten_entry_record d filename id record obj fs :
  dict_get d id = Some record → flat_record id record = Some obj →
  flatten_entry py_str (VDict d) filename (VStr id) fs
  = (inr tt,
     <[filename := default "" (fs !! filename)
                   +:+ (json_dumps py_str obj +:+ newline)]> fs).
Proof.
  intros Hget Hflat. unfold flatten_entry. unfold_M.
  cbn [getitem]. rewrite Hget.
  destruct record as [| | | | | |fields]; try done. simpl in Hflat.
  cbn [getitem].
  destruct (dict_get fields "CONTEXTS") as [contexts|]; [|done].
  simpl in Hflat.
  destruct contexts as [| | | | |l|]; try done.
  destruct (mapM as_string l) as [cs|] eqn:Hcs; [|done]. simpl in Hflat.
  destruct (dict_get fields "LONG_ANSWER") as [la|]; [|done].
  simpl in Hflat. destruct la as [| | | |la| |]; try done. simpl in Hflat.
  destruct (dict_get fields "QUESTION") as [q|]; [|done]. simpl in Hflat.
  destruct (dict_get fields "MESHES") as [m|]; [|done]. simpl in Hflat.
  destruct (dict_get fields "final_decision") as [fd|]; [|done].
  simpl in Hflat. injection Hflat as <-.
  cbn [iterate format_value]. unfold write, modify.
  assert (foldl (λ acc c, acc +:+ (format_value py_str c +:+ newline)) "" l
          +:+ (la +:+ newline) = conclusion_of cs la) as ->; [|done].
  rewrite (foldl_app_foldr (λ c, format_value py_str c +:+ newline)).
  rewrite -(iterate_strings _ _ Hcs). unfold conclusion_of.
  change ("" +:+ ?s) with s.
  clear. induction cs as [|c cs IH]; simpl; [done|].
  by rewrite IH string_app_assoc.
Qed.

(** The loop over the keys of a mapping whose records have the required
    fields: one line per record, in order. *)
Lemma flatten_entries d filename suffix objs : ∀ fs content,
  dict_wf d → suffix ⊆ d →
  mapM (λ kv, flat_record kv.1 kv.2) suffix = Some objs →
  fs !! filename = Some content →
  for_each (VStr <$> dict_keys suffix) (flatten_entry py_str (VDict d) filename)
    fs
  = (inr tt,
     <[filename := content
                   +:+ foldr (λ o rest, json_dumps py_str o +:+ newline +:+ rest)
                         "" objs]> fs).
Proof.
  revert objs. induction suffix as [|[k r] suffix IH];
    intros objs fs content Hwf Hsub Hobjs Hfs; simpl in *.
  { injection Hobjs as <-. simpl. rewrite string_app_nil_r.
    by rewrite insert_id. }
  destruct (flat_record k r) as [obj|] eqn:Hobj; [|done]. simpl in Hobjs.
  destruct (mapM _ suffix) as [objs'|] eqn:Hobjs'; [|done].
  simpl in Hobjs. injection Hobjs as <-.
  unfold_M. unfold mbind, M_bind, run_bind.
  rewrite (flatten_entry_record d filename k r obj fs); [|done|].
  { apply dict_get_elem_of; [done|]. apply Hsub. left. }
  rewrite Hfs. cbn [default].
  rewrite (IH objs' _ (content +:+ (json_dumps py_str obj +:+ newline)));
    [done| |done|by rewrite lookup_insert_eq|].
  { intros x Hx. apply Hsub. by right. }
  rewrite insert_insert_eq. simpl.
  by rewrite !string_app_assoc.
Qed.

End FlattenerFacts.

(** ** Properties of the flattener *)

Section FlattenerProperties.
Variable py_str : value → string.

Lemma organize_conclusion_run dataset filename fs :
  organize_conclusion py_str dataset filename fs =
  match iterate dataset with
  | inl e => (inl e, <[filename := ""]> fs)
  | inr entries =>
      for_each entries (flatten_entry py_str dataset filename)
        (<[filename := ""]> fs)
  end.
Proof.
  unfold organize_conclusion, open_w. unfold_M.
  by destruct (iterate dataset).
Qed.

Lemma getitem_list_inr l k v :
  getitem (VList l) k = inr v → is_Some (as_index k) ∧ v ∈ l.
Proof.
  simpl. destruct (as_index k) as [i|]; [|done].
  destruct (seq_index (length l) i ≫= (l !!.)) as [v'|] eqn:Hv; [|done].
  intros [= <-]. split; [done|].
  destruct (seq_index (length l) i) as [j|]; [|done]. simpl in Hv.
  by eapply list_elem_of_lookup_2.
Qed.

(** C7: for every mapping dataset whose records have the required fields
    ([CONTEXTS] a list of strings, [LONG_ANSWER] a string), the flattener
    returns and the file holds, in the order of the dataset, one line per
    record: the JSON text of the object with the fields idx, QUESTION,
    CONCLUSION, TYPE and FINAL_DECISION, where CONCLUSION is each context
    followed by a newline, then the long answer followed by a newline.  For
    the example record under id 1 the object is the expected one and the
    file holds its line. *)
Theorem organize_conclusion_lines (d : list (string * value)) filename
    (fs : files) objs :
  dict_wf d →
  mapM (λ kv, flat_record kv.1 kv.2) d = Some objs →
  organize_conclusion py_str (VDict d) filename fs
  = (inr tt,
     <[filename := foldr (λ o rest, json_dumps py_str o +:+ newline +:+ rest)
                     "" objs]> fs) ∧
  length objs = length d ∧
  flat_record "1" example_record = Some example_object ∧
  organize_conclusion py_str (VDict [("1", example_record)]) filename fs
  = (inr tt, <[filename := example_line]> fs).
Proof.
  assert (∀ d' objs', dict_wf d' →
    mapM (λ kv, flat_record kv.1 kv.2) d' = Some objs' →
    organize_conclusion py_str (VDict d') filename fs
    = (inr tt,
       <[filename := foldr (λ o rest, json_dumps py_str o +:+ newline +:+ rest)
                       "" objs']> fs)) as Hgen.
  { intros d' objs' Hwf Hobjs. rewrite organize_conclusion_run.
    cbn [iterate].
    rewrite (flatten_entries py_str d' filename d' objs' _ "");
      [done|done|done|by rewrite lookup_insert_eq|].
    by rewrite insert_insert_eq. }
  intros Hwf Hobjs. split; [by apply Hgen|]. split.
  { by apply length_mapM in Hobjs. }
  split; [vm_compute; reflexivity|].
  rewrite (Hgen [("1", example_record)] [example_object]).
  - apply NoDup_singleton.
  - vm_compute. reflexivity.
  - do 2 f_equal.
Qed.

(** C8 (as amended): the flattener fails on every dataset that is not a
    mapping, an empty list and an empty string apart; it fails on every
    mapping one of whose records lacks one of the required fields; on an
    empty list it does not fail: the file is created and left empty. *)
Theorem organize_conclusion_fails dataset filename (fs : files) :
  (is_dict dataset = false → dataset ≠ VList [] → dataset ≠ VStr "" →
   ∃ e, (organize_conclusion py_str dataset filename fs).1 = inl e) ∧
  (∀ d id record field,
     dataset = VDict d → dict_wf d → (id, record) ∈ d →
     field ∈ required_fields → ¬ has_field record field →
     ∃ e, (organize_conclusion py_str dataset filename fs).1 = inl e) ∧
  organize_conclusion py_str (VList []) filename fs
  = (inr tt, <[filename := ""]> fs).
Proof.
  split; [|split].
  - intros Hd Hl Hs. rewrite organize_conclusion_run.
    destruct dataset as [|b|z|f|s|l|d]; try discriminate Hd;
      try (by eexists).
    + cbn [iterate]. destruct s as [|a s]; [done|].
      apply (for_each_inl _ _ (VStr (String a ""))); [left|].
      intros fs'. unfold flatten_entry. unfold_M. by eexists.
    + cbn [iterate]. destruct l as [|x l]; [done|].
      set (body := flatten_entry py_str (VList (x :: l)) filename).
      destruct (for_each (x :: l) body (<[filename:=""]> fs)).1
        as [e|[]] eqn:Hrun; [by exists e|exfalso].
      pose proof (for_each_inr_inv _ _ _ Hrun) as Hall.
      destruct (Hall x) as [s1 Hx]; [left|].
      apply flatten_entry_inr_inv in Hx as (record & Hget & Hfields).
      apply getitem_list_inr in Hget as [_ Hin].
      specialize (Hfields "CONTEXTS" ltac:(left)).
      destruct record as [| | | | | |fields]; try done.
      destruct (Hall (VDict fields) Hin) as [s2 Hr].
      apply flatten_entry_inr_inv in Hr as (record' & Hget' & _).
      by apply getitem_list_inr in Hget' as [[i Hi] _].
  - intros d id record field -> Hwf Hin Hfield Hmissing.
    rewrite organize_conclusion_run. cbn [iterate].
    apply (for_each_inl _ _ (VStr id)).
    { apply list_elem_of_fmap_2. by apply (list_elem_of_fmap_2 fst _ (id, record)). }
    intros fs'.
    destruct (flatten_entry py_str (VDict d) filename (VStr id) fs').1
      as [e|[]] eqn:Hrun; [by exists e|exfalso].
    apply flatten_entry_inr_inv in Hrun as (record' & Hget & Hfields).
    cbn [getitem] in Hget.
    rewrite (dict_get_elem_of d id record Hwf Hin) in Hget.
    injection Hget as <-. by apply Hmissing, Hfields.
  - by rewrite organize_conclusion_run.
Qed.

End FlattenerProperties.

(** C7, witness: the example record under id 1, written to an empty file
    system. *)
Lemma organize_conclusion_lines_witness :
  organize_conclusion (λ _, "") (VDict [("1", example_record)])
    "haystack.jsonl" ∅
  = (inr tt, {["haystack.jsonl" := example_line]}).
Proof.
  assert (dict_wf [("1", example_record)]) as Hwf by apply NoDup_singleton.
  assert (mapM (λ kv, flat_record kv.1 kv.2) [("1", example_record)]
          = Some [example_object]) as Hobjs by (vm_compute; reflexivity).
  rewrite (proj1 (organize_conclusion_lines (λ _, "")
                    [("1", example_record)] "haystack.jsonl" ∅
                    [example_object] Hwf Hobjs)).
  rewrite insert_empty. do 2 f_equal.
Defined.

(** C8, counterexample to the claim as stated: an empty list is not a
    mapping, and the flattener does not fail on it. *)
Lemma organize_conclusion_empty_list_returns :
  is_dict (VList []) = false ∧
  organize_conclusion (λ _, "") (VList []) "needle.jsonl" ∅
  = (inr tt, {["needle.jsonl" := ""]}).
Proof. split; [reflexivity|]. vm_compute. reflexivity. Qed.

(** C8, witness: a list of one record, and a mapping whose record lacks
    [QUESTION]. *)
Lemma organize_conclusion_fails_witness :
  (∃ e, (organize_conclusion (λ _, "") (VList [example_record])
           "needle.jsonl" ∅).1 = inl e) ∧
  (∃ e, (organize_conclusion (λ _, "") (VDict [("1", incomplete_record)])
           "needle.jsonl" ∅).1 = inl e).
Proof.
  split.
  - apply (proj1 (organize_conclusion_fails (λ _, "")
             (VList [example_record]) "needle.jsonl" ∅));
      [reflexivity|discriminate|discriminate].
  - apply (proj1 (proj2 (organize_conclusion_fails (λ _, "")
             (VDict [("1", incomplete_record)]) "needle.jsonl" ∅))
             [("1", incomplete_record)] "1" incomplete_record "QUESTION"
             eq_refl).
    + apply NoDup_singleton.
    + left.
    + unfold required_fields. do 2 right. left.
    + simpl. by intros [? ?].
Defined.

(** ** Further properties of the splitter *)

Section SplitterExtras.
Context `{PyRandom}.

(** What a returning call has computed, whatever the keys of a mapping. *)
Lemma split_dataset_inr_sizes data train_ratio val_ratio test_ratio seed
    (g : rng) r g' :
  split_dataset data train_ratio val_ratio test_ratio seed g = (inr r, g') →
  is_list_or_dict data = true ∧
  ratio_check_fails train_ratio val_ratio test_ratio = false ∧
  ∃ a b,
    split_size (len data) train_ratio = inr a ∧
    split_size (len data) val_ratio = inr b ∧
    0 ≤ a ∧ 0 ≤ b ∧ a + b ≤ Z.of_nat (len data).
Proof.
  intros Hrun.
  destruct (is_list_or_dict data) eqn:Hd.
  2:{ by rewrite split_dataset_type_error in Hrun. }
  destruct (ratio_check_fails train_ratio val_ratio test_ratio) eqn:Hc.
  { by rewrite split_dataset_ratio_error in Hrun. }
  split; [done|]. split; [done|].
  destruct data as [| | | | |l|d]; try discriminate Hd; cbn [len].
  - rewrite (split_dataset_list _ _ _ _ _ _ Hc) in Hrun.
    pose proof (split_items_run l train_ratio val_ratio (seeded seed)) as Hr.
    simpl in Hr.
    destruct (split_size _ train_ratio) as [e1|a];
      [by rewrite Hr in Hrun|].
    destruct (split_size _ val_ratio) as [e2|b];
      [by rewrite Hr in Hrun|].
    case_bool_decide; [|by rewrite Hr in Hrun].
    case_bool_decide; [|by destruct Hr as (? & Hr); rewrite Hr in Hrun].
    exists a, b. split; [done|]. split; [done|]. lia.
  - rewrite (split_dataset_dict _ _ _ _ _ _ Hc) in Hrun.
    pose proof (split_items_run d train_ratio val_ratio (seeded seed)) as Hr.
    simpl in Hr.
    destruct (split_size _ train_ratio) as [e1|a];
      [by rewrite Hr in Hrun|].
    destruct (split_size _ val_ratio) as [e2|b];
      [by rewrite Hr in Hrun|].
    case_bool_decide; [|by rewrite Hr in Hrun].
    case_bool_decide; [|by destruct Hr as (? & Hr); rewrite Hr in Hrun].
    exists a, b. split; [done|]. split; [done|]. lia.
Qed.

(** X1: [split_dataset] returns exactly when [data] is a list or a mapping,
    the ratio check passes, both sizes [int(total * ratio)] can be computed,
    neither is negative and together they are at most [total]. *)
Theorem split_dataset_returns_iff
    data train_ratio val_ratio test_ratio seed (g : rng) :
  (∃ r g', split_dataset data train_ratio val_ratio test_ratio seed g
           = (inr r, g'))
  ↔ is_list_or_dict data = true ∧
    ratio_check_fails train_ratio val_ratio test_ratio = false ∧
    ∃ a b,
      split_size (len data) train_ratio = inr a ∧
      split_size (len data) val_ratio = inr b ∧
      0 ≤ a ∧ 0 ≤ b ∧ a + b ≤ Z.of_nat (len data).
Proof.
  split.
  - intros (r & g' & Hrun). by eapply split_dataset_inr_sizes.
  - intros (Hd & Hc & a & b & Ha & Hb & ? & ? & ?).
    by eapply split_dataset_returns.
Qed.

Lemma split_size_inl_cases n ratio e :
  split_size n ratio = inl e →
  e = OverflowError "int too large to convert to float" ∨
  e = ValueError "cannot convert float NaN to integer" ∨
  e = OverflowError "cannot convert float infinity to integer".
Proof.
  unfold split_size, int_to_float, float_to_int.
  destruct (Float.of_Z _); try (intros [= <-]; tauto);
    destruct (Float.mul _ _); intros [= <-]; tauto.
Qed.

Lemma split_items_inl_cases {A} (items : list A) train_ratio val_ratio
    (g : rng) e g' :
  split_items items train_ratio val_ratio g = (inl e, g') →
  e = sample_error ∨
  e = OverflowError "int too large to convert to float" ∨
  e = ValueError "cannot convert float NaN to integer" ∨
  e = OverflowError "cannot convert float infinity to integer".
Proof.
  pose proof (split_items_run items train_ratio val_ratio g) as Hrun.
  simpl in Hrun.
  destruct (split_size _ train_ratio) as [e1|a] eqn:Ha.
  { rewrite Hrun. intros [= <- _]. right. by eapply split_size_inl_cases. }
  destruct (split_size _ val_ratio) as [e2|b] eqn:Hb.
  { rewrite Hrun. intros [= <- _]. right. by eapply split_size_inl_cases. }
  repeat case_bool_decide.
  - destruct Hrun as (r & g1 & -> & _). done.
  - destruct Hrun as (g1 & ->). intros [= <- _]. by left.
  - rewrite Hrun. intros [= <- _]. by left.
Qed.

(** X2: the only exceptions [split_dataset] raises are its type error, its
    ratio error, the error of [random.sample] and the three conversion
    errors of [int(total * ratio)]; the selections [items[i]] never raise:
    no [IndexError], no [KeyError]. *)
Theorem split_dataset_raises
    data train_ratio val_ratio test_ratio seed (g : rng) e :
  (split_dataset data train_ratio val_ratio test_ratio seed g).1 = inl e →
  e = type_error ∨ e = ratio_error ∨ e = sample_error ∨
  e = OverflowError "int too large to convert to float" ∨
  e = ValueError "cannot convert float NaN to integer" ∨
  e = OverflowError "cannot convert float infinity to integer".
Proof.
  destruct (is_list_or_dict data) eqn:Hd.
  2:{ rewrite split_dataset_type_error; [done|]. intros [= <-]. by left. }
  destruct (ratio_check_fails train_ratio val_ratio test_ratio) eqn:Hc.
  { rewrite split_dataset_ratio_error; [done..|]. intros [= <-].
    right. by left. }
  destruct data as [| | | | |l|d]; try discriminate Hd.
  - rewrite (split_dataset_list _ _ _ _ _ _ Hc).
    destruct (split_items l _ _ _) as [[e'|[[[??]?]?]] ?] eqn:Hs; [|done].
    simpl. intros [= ->]. apply split_items_inl_cases in Hs. tauto.
  - rewrite (split_dataset_dict _ _ _ _ _ _ Hc).
    destruct (split_items d _ _ _) as [[e'|[[[??]?]?]] ?] eqn:Hs; [|done].
    simpl. intros [= ->]. apply split_items_inl_cases in Hs. tauto.
Qed.

(** X3: on a list, no item is lost and none is duplicated: the three
    subsets together are the input, in some order. *)
Theorem split_dataset_list_items
    l train_ratio val_ratio test_ratio seed (g : rng) xs ys zs idx g' :
  split_dataset (VList l) train_ratio val_ratio test_ratio seed g
  = (inr (VList xs, VList ys, VList zs, idx), g') →
  xs ++ ys ++ zs ≡ₚ l.
Proof.
  intros Hrun.
  apply split_dataset_inr in Hrun
    as (_ & a & b & _ & _ & _ & _ & _ & xs' & ys' & zs' & E1 & E2 & E3
        & Hgood); [|exact I].
  injection E1 as ->. injection E2 as ->. injection E3 as ->.
  by eapply good_split_items.
Qed.

Lemma select_omap {A} (items : list A) indices :
  Forall (λ i, (i < length items)%nat) indices →
  select items indices = inr (omap (items !!.) indices).
Proof.
  intros Hr. destruct (select_in_range items indices Hr) as [xs Hxs].
  rewrite Hxs. by apply select_inr in Hxs as [-> _].
Qed.

Lemma good_split_select {A} (items : list A) a b xs ys zs idx :
  good_split items a b (xs, ys, zs, idx) →
  select items (train_indices idx) = inr xs ∧
  select items (val_indices idx) = inr ys ∧
  select items (test_indices idx) = inr zs.
Proof.
  intros (_ & _ & Hperm & -> & -> & -> & _).
  assert (Forall (λ i, (i < length items)%nat)
            (train_indices idx ++ val_indices idx ++ test_indices idx))
    as Hrange.
  { rewrite Hperm. apply Forall_forall. intros i Hi%elem_of_seq. lia. }
  apply Forall_app in Hrange as [Hr1 Hrange].
  apply Forall_app in Hrange as [Hr2 Hr3].
  by rewrite !select_omap.
Qed.

(** X4: the index lists returned rebuild the split: each subset is the
    selection from the input items at the positions of its index list, in
    the order of that list. *)
Theorem split_dataset_indices_rebuild
    data train_ratio val_ratio test_ratio seed (g : rng)
    train_set val_set test_set idx g' :
  data_wf data →
  split_dataset data train_ratio val_ratio test_ratio seed g
  = (inr (train_set, val_set, test_set, idx), g') →
  match data with
  | VList l =>
      ∃ xs ys zs,
        train_set = VList xs ∧ val_set = VList ys ∧ test_set = VList zs ∧
        select l (train_indices idx) = inr xs ∧
        select l (val_indices idx) = inr ys ∧
        select l (test_indices idx) = inr zs
  | VDict d =>
      ∃ xs ys zs,
        train_set = VDict xs ∧ val_set = VDict ys ∧ test_set = VDict zs ∧
        select d (train_indices idx) = inr xs ∧
        select d (val_indices idx) = inr ys ∧
        select d (test_indices idx) = inr zs
  | _ => False
  end.
Proof.
  intros Hwf Hrun.
  apply split_dataset_inr in Hrun
    as (_ & a & b & _ & _ & _ & _ & _ & Hgood); [|exact Hwf].
  destruct data as [| | | | |l|d]; try done;
    destruct Hgood as (xs & ys & zs & -> & -> & -> & Hgood);
    exists xs, ys, zs; do 3 (split; [reflexivity|]);
    by apply good_split_select in Hgood.
Qed.

End SplitterExtras.

Lemma dict_get_Some_elem_of {V} (d : list (string * V)) k v :
  dict_get d k = Some v → (k, v) ∈ d.
Proof.
  induction d as [|[k' v'] d IH]; simpl; [done|].
  destruct (decide (k' = k)) as [->|Hne].
  - intros [= ->]. left.
  - intros Hget. right. by apply IH.
Qed.

Lemma dict_get_Some_iff {V} (d : list (string * V)) k v :
  dict_wf d → dict_get d k = Some v ↔ (k, v) ∈ d.
Proof.
  intros Hwf. split; [apply dict_get_Some_elem_of|by apply dict_get_elem_of].
Qed.

Section SplitterExtras2.
Context `{PyRandom}.

(** X5: the subsets of a mapping keep its records: a key is bound to a
    record in the input exactly when it is bound to that record in one of
    the three subsets. *)
Theorem split_dataset_mapping_lookup
    (d : list (string * value)) train_ratio val_ratio test_ratio seed (g : rng)
    train_set val_set test_set idx g' :
  dict_wf d →
  split_dataset (VDict d) train_ratio val_ratio test_ratio seed g
  = (inr (train_set, val_set, test_set, idx), g') →
  ∃ dt dv de,
    train_set = VDict dt ∧ val_set = VDict dv ∧ test_set = VDict de ∧
    ∀ k v, dict_get d k = Some v
           ↔ dict_get dt k = Some v ∨ dict_get dv k = Some v
             ∨ dict_get de k = Some v.
Proof.
  intros Hwf Hrun.
  apply split_dataset_inr in Hrun
    as (_ & a & b & _ & _ & _ & _ & _ & dt & dv & de & -> & -> & -> & Hgood);
    [|exact Hwf].
  exists dt, dv, de. do 3 (split; [reflexivity|]).
  apply good_split_items in Hgood.
  pose proof (dict_wf_perm _ _ (symmetry Hgood) Hwf) as Hwf'.
  pose proof (dict_wf_app_l _ _ Hwf') as W1.
  apply dict_wf_app_r in Hwf'.
  pose proof (dict_wf_app_l _ _ Hwf') as W2.
  apply dict_wf_app_r in Hwf'.
  intros k v. rewrite !dict_get_Some_iff //.
  by rewrite -Hgood !elem_of_app.
Qed.

(** X6: a ratio that is NaN disables the ratio check: whatever the two
    other ratios are, the check passes.  As [test_ratio] is read by the
    check only, a call with [test_ratio = NaN] does what the call with any
    [test_ratio] that passes the check does. *)
Theorem split_dataset_nan_passes_check
    data train_ratio val_ratio test_ratio seed (g : rng) :
  ratio_check_fails train_ratio val_ratio test_ratio = false →
  ratio_check_fails S754_nan val_ratio test_ratio = false ∧
  ratio_check_fails train_ratio S754_nan test_ratio = false ∧
  ratio_check_fails train_ratio val_ratio S754_nan = false ∧
  split_dataset data train_ratio val_ratio S754_nan seed g
  = split_dataset data train_ratio val_ratio test_ratio seed g.
Proof.
  intros Hc.
  assert (∀ x y, Float.add x S754_nan = S754_nan ∧
                 Float.add S754_nan y = S754_nan) as Hadd.
  { intros x y. by destruct x, y. }
  assert (ratio_check_fails S754_nan val_ratio test_ratio = false) as H1.
  { unfold ratio_check_fails.
    rewrite (proj2 (Hadd val_ratio val_ratio)).
    by rewrite (proj2 (Hadd test_ratio test_ratio)). }
  assert (ratio_check_fails train_ratio S754_nan test_ratio = false) as H2.
  { unfold ratio_check_fails.
    rewrite (proj1 (Hadd train_ratio train_ratio)).
    by rewrite (proj2 (Hadd test_ratio test_ratio)). }
  assert (ratio_check_fails train_ratio val_ratio S754_nan = false) as H3.
  { unfold ratio_check_fails.
    by rewrite (proj1 (Hadd (Float.add train_ratio val_ratio) train_ratio)). }
  split; [exact H1|]. split; [exact H2|]. split; [exact H3|].
  unfold split_dataset. by rewrite H3 Hc.
Qed.

(** X7: a [train_ratio] that is NaN is not reported by the ratio check: on
    a list or a mapping whose length converts to a float, the call seeds the
    generator and then raises the error of [int()] on NaN. *)
Theorem split_dataset_nan_train_ratio
    data val_ratio test_ratio seed (g : rng) x :
  is_list_or_dict data = true →
  int_to_float (Z.of_nat (len data)) = inr x →
  split_dataset data S754_nan val_ratio test_ratio seed g
  = (inl (ValueError "cannot convert float NaN to integer"), seeded seed).
Proof.
  intros Hd Hx.
  assert (ratio_check_fails S754_nan val_ratio test_ratio = false) as Hc.
  { unfold ratio_check_fails.
    assert (Float.add S754_nan val_ratio = S754_nan) as -> by done.
    done. }
  assert (split_size (len data) S754_nan
          = inl (ValueError "cannot convert float NaN to integer")) as Hs.
  { unfold split_size. rewrite Hx.
    assert (Float.mul x S754_nan = S754_nan) as -> by by destruct x.
    done. }
  destruct data as [| | | | |l|d]; try discriminate Hd; cbn [len] in *.
  - rewrite (split_dataset_list _ _ _ _ _ _ Hc).
    pose proof (split_items_run l S754_nan val_ratio (seeded seed)) as Hr.
    simpl in Hr. rewrite Hs in Hr. by rewrite Hr.
  - rewrite (split_dataset_dict _ _ _ _ _ _ Hc).
    pose proof (split_items_run d S754_nan val_ratio (seeded seed)) as Hr.
    simpl in Hr. rewrite Hs in Hr. by rewrite Hr.
Qed.

Lemma random_sample_inr_subset {A} (population : list A) k (g : rng) xs g' :
  random.sample population k g = (inr xs, g') → ∀ x, x ∈ xs → x ∈ population.
Proof.
  intros Hrun.
  destruct (decide (0 ≤ k ≤ Z.of_nat (length population))) as [Hk|Hk].
  2:{ by rewrite random_sample_fail in Hrun. }
  destruct (random_sample_ok population k g Hk)
    as (xs' & g1 & E & _ & _ & Hin).
  rewrite E in Hrun. by injection Hrun as <- <-.
Qed.

(** The split of two item sequences of the same length: the same
    exception, or the same index lists. *)
Lemma split_items_same_length {A B} (items : list A) (items' : list B)
    train_ratio val_ratio (g : rng) :
  length items = length items' →
  match split_items items train_ratio val_ratio g with
  | (inl e, g') => split_items items' train_ratio val_ratio g = (inl e, g')
  | (inr (_, _, _, idx), g') =>
      ∃ xs ys zs,
        split_items items' train_ratio val_ratio g = (inr (xs, ys, zs, idx), g')
  end.
Proof.
  intros Hlen. unfold split_items. unfold_M. rewrite -Hlen.
  set (n := length items) in *.
  destruct (split_size n train_ratio) as [e|a]; [done|].
  destruct (split_size n val_ratio) as [e|b]; [done|].
  destruct (random.sample (seq 0 n) a g) as [[e|tr] g1] eqn:Htr; [done|].
  set (remaining := set_difference (seq 0 n) tr) in *.
  destruct (random.sample remaining b g1) as [[e|va] g2] eqn:Hva; [done|].
  set (te := set_difference remaining va) in *.
  pose proof (random_sample_inr_subset _ _ _ _ _ Htr) as Htr'.
  pose proof (random_sample_inr_subset _ _ _ _ _ Hva) as Hva'.
  assert (∀ i, i ∈ remaining → (i < n)%nat) as Hrem.
  { intros i [Hi%elem_of_seq _]%elem_of_set_difference. lia. }
  assert (Forall (λ i, (i < n)%nat) tr) as F1.
  { apply Forall_forall. intros i Hi%Htr'%elem_of_seq. lia. }
  assert (Forall (λ i, (i < n)%nat) va) as F2.
  { apply Forall_forall. intros i Hi%Hva'. by apply Hrem. }
  assert (Forall (λ i, (i < n)%nat) te) as F3.
  { apply Forall_forall. intros i [Hi _]%elem_of_set_difference.
    by apply Hrem. }
  rewrite !(select_omap items) //.
  rewrite !(select_omap items'); [by rewrite -Hlen..|].
  by eexists _, _, _.
Qed.

(** X10: which positions go to which subset does not depend on the records:
    two inputs of the same length, split with the same ratios and seed, get
    the same index lists and leave the generator in the same state. *)
Theorem split_dataset_indices_data_independent
    data data' train_ratio val_ratio test_ratio seed (g : rng)
    train_set val_set test_set idx g' :
  is_list_or_dict data' = true → len data = len data' →
  split_dataset data train_ratio val_ratio test_ratio seed g
  = (inr (train_set, val_set, test_set, idx), g') →
  ∃ train_set' val_set' test_set',
    split_dataset data' train_ratio val_ratio test_ratio seed g
    = (inr (train_set', val_set', test_set', idx), g').
Proof.
  intros Hd' Hlen Hrun.
  pose proof (split_dataset_inr_sizes _ _ _ _ _ _ _ _ Hrun) as (Hd & Hc & _).
  assert (∀ A B (items : list A) (items' : list B) xs ys zs,
    length items = length items' →
    split_items items train_ratio val_ratio (seeded seed)
    = (inr (xs, ys, zs, idx), g') →
    ∃ xs' ys' zs',
      split_items items' train_ratio val_ratio (seeded seed)
      = (inr (xs', ys', zs', idx), g')) as Hsame.
  { intros A B items items' xs ys zs Hl Hs.
    pose proof (split_items_same_length items items' train_ratio val_ratio
                  (seeded seed) Hl) as Hm.
    by rewrite Hs in Hm. }
  destruct data as [| | | | |l|d]; try discriminate Hd;
    destruct data' as [| | | | |l'|d']; try discriminate Hd';
    cbn [len] in Hlen.
  - rewrite (split_dataset_list _ _ _ _ _ _ Hc) in Hrun.
    rewrite (split_dataset_list _ _ _ _ _ _ Hc).
    destruct (split_items l _ _ _) as [[e|[[[xs ys] zs] idx0]] g0] eqn:Hs;
      [done|]. injection Hrun as <- <- <- <- <-.
    destruct (Hsame _ _ l l' xs ys zs Hlen Hs) as (xs' & ys' & zs' & ->).
    by eexists _, _, _.
  - rewrite (split_dataset_list _ _ _ _ _ _ Hc) in Hrun.
    rewrite (split_dataset_dict _ _ _ _ _ _ Hc).
    destruct (split_items l _ _ _) as [[e|[[[xs ys] zs] idx0]] g0] eqn:Hs;
      [done|]. injection Hrun as <- <- <- <- <-.
    destruct (Hsame _ _ l d' xs ys zs Hlen Hs) as (xs' & ys' & zs' & ->).
    by eexists _, _, _.
  - rewrite (split_dataset_dict _ _ _ _ _ _ Hc) in Hrun.
    rewrite (split_dataset_list _ _ _ _ _ _ Hc).
    destruct (split_items d _ _ _) as [[e|[[[xs ys] zs] idx0]] g0] eqn:Hs;
      [done|]. injection Hrun as <- <- <- <- <-.
    destruct (Hsame _ _ d l' xs ys zs Hlen Hs) as (xs' & ys' & zs' & ->).
    by eexists _, _, _.
  - rewrite (split_dataset_dict _ _ _ _ _ _ Hc) in Hrun.
    rewrite (split_dataset_dict _ _ _ _ _ _ Hc).
    destruct (split_items d _ _ _) as [[e|[[[xs ys] zs] idx0]] g0] eqn:Hs;
      [done|]. injection Hrun as <- <- <- <- <-.
    destruct (Hsame _ _ d d' xs ys zs Hlen Hs) as (xs' & ys' & zs' & ->).
    by eexists _, _, _.
Qed.

End SplitterExtras2.

Section SplitterExtras3.
Context `{PyRandom}.

(** The first draw of a split that returns. *)
Lemma split_items_train {A} (items : list A) train_ratio val_ratio (g : rng)
    xs ys zs idx g' :
  split_items items train_ratio val_ratio g = (inr (xs, ys, zs, idx), g') →
  ∃ a g1,
    split_size (length items) train_ratio = inr a ∧
    random.sample (seq 0 (length items)) a g = (inr (train_indices idx), g1) ∧
    select items (train_indices idx) = inr xs.
Proof.
  unfold split_items. unfold_M.
  set (n := length items) in *.
  destruct (split_size n train_ratio) as [e|a]; [done|].
  destruct (split_size n val_ratio) as [e|b]; [done|].
  destruct (random.sample (seq 0 n) a g) as [[e|tr] g1] eqn:Htr; [done|].
  destruct (random.sample _ b g1) as [[e|va] g2] eqn:Hva; [done|].
  destruct (select items tr) as [e|xs'] eqn:E1; [done|].
  destruct (select items va) as [e|ys'] eqn:E2; [done|].
  destruct (select items (set_difference _ va)) as [e|zs'] eqn:E3; [done|].
  intros [= <- <- <- <- <-]. exists a, g1. by rewrite E1.
Qed.

(** X8: the training set is drawn first, right after the seeding, so it
    does not depend on the other two ratios: two calls on the same data
    with the same [train_ratio] and seed that both return give the same
    training set and the same training indices, whatever [val_ratio] and
    [test_ratio] they are given and whatever state the generator is in. *)
Theorem split_dataset_train_stable
    data train_ratio val_ratio test_ratio val_ratio' test_ratio' seed
    (g1 g2 : rng) train_set val_set test_set idx g1'
    train_set' val_set' test_set' idx' g2' :
  split_dataset data train_ratio val_ratio test_ratio seed g1
  = (inr (train_set, val_set, test_set, idx), g1') →
  split_dataset data train_ratio val_ratio' test_ratio' seed g2
  = (inr (train_set', val_set', test_set', idx'), g2') →
  train_set' = train_set ∧ train_indices idx' = train_indices idx.
Proof.
  intros Hrun Hrun'.
  pose proof (split_dataset_inr_sizes _ _ _ _ _ _ _ _ Hrun) as (Hd & Hc & _).
  pose proof (split_dataset_inr_sizes _ _ _ _ _ _ _ _ Hrun') as (_ & Hc' & _).
  assert (∀ A (items : list A) xs ys zs xs' ys' zs',
    split_items items train_ratio val_ratio (seeded seed)
    = (inr (xs, ys, zs, idx), g1') →
    split_items items train_ratio val_ratio' (seeded seed)
    = (inr (xs', ys', zs', idx'), g2') →
    xs' = xs ∧ train_indices idx' = train_indices idx) as Hsame.
  { intros A items xs ys zs xs' ys' zs' Hs Hs'.
    apply split_items_train in Hs as (a & k1 & Ha & Htr & Hsel).
    apply split_items_train in Hs' as (a' & k2 & Ha' & Htr' & Hsel').
    rewrite Ha in Ha'. injection Ha' as <-.
    rewrite Htr in Htr'. injection Htr' as E _.
    rewrite -E in Hsel'. rewrite Hsel in Hsel'. injection Hsel' as <-.
    by rewrite E. }
  destruct data as [| | | | |l|d]; try discriminate Hd.
  - rewrite (split_dataset_list _ _ _ _ _ _ Hc) in Hrun.
    rewrite (split_dataset_list _ _ _ _ _ _ Hc') in Hrun'.
    destruct (split_items l train_ratio val_ratio _)
      as [[e|[[[xs ys] zs] idx0]] g0] eqn:Hs; [done|].
    destruct (split_items l train_ratio val_ratio' _)
      as [[e|[[[xs' ys'] zs'] idx0']] g0'] eqn:Hs'; [done|].
    injection Hrun as <- <- <- <- <-. injection Hrun' as <- <- <- <- <-.
    destruct (Hsame _ l _ _ _ _ _ _ Hs Hs') as [-> ->]. by split.
  - rewrite (split_dataset_dict _ _ _ _ _ _ Hc) in Hrun.
    rewrite (split_dataset_dict _ _ _ _ _ _ Hc') in Hrun'.
    destruct (split_items d train_ratio val_ratio _)
      as [[e|[[[xs ys] zs] idx0]] g0] eqn:Hs; [done|].
    destruct (split_items d train_ratio val_ratio' _)
      as [[e|[[[xs' ys'] zs'] idx0']] g0'] eqn:Hs'; [done|].
    injection Hrun as <- <- <- <- <-. injection Hrun' as <- <- <- <- <-.
    destruct (Hsame _ d _ _ _ _ _ _ Hs Hs') as [-> ->]. by split.
Qed.





End SplitterExtras3.

(** ** The further properties on concrete inputs *)

(** X2, witness: the sampling error of the ratios 1.5, -0.5, 0.0. *)
Lemma split_dataset_raises_witness :
  (@split_dataset lcg_random five_items
     (Float.lit 3 2) (Float.lit (-1) 2) (Float.lit 0 1) 42 0).1
  = inl sample_error ∧
  (sample_error = type_error ∨ sample_error = ratio_error ∨
   sample_error = sample_error ∨
   sample_error = OverflowError "int too large to convert to float" ∨
   sample_error = ValueError "cannot convert float NaN to integer" ∨
   sample_error = OverflowError "cannot convert float infinity to integer").
Proof.
  assert ((@split_dataset lcg_random five_items
             (Float.lit 3 2) (Float.lit (-1) 2) (Float.lit 0 1) 42 0).1
          = inl sample_error) as Hrun by (vm_compute; reflexivity).
  split; [exact Hrun|].
  exact (@split_dataset_raises lcg_random five_items
           (Float.lit 3 2) (Float.lit (-1) 2) (Float.lit 0 1) 42 0 _ Hrun).
Defined.

(** X3, witness: five items split 0.6 / 0.2 / 0.2. *)
Lemma split_dataset_list_items_witness :
  ∃ xs ys zs idx g',
    @split_dataset lcg_random five_items
      (Float.lit 6 10) (Float.lit 2 10) (Float.lit 2 10) 42 0
    = (inr (VList xs, VList ys, VList zs, idx), g') ∧
    xs ++ ys ++ zs ≡ₚ [VInt 1; VInt 2; VInt 3; VInt 4; VInt 5].
Proof.
  destruct (@split_dataset lcg_random five_items
              (Float.lit 6 10) (Float.lit 2 10) (Float.lit 2 10) 42 0)
    as [[e|[[[tr va] te] idx]] g'] eqn:Hrun.
  { vm_compute in Hrun. discriminate Hrun. }
  destruct tr as [| | | | |xs|]; try (vm_compute in Hrun; discriminate Hrun).
  destruct va as [| | | | |ys|]; try (vm_compute in Hrun; discriminate Hrun).
  destruct te as [| | | | |zs|]; try (vm_compute in Hrun; discriminate Hrun).
  exists xs, ys, zs, idx, g'. split; [reflexivity|].
  exact (@split_dataset_list_items lcg_random _ _ _ _ _ _ _ _ _ _ _ Hrun).
Defined.

(** X4, witness: the index lists of the same split select its subsets. *)
Lemma split_dataset_indices_rebuild_witness :
  ∃ xs ys zs idx g',
    @split_dataset lcg_random five_items
      (Float.lit 6 10) (Float.lit 2 10) (Float.lit 2 10) 42 0
    = (inr (VList xs, VList ys, VList zs, idx), g') ∧
    select [VInt 1; VInt 2; VInt 3; VInt 4; VInt 5] (train_indices idx)
    = inr xs.
Proof.
  destruct (@split_dataset lcg_random five_items
              (Float.lit 6 10) (Float.lit 2 10) (Float.lit 2 10) 42 0)
    as [[e|[[[tr va] te] idx]] g'] eqn:Hrun.
  { vm_compute in Hrun. discriminate Hrun. }
  destruct (@split_dataset_indices_rebuild lcg_random five_items _ _ _ _ _
              _ _ _ _ _ I Hrun)
    as (xs & ys & zs & E1 & E2 & E3 & S1 & _).
  exists xs, ys, zs, idx, g'. split; [by rewrite E1 E2 E3|exact S1].
Defined.

(** X5, witness: a mapping of four keys split 0.75 / 0 / 0.25. *)
Lemma split_dataset_mapping_lookup_witness :
  ∃ dt dv de idx g',
    @split_dataset lcg_random (VDict four_keys)
      (Float.lit 3 4) (Float.lit 0 1) (Float.lit 1 4) 1 0
    = (inr (VDict dt, VDict dv, VDict de, idx), g') ∧
    (dict_get dt "b" = Some (VInt 2) ∨ dict_get dv "b" = Some (VInt 2)
     ∨ dict_get de "b" = Some (VInt 2)).
Proof.
  destruct (@split_dataset lcg_random (VDict four_keys)
              (Float.lit 3 4) (Float.lit 0 1) (Float.lit 1 4) 1 0)
    as [[e|[[[tr va] te] idx]] g'] eqn:Hrun.
  { vm_compute in Hrun. discriminate Hrun. }
  destruct (@split_dataset_mapping_lookup lcg_random four_keys _ _ _ _ _
              _ _ _ _ _ four_keys_wf Hrun)
    as (dt & dv & de & E1 & E2 & E3 & Hlook).
  exists dt, dv, de, idx, g'. split; [by rewrite E1 E2 E3|].
  apply Hlook. reflexivity.
Defined.

(** X6, witness: the ratios 0.6, 0.2 with [test_ratio] NaN or 0.2. *)
Lemma split_dataset_nan_passes_check_witness :
  @split_dataset lcg_random five_items
    (Float.lit 6 10) (Float.lit 2 10) S754_nan 42 0
  = @split_dataset lcg_random five_items
      (Float.lit 6 10) (Float.lit 2 10) (Float.lit 2 10) 42 0.
Proof.
  apply (@split_dataset_nan_passes_check lcg_random five_items
           (Float.lit 6 10) (Float.lit 2 10) (Float.lit 2 10) 42 0).
  vm_compute. reflexivity.
Defined.

(** X7, witness: five items with [train_ratio] NaN. *)
Lemma split_dataset_nan_train_ratio_witness :
  @split_dataset lcg_random five_items
    S754_nan (Float.lit 2 10) (Float.lit 2 10) 42 0
  = (inl (ValueError "cannot convert float NaN to integer"), 42).
Proof.
  apply (@split_dataset_nan_train_ratio lcg_random five_items
           (Float.lit 2 10) (Float.lit 2 10) 42 0 (Float.of_Z 5)).
  - reflexivity.
  - vm_compute. reflexivity.
Defined.

(** X10, witness: a list and a mapping of four items. *)
Lemma split_dataset_indices_data_independent_witness :
  ∃ tr va te tr' va' te' idx g',
    @split_dataset lcg_random (VDict four_keys)
      (Float.lit 3 4) (Float.lit 0 1) (Float.lit 1 4) 1 0
    = (inr (tr, va, te, idx), g') ∧
    @split_dataset lcg_random (VList [VNone; VNone; VNone; VNone])
      (Float.lit 3 4) (Float.lit 0 1) (Float.lit 1 4) 1 0
    = (inr (tr', va', te', idx), g').
Proof.
  destruct (@split_dataset lcg_random (VDict four_keys)
              (Float.lit 3 4) (Float.lit 0 1) (Float.lit 1 4) 1 0)
    as [[e|[[[tr va] te] idx]] g'] eqn:Hrun.
  { vm_compute in Hrun. discriminate Hrun. }
  destruct (@split_dataset_indices_data_independent lcg_random
              (VDict four_keys) (VList [VNone; VNone; VNone; VNone])
              _ _ _ _ _ _ _ _ _ _ eq_refl eq_refl Hrun)
    as (tr' & va' & te' & Hrun').
  exists tr, va, te, tr', va', te', idx, g'. split; [reflexivity|exact Hrun'].
Defined.

(** ** Further properties of the flattener *)

Section ForEachMore.
Context {S A : Type}.
Implicit Types (l : list A) (body : A → M S unit).

Lemma for_each_app l1 l2 body s :
  for_each (l1 ++ l2) body s =
  match for_each l1 body s with
  | (inr _, s1) => for_each l2 body s1
  | (inl e, s1) => (inl e, s1)
  end.
Proof.
  revert s. induction l1 as [|x l1 IH]; intros s; simpl; [done|].
  unfold_M. destruct (body x s) as [[e|[]] s1]; [done|]. apply IH.
Qed.

(** A loop whose body keeps an invariant of the state keeps it. *)
Lemma for_each_invariant (P : S → S → Prop) l body :
  (∀ s, P s s) → (∀ s1 s2 s3, P s1 s2 → P s2 s3 → P s1 s3) →
  (∀ x s, P s (body x s).2) →
  ∀ s, P s (for_each l body s).2.
Proof.
  intros Hrefl Htrans Hbody. induction l as [|x l IH]; intros s; simpl.
  { apply Hrefl. }
  unfold_M. pose proof (Hbody x s) as Hx.
  destruct (body x s) as [[e|[]] s1]; simpl in *; [done|].
  by eapply Htrans.
Qed.

End ForEachMore.

Section FlattenerExtras.
Variable py_str : value → string.

(** An entry writes one text at the end of the file, or fails and writes
    nothing. *)
Lemma flatten_entry_state dataset filename entry (fs : files) :
  match flatten_entry py_str dataset filename entry fs with
  | (inl _, fs') => fs' = fs
  | (inr _, fs') =>
      ∃ text, fs' = <[filename := default "" (fs !! filename) +:+ text]> fs
  end.
Proof.
  unfold flatten_entry. unfold_M.
  destruct (getitem dataset entry) as [e|record]; [done|].
  destruct (getitem record (VStr "CONTEXTS")) as [e|contexts]; [done|].
  destruct (iterate contexts) as [e|cs]; [done|].
  destruct (getitem record (VStr "LONG_ANSWER")) as [e|la]; [done|].
  destruct (getitem record (VStr "QUESTION")) as [e|q]; [done|].
  destruct (getitem record (VStr "MESHES")) as [e|m]; [done|].
  destruct (getitem record (VStr "final_decision")) as [e|fd]; [done|].
  unfold write, modify. by eexists.
Qed.

Lemma flatten_entry_frame dataset filename entry (fs : files) other :
  other ≠ filename →
  (flatten_entry py_str dataset filename entry fs).2 !! other = fs !! other.
Proof.
  intros Hne. pose proof (flatten_entry_state dataset filename entry fs) as Hs.
  destruct (flatten_entry _ _ _ _ _) as [[e|[]] fs']; simpl.
  - by rewrite Hs.
  - destruct Hs as [text ->]. by rewrite lookup_insert_ne.
Qed.

(** X11: [organize_conclusion] creates or empties the file it is given,
    whether it then fails or not, and leaves every other file as it was;
    what the file held before plays no part. *)
Theorem organize_conclusion_frame dataset filename (fs : files) other old :
  other ≠ filename →
  (organize_conclusion py_str dataset filename fs).2 !! other = fs !! other ∧
  is_Some ((organize_conclusion py_str dataset filename fs).2 !! filename) ∧
  organize_conclusion py_str dataset filename (<[filename := old]> fs)
  = organize_conclusion py_str dataset filename fs.
Proof.
  intros Hne. rewrite !organize_conclusion_run.
  split; [|split].
  - destruct (iterate dataset) as [e|entries]; simpl.
    { by rewrite lookup_insert_ne. }
    rewrite (for_each_invariant (λ s1 s2 : files, s2 !! other = s1 !! other)).
    + done.
    + intros s1 s2 s3 H12 H23. by rewrite H23.
    + intros x s. by apply flatten_entry_frame.
    + by rewrite lookup_insert_ne.
  - destruct (iterate dataset) as [e|entries]; simpl.
    { by rewrite lookup_insert_eq. }
    apply (for_each_invariant
             (λ s1 s2 : files, is_Some (s1 !! filename) →
                               is_Some (s2 !! filename))).
    + done.
    + intros s1 s2 s3 H12 H23 ?. by apply H23, H12.
    + intros x s Hs.
      pose proof (flatten_entry_state dataset filename x s) as Hst.
      destruct (flatten_entry _ _ _ _ _) as [[e|[]] fs']; simpl.
      * by rewrite Hst.
      * destruct Hst as [text ->]. by rewrite lookup_insert_eq.
    + by rewrite lookup_insert_eq.
  - by rewrite insert_insert_eq.
Qed.

(** An entry that fails leaves the files as they are. *)
Lemma flatten_entry_inl dataset filename entry (fs : files) e :
  (flatten_entry py_str dataset filename entry fs).1 = inl e →
  flatten_entry py_str dataset filename entry fs = (inl e, fs).
Proof.
  pose proof (flatten_entry_state dataset filename entry fs) as Hs.
  destruct (flatten_entry _ _ _ _ _) as [[e'|[]] fs']; simpl; [|done].
  intros [= ->]. by rewrite Hs.
Qed.

(** X12: when a record lacks a required field, the flattener fails and the
    file holds the lines of the records before it, and nothing else: the
    records after it are not written, the lines before it are not taken
    back. *)
Theorem organize_conclusion_partial_output
    (pre post : list (string * value)) id record field filename
    (fs : files) objs :
  dict_wf (pre ++ (id, record) :: post) →
  mapM (λ kv, flat_record kv.1 kv.2) pre = Some objs →
  field ∈ required_fields → ¬ has_field record field →
  ∃ e,
    organize_conclusion py_str (VDict (pre ++ (id, record) :: post)) filename
      fs
    = (inl e,
       <[filename := foldr (λ o rest, json_dumps py_str o +:+ newline +:+ rest)
                       "" objs]> fs).
Proof.
  intros Hwf Hobjs Hfield Hmissing.
  set (d := pre ++ (id, record) :: post) in *.
  rewrite organize_conclusion_run. cbn [iterate].
  unfold dict_keys, d. rewrite !fmap_app. fold d.
  rewrite for_each_app.
  rewrite (flatten_entries py_str d filename pre objs _ "");
    [done| |done|by rewrite lookup_insert_eq|].
  { intros x Hx. apply elem_of_app. by left. }
  rewrite insert_insert_eq. simpl. unfold_M.
  set (fs1 := <[filename := _]> fs).
  destruct (flatten_entry py_str (VDict d) filename (VStr id) fs1).1
    as [e|[]] eqn:Hrun.
  - exists e. by rewrite (flatten_entry_inl _ _ _ _ _ Hrun).
  - exfalso.
    apply flatten_entry_inr_inv in Hrun as (record' & Hget & Hfields).
    cbn [getitem] in Hget.
    rewrite (dict_get_elem_of d id record Hwf) in Hget.
    { apply elem_of_app. right. left. }
    injection Hget as <-. by apply Hmissing, Hfields.
Qed.

End FlattenerExtras.

Lemma for_each_inr {S A} (l : list A) (body : A → M S unit) :
  (∀ x, x ∈ l → ∀ s, (body x s).1 = inr tt) →
  ∀ s, (for_each l body s).1 = inr tt.
Proof.
  induction l as [|x l IH]; intros Hbody s; simpl; [done|].
  unfold_M. pose proof (Hbody x ltac:(left) s) as Hx.
  destruct (body x s) as [[e|[]] s1]; simpl in *; [done|].
  apply IH. intros y Hy. apply Hbody. by right.
Qed.

Section FlattenerExtras2.
Variable py_str : value → string.

Lemma flatten_entry_inr_iterable dataset filename entry (fs : files) :
  (flatten_entry py_str dataset filename entry fs).1 = inr tt →
  ∃ record contexts cs,
    getitem dataset entry = inr record ∧
    getitem record (VStr "CONTEXTS") = inr contexts ∧
    iterate contexts = inr cs.
Proof.
  unfold flatten_entry. unfold_M.
  destruct (getitem dataset entry) as [e|record] eqn:Hrec; [done|].
  destruct (getitem record (VStr "CONTEXTS")) as [e|contexts] eqn:H1; [done|].
  destruct (iterate contexts) as [e|cs] eqn:H2; [done|].
  intros _. by exists record, contexts, cs.
Qed.

(** A record with the five fields and an iterable [CONTEXTS] is written. *)
Lemma flatten_entry_inr d filename id record (fs : files) :
  dict_get d id = Some record →
  (∀ field, field ∈ required_fields → has_field record field) →
  contexts_iterable record →
  (flatten_entry py_str (VDict d) filename (VStr id) fs).1 = inr tt.
Proof.
  intros Hget Hfields (fields & contexts & cs & -> & Hc & Hcs).
  unfold flatten_entry. unfold_M. cbn [getitem]. rewrite Hget.
  cbn [getitem]. rewrite Hc Hcs.
  destruct (Hfields "LONG_ANSWER") as [la ->].
  { unfold required_fields. right. left. }
  destruct (Hfields "QUESTION") as [q ->].
  { unfold required_fields. do 2 right. left. }
  destruct (Hfields "MESHES") as [m ->].
  { unfold required_fields. do 3 right. left. }
  destruct (Hfields "final_decision") as [fd ->].
  { unfold required_fields. do 4 right. left. }
  done.
Qed.

(** X13: on a mapping, [organize_conclusion] returns exactly when every
    record is a mapping that has the five required fields and whose
    [CONTEXTS] can be iterated over (a list, a string or a mapping); the
    elements of [CONTEXTS] and [LONG_ANSWER] need not be strings. *)
Theorem organize_conclusion_returns_iff
    (d : list (string * value)) filename (fs : files) :
  dict_wf d →
  (organize_conclusion py_str (VDict d) filename fs).1 = inr tt
  ↔ ∀ id record, (id, record) ∈ d →
      (∀ field, field ∈ required_fields → has_field record field) ∧
      contexts_iterable record.
Proof.
  intros Hwf. rewrite organize_conclusion_run. cbn [iterate]. split.
  - intros Hrun id record Hin.
    destruct (for_each_inr_inv _ _ _ Hrun (VStr id)) as [s' Hs'].
    { apply list_elem_of_fmap_2.
      by apply (list_elem_of_fmap_2 fst _ (id, record)). }
    pose proof (dict_get_elem_of d id record Hwf Hin) as Hget.
    split.
    + apply flatten_entry_inr_inv in Hs' as (record' & Hget' & Hfields).
      cbn [getitem] in Hget'. rewrite Hget in Hget'.
      by injection Hget' as <-.
    + apply flatten_entry_inr_iterable in Hs'
        as (record' & contexts & cs & Hget' & Hc & Hcs).
      cbn [getitem] in Hget'. rewrite Hget in Hget'. injection Hget' as <-.
      apply getitem_field_inr in Hc as (fields & -> & Hc).
      by exists fields, contexts, cs.
  - intros Hall. apply for_each_inr.
    intros x (k & -> & (kv & -> & Hkv)%list_elem_of_fmap)%list_elem_of_fmap s.
    destruct kv as [id record]. destruct (Hall id record Hkv) as [Hf Hc].
    apply (flatten_entry_inr d filename id record); [|done..].
    by apply dict_get_elem_of.
Qed.

(** The entry of a record that lacks [field] and has the fields read
    before it raises [KeyError(field)]. *)
Lemma flatten_entry_key_error d filename id fields field before after
    (fs : files) :
  dict_get d id = Some (VDict fields) →
  required_fields = before ++ field :: after →
  (∀ f, f ∈ before → is_Some (dict_get fields f)) →
  dict_get fields field = None →
  (∀ contexts, dict_get fields "CONTEXTS" = Some contexts →
               ∃ cs, iterate contexts = inr cs) →
  flatten_entry py_str (VDict d) filename (VStr id) fs
  = (inl (KeyError (VStr field)), fs).
Proof.
  intros Hget Hreq Hbefore Hmissing Hiter.
  unfold flatten_entry. unfold_M. cbn [getitem]. rewrite Hget.
  cbn [getitem]. unfold required_fields in Hreq.
  destruct before as [|f1 before]; simpl in Hreq.
  { injection Hreq as <- _. by rewrite Hmissing. }
  injection Hreq as <- Hreq.
  destruct (Hbefore "CONTEXTS" ltac:(left)) as [contexts Hc]. rewrite Hc.
  destruct (Hiter contexts Hc) as [cs ->].
  destruct before as [|f2 before]; simpl in Hreq.
  { injection Hreq as <- _. by rewrite Hmissing. }
  injection Hreq as <- Hreq.
  destruct (Hbefore "LONG_ANSWER" ltac:(right; left)) as [la ->].
  destruct before as [|f3 before]; simpl in Hreq.
  { injection Hreq as <- _. by rewrite Hmissing. }
  injection Hreq as <- Hreq.
  destruct (Hbefore "QUESTION" ltac:(do 2 right; left)) as [q ->].
  destruct before as [|f4 before]; simpl in Hreq.
  { injection Hreq as <- _. by rewrite Hmissing. }
  injection Hreq as <- Hreq.
  destruct (Hbefore "MESHES" ltac:(do 3 right; left)) as [m ->].
  destruct before as [|f5 before]; simpl in Hreq.
  { injection Hreq as <- _. by rewrite Hmissing. }
  injection Hreq as <- Hreq.
  by destruct before.
Qed.

(** X14: the exception for a missing field names the field: when a record
    of a mapping is a mapping that lacks one of the required fields, has
    those read before it ([CONTEXTS], [LONG_ANSWER], [QUESTION], [MESHES],
    [final_decision], in that order) and an iterable [CONTEXTS], and the
    records before it are complete, the flattener raises [KeyError] of the
    first missing field, after the lines of the records before. *)
Theorem organize_conclusion_key_error
    (pre post : list (string * value)) id fields field before after filename
    (fs : files) objs :
  dict_wf (pre ++ (id, VDict fields) :: post) →
  mapM (λ kv, flat_record kv.1 kv.2) pre = Some objs →
  required_fields = before ++ field :: after →
  (∀ f, f ∈ before → is_Some (dict_get fields f)) →
  dict_get fields field = None →
  (∀ contexts, dict_get fields "CONTEXTS" = Some contexts →
               ∃ cs, iterate contexts = inr cs) →
  organize_conclusion py_str (VDict (pre ++ (id, VDict fields) :: post))
    filename fs
  = (inl (KeyError (VStr field)),
     <[filename := foldr (λ o rest, json_dumps py_str o +:+ newline +:+ rest)
                     "" objs]> fs).
Proof.
  intros Hwf Hobjs Hreq Hbefore Hmissing Hiter.
  set (d := pre ++ (id, VDict fields) :: post) in *.
  rewrite organize_conclusion_run. cbn [iterate].
  unfold dict_keys, d. rewrite !fmap_app. fold d.
  rewrite for_each_app.
  rewrite (flatten_entries py_str d filename pre objs _ "");
    [done| |done|by rewrite lookup_insert_eq|].
  { intros x Hx. apply elem_of_app. by left. }
  rewrite insert_insert_eq. simpl. unfold_M.
  rewrite (flatten_entry_key_error d filename id fields field before after);
    try done.
  apply dict_get_elem_of; [done|]. apply elem_of_app. right. left.
Qed.

End FlattenerExtras2.

(** ** The text written is printable ASCII *)

Lemma printable_app s1 s2 :
  printable (s1 +:+ s2) = printable s1 && printable s2.
Proof.
  induction s1 as [|a s1 IH]; [done|].
  change (printable (String a (s1 +:+ s2))
          = printable (String a s1) && printable s2).
  simpl. by rewrite IH andb_assoc.
Qed.

Lemma json_escape_char_printable a : printable (json_escape_char a) = true.
Proof.
  destruct a as [[] [] [] [] [] [] [] []]; vm_compute; reflexivity.
Qed.

Lemma json_string_printable s : printable (json_string s) = true.
Proof.
  unfold json_string.
  change (printable_char dquote
          && printable (json_escape s +:+ String dquote "") = true).
  rewrite printable_app.
  assert (printable (json_escape s) = true) as ->.
  { induction s as [|a s IH]; [done|]. simpl.
    by rewrite printable_app json_escape_char_printable IH. }
  done.
Qed.

Lemma pretty_N_go_printable x : ∀ s,
  printable s = true → printable (pretty_N_go x s) = true.
Proof.
  induction (N.lt_wf_0 x) as [x _ IH]; intros s Hs.
  assert (x = 0 ∨ 0 < x)%N as [->|Hx] by lia.
  { by rewrite pretty_N_go_0. }
  rewrite pretty_N_go_step; [done|]. apply IH.
  { by apply N.div_lt. }
  simpl. rewrite Hs andb_true_r.
  unfold pretty_N_char. by repeat case_match.
Qed.

Lemma pretty_Z_printable (z : Z) : printable (pretty z) = true.
Proof.
  assert (∀ p : positive, printable (pretty p) = true) as Hp.
  { intros p. unfold pretty, pretty_positive, pretty, pretty_N.
    case_decide; [done|]. by apply pretty_N_go_printable. }
  destruct z as [|p|p]; [done|apply Hp|].
  unfold pretty, pretty_Z. by rewrite printable_app Hp.
Qed.

Lemma concat_printable sep l :
  printable sep = true → Forall (λ s, printable s = true) l →
  printable (String.concat sep l) = true.
Proof.
  intros Hsep. induction 1 as [|s l Hs Hl IH]; [done|].
  simpl. destruct l as [|s' l]; [done|].
  by rewrite !printable_app Hs Hsep IH.
Qed.

(** Induction on values, through the lists and the mappings. *)
Lemma value_nested_ind (P : value → Prop) :
  P VNone → (∀ b, P (VBool b)) → (∀ z, P (VInt z)) → (∀ f, P (VFloat f)) →
  (∀ s, P (VStr s)) →
  (∀ l, Forall P l → P (VList l)) →
  (∀ d, Forall (λ kv, P kv.2) d → P (VDict d)) →
  ∀ v, P v.
Proof.
  intros HNone HBool HInt HFloat HStr HList HDict.
  fix IH 1. intros [|b|z|f|s|l|d].
  - exact HNone.
  - apply HBool.
  - apply HInt.
  - apply HFloat.
  - apply HStr.
  - apply HList. induction l as [|v l IHl]; constructor; [apply IH|exact IHl].
  - apply HDict. induction d as [|[k v] d IHd]; constructor;
      [apply IH|exact IHd].
Qed.

Section Printable.
Variable py_str : value → string.
Hypothesis py_str_printable : ∀ f, printable (py_str (VFloat f)) = true.

Lemma json_dumps_printable v : printable (json_dumps py_str v) = true.
Proof.
  induction v as [|b|z|f|s|l IH|d IH] using value_nested_ind.
  - done.
  - by destruct b.
  - apply pretty_Z_printable.
  - simpl. destruct f as [|[]| |]; try done; apply py_str_printable.
  - apply json_string_printable.
  - simpl. rewrite !printable_app. simpl. rewrite andb_true_r.
    apply concat_printable; [done|].
    apply Forall_forall. intros s (v & -> & Hv)%list_elem_of_fmap.
    by eapply Forall_forall in IH.
  - simpl. rewrite !printable_app. simpl. rewrite andb_true_r.
    apply concat_printable; [done|].
    apply Forall_forall. intros s ([k v] & -> & Hv)%list_elem_of_fmap.
    rewrite !printable_app json_string_printable. simpl.
    eapply Forall_forall in IH; [|done]. exact IH.
Qed.

(** X15: the file the flattener writes is a file of JSON lines: for a
    mapping whose records have the required fields, it is made of as many
    lines as there are records, each ended by one newline and made of
    characters from [' '] to ['~'] only, so that no line holds a newline or
    a character that is not ASCII ([str] of a float being so made). *)
Theorem organize_conclusion_json_lines
    (d : list (string * value)) filename (fs : files) objs :
  dict_wf d →
  mapM (λ kv, flat_record kv.1 kv.2) d = Some objs →
  ∃ texts,
    organize_conclusion py_str (VDict d) filename fs
    = (inr tt, <[filename := lines_of texts]> fs) ∧
    length texts = length d ∧
    Forall (λ t, printable t = true) texts.
Proof.
  intros Hwf Hobjs.
  exists (json_dumps py_str <$> objs).
  split; [|split].
  - rewrite organize_conclusion_run. cbn [iterate].
    rewrite (flatten_entries py_str d filename d objs _ "");
      [done|done|done|by rewrite lookup_insert_eq|].
    rewrite insert_insert_eq. do 2 f_equal. unfold lines_of.
    change ("" +:+ ?s) with s. clear.
    induction objs as [|o objs IH]; simpl; [done|]. by rewrite IH.
  - rewrite length_fmap. symmetry. by eapply length_mapM.
  - apply Forall_forall. intros t (o & -> & _)%list_elem_of_fmap.
    apply json_dumps_printable.
Qed.

End Printable.

(** ** The script, step by step *)

Section ScriptFacts.
Context `{PyRandom}.
Variable py_str : value → string.

Lemma dump_run v filename (fs : files) :
  (open_w filename;; json_dump py_str v filename) fs
  = (inr tt, <[filename := json_dumps_indent py_str 0 v]> fs).
Proof.
  unfold open_w, json_dump, write. unfold_M.
  by rewrite lookup_insert_eq insert_insert_eq.
Qed.

(** The script after a split that has returned. *)
Lemma main_run data (w : world) train_set val_set test_set idx g' :
  split_dataset data default_train_ratio default_val_ratio
    default_test_ratio default_seed (generator w)
  = (inr (train_set, val_set, test_set, idx), g') →
  let out := stdout w +:+ size_report (len data) (len train_set)
                            (len val_set) (len test_set) in
  let fs1 := <["data/train_set.json" :=
                 json_dumps_indent py_str 0 train_set]> (disk w) in
  main py_str data w =
  match organize_conclusion py_str train_set "haystack.jsonl" fs1 with
  | (inl e, fs2) =>
      (inl e, {| generator := g'; disk := fs2; stdout := out |})
  | (inr _, fs2) =>
      let fs3 :=
        <["data/test_set.json" := json_dumps_indent py_str 0 test_set]>
          (<["data/val_set.json" := json_dumps_indent py_str 0 val_set]>
             fs2) in
      match organize_conclusion py_str test_set "needle.jsonl" fs3 with
      | (inl e, fs4) =>
          (inl e, {| generator := g'; disk := fs4; stdout := out |})
      | (inr _, fs4) =>
          (inr tt,
           {| generator := g';
              disk := <["data/split_indices.json" :=
                          json_dumps_indent py_str 0 (indices_value idx)]>
                        fs4;
              stdout := out |})
      end
  end.
Proof.
  intros Hsplit out fs1.
  assert (out = (((stdout w
            +:+ (("Total dataset size: " +:+ pretty (len data)) +:+ newline))
            +:+ (("Training set size: " +:+ pretty (len train_set))
                 +:+ newline))
            +:+ (("Validation set size: " +:+ pretty (len val_set))
                 +:+ newline))
            +:+ (("Test set size: " +:+ pretty (len test_set)) +:+ newline))
    as Hout.
  { unfold out, size_report, lines_of. simpl.
    by rewrite !string_app_assoc string_app_nil_r. }
  unfold main, with_generator, with_disk, print. unfold_M.
  rewrite Hsplit. cbn [generator disk stdout].
  rewrite -Hout. unfold open_w, json_dump, write. unfold_M.
  rewrite lookup_insert_eq insert_insert_eq. cbn [default from_option id].
  change ("" +:+ ?s) with s. subst fs1. cbv zeta.
  destruct (organize_conclusion py_str train_set "haystack.jsonl" _)
    as [[e|[]] fs2]; [done|].
  cbn [generator disk stdout]. unfold open_w, modify.
  rewrite !lookup_insert_eq !insert_insert_eq. cbn [default from_option id].
  change ("" +:+ ?s) with s.
  destruct (organize_conclusion py_str test_set "needle.jsonl" _)
    as [[e|[]] fs4]; [done|].
  cbn [generator disk stdout].
  by rewrite !lookup_insert_eq !insert_insert_eq.
Qed.

(** When the split raises, the script stops there. *)
Lemma main_split_inl data (w : world) e g' :
  split_dataset data default_train_ratio default_val_ratio
    default_test_ratio default_seed (generator w) = (inl e, g') →
  main py_str data w
  = (inl e, {| generator := g'; disk := disk w; stdout := stdout w |}).
Proof.
  intros Hsplit. unfold main, with_generator. unfold_M. by rewrite Hsplit.
Qed.


Lemma default_val_size n a :
  split_size n default_train_ratio = inr a →
  split_size n default_val_ratio = inr 0.
Proof. apply (split_size_zero_ratio n default_train_ratio a false). Qed.

(** What the split of the script has done when it returns: the validation
    set is empty. *)
Lemma default_split data g train_set val_set test_set idx g' :
  data_wf data →
  split_dataset data default_train_ratio default_val_ratio
    default_test_ratio default_seed g
  = (inr (train_set, val_set, test_set, idx), g') →
  ∃ a, split_size (len data) default_train_ratio = inr a ∧
    0 ≤ a ≤ Z.of_nat (len data) ∧
    match data with
    | VList l =>
        ∃ xs zs, train_set = VList xs ∧ val_set = VList [] ∧
          test_set = VList zs ∧ good_split l a 0 (xs, [], zs, idx)
    | VDict d =>
        ∃ xs zs, train_set = VDict xs ∧ val_set = VDict [] ∧
          test_set = VDict zs ∧ good_split d a 0 (xs, [], zs, idx)
    | _ => False
    end.
Proof.
  intros Hwf Hrun.
  apply split_dataset_inr in Hrun as (_ & a & b & Ha & Hb & ? & ? & ? & Hd);
    [|exact Hwf].
  rewrite (default_val_size _ _ Ha) in Hb. injection Hb as <-.
  exists a. split; [exact Ha|]. split; [lia|].
  destruct data as [| | | | |l|d]; try (exfalso; exact Hd).
  - destruct Hd as (xs & ys & zs & -> & -> & -> & Hgood).
    destruct (good_split_no_val _ _ _ _ _ _ Hgood) as [-> _].
    by exists xs, zs.
  - destruct Hd as (xs & ys & zs & -> & -> & -> & Hgood).
    destruct (good_split_no_val _ _ _ _ _ _ Hgood) as [-> _].
    by exists xs, zs.
Qed.

Lemma organize_conclusion_other dataset filename (fs : files) other :
  other ≠ filename →
  (organize_conclusion py_str dataset filename fs).2 !! other = fs !! other.
Proof.
  intros Hne. rewrite organize_conclusion_run.
  destruct (iterate dataset) as [e|entries]; simpl.
  { by rewrite lookup_insert_ne. }
  rewrite (for_each_invariant (λ s1 s2 : files, s2 !! other = s1 !! other)).
  - done.
  - intros s1 s2 s3 H12 H23. by rewrite H23.
  - intros x s. by apply flatten_entry_frame.
  - by rewrite lookup_insert_ne.
Qed.


(** The flattener returns on a mapping only when every record has the
    required fields. *)
Lemma organize_conclusion_inr_fields
    (d : list (string * value)) filename (fs : files) id record :
  dict_wf d →
  (organize_conclusion py_str (VDict d) filename fs).1 = inr tt →
  (id, record) ∈ d →
  ∀ field, field ∈ required_fields → has_field record field.
Proof.
  intros Hwf Hrun Hin. rewrite organize_conclusion_run in Hrun.
  cbn [iterate] in Hrun.
  destruct (for_each_inr_inv _ _ _ Hrun (VStr id)) as [s' Hs'].
  { apply list_elem_of_fmap_2.
    by apply (list_elem_of_fmap_2 fst _ (id, record)). }
  pose proof (dict_get_elem_of d id record Hwf Hin) as Hget.
  apply flatten_entry_inr_inv in Hs' as (record' & Hget' & Hfields).
  cbn [getitem] in Hget'. rewrite Hget in Hget'.
  by injection Hget' as <-.
Qed.

(** The flattener fails on a list that is not empty: an element that can
    be used as an index is no record, and a record is no index. *)
Lemma organize_conclusion_list_inl x l filename (fs : files) :
  ∃ e, (organize_conclusion py_str (VList (x :: l)) filename fs).1 = inl e.
Proof.
  rewrite organize_conclusion_run. cbn [iterate].
  set (body := flatten_entry py_str (VList (x :: l)) filename).
  destruct (for_each (x :: l) body (<[filename:=""]> fs)).1
    as [e|[]] eqn:Hrun; [by exists e|exfalso].
  pose proof (for_each_inr_inv _ _ _ Hrun) as Hall.
  destruct (Hall x) as [s1 Hx]; [left|].
  apply flatten_entry_inr_inv in Hx as (record & Hget & Hfields).
  apply getitem_list_inr in Hget as [_ Hin].
  specialize (Hfields "CONTEXTS" ltac:(left)).
  destruct record as [| | | | | |fields]; try done.
  destruct (Hall (VDict fields) Hin) as [s2 Hr].
  apply flatten_entry_inr_inv in Hr as (record' & Hget' & _).
  by apply getitem_list_inr in Hget' as [[i Hi] _].
Qed.



End ScriptFacts.

(** ** The script: what it prints and writes *)

Section ScriptTheorems.
Context `{PyRandom}.
Variable py_str : value → string.

(** X16: run on data that is neither a list nor a mapping (a JSON string,
    number, boolean or null), the script stops with the [TypeError] of
    [split_dataset] before anything is printed or written; the generator is
    not seeded. *)
Theorem main_type_error data (w : world) :
  is_list_or_dict data = false →
  main py_str data w = (inl type_error, w).
Proof.
  intros Hd. rewrite (main_split_inl py_str data w type_error (generator w)).
  - by apply split_dataset_type_error.
  - by destruct w.
Qed.


(** X18: whatever the data, and whether it returns or raises, the script
    touches no file but the six it names. *)
Theorem main_frame data (w : world) other :
  other ∉ script_files →
  disk (main py_str data w).2 !! other = disk w !! other.
Proof.
  intros Hother.
  assert (∀ name, name ∈ script_files → other ≠ name) as Hne.
  { intros name Hname ->. by apply Hother. }
  assert (other ≠ "data/train_set.json") as N1.
  { apply Hne. unfold script_files. left. }
  assert (other ≠ "haystack.jsonl") as N2.
  { apply Hne. unfold script_files. right. left. }
  assert (other ≠ "data/val_set.json") as N3.
  { apply Hne. unfold script_files. do 2 right. left. }
  assert (other ≠ "data/test_set.json") as N4.
  { apply Hne. unfold script_files. do 3 right. left. }
  assert (other ≠ "needle.jsonl") as N5.
  { apply Hne. unfold script_files. do 4 right. left. }
  assert (other ≠ "data/split_indices.json") as N6.
  { apply Hne. unfold script_files. do 5 right. left. }
  clear Hne Hother.
  destruct (split_dataset data default_train_ratio default_val_ratio
              default_test_ratio default_seed (generator w))
    as [[e|[[[train_set val_set] test_set] idx]] g'] eqn:Hrun.
  { by rewrite (main_split_inl py_str _ _ _ _ Hrun). }
  rewrite (main_run py_str _ _ _ _ _ _ _ Hrun). cbv zeta.
  pose proof (organize_conclusion_other py_str train_set "haystack.jsonl"
    (<["data/train_set.json" := json_dumps_indent py_str 0 train_set]>
       (disk w)) other N2) as H1.
  destruct (organize_conclusion py_str train_set "haystack.jsonl" _)
    as [[e|[]] fs2]; cbn [snd] in H1.
  { cbn [snd disk]. by rewrite H1 lookup_insert_ne. }
  pose proof (organize_conclusion_other py_str test_set "needle.jsonl"
    (<["data/test_set.json" := json_dumps_indent py_str 0 test_set]>
       (<["data/val_set.json" := json_dumps_indent py_str 0 val_set]> fs2))
    other N5) as H2.
  destruct (organize_conclusion py_str test_set "needle.jsonl" _)
    as [[e|[]] fs4]; cbn [snd] in H2; cbn [snd disk].
  { rewrite H2 !lookup_insert_ne //. by rewrite H1 lookup_insert_ne. }
  rewrite lookup_insert_ne // H2 !lookup_insert_ne //.
  by rewrite H1 lookup_insert_ne.
Qed.

(** X19: the script returns only on a mapping every record of which has
    the five required fields, or on an empty list: on a list that is not
    empty it raises, whatever the list holds. *)
Theorem main_returns_only_on_records data (w : world) :
  data_wf data →
  (main py_str data w).1 = inr tt →
  data = VList [] ∨
  ∃ d, data = VDict d ∧
    ∀ id record, (id, record) ∈ d →
      ∀ field, field ∈ required_fields → has_field record field.
Proof.
  intros Hwf Hret.
  destruct (split_dataset data default_train_ratio default_val_ratio
              default_test_ratio default_seed (generator w))
    as [[e|[[[train_set val_set] test_set] idx]] g'] eqn:Hrun.
  { by rewrite (main_split_inl py_str _ _ _ _ Hrun) in Hret. }
  rewrite (main_run py_str _ _ _ _ _ _ _ Hrun) in Hret. cbv zeta in Hret.
  destruct (default_split _ _ _ _ _ _ _ Hwf Hrun) as (a & _ & _ & Hd).
  destruct (organize_conclusion py_str train_set "haystack.jsonl" _)
    as [[e|[]] fs2] eqn:Htrain; [discriminate Hret|].
  destruct (organize_conclusion py_str test_set "needle.jsonl" _)
    as [[e|[]] fs4] eqn:Htest; [discriminate Hret|].
  clear Hret Hrun.
  destruct data as [| | | | |l|d]; try (exfalso; exact Hd).
  - left. destruct Hd as (xs & zs & -> & _ & -> & Hgood).
    apply good_split_items in Hgood. cbn [app] in Hgood.
    destruct xs as [|x xs].
    + destruct zs as [|z zs].
      * apply Permutation_nil in Hgood. by rewrite Hgood.
      * destruct (organize_conclusion_list_inl py_str z zs "needle.jsonl"
                    (<["data/test_set.json" :=
                         json_dumps_indent py_str 0 (VList (z :: zs))]>
                       (<["data/val_set.json" :=
                            json_dumps_indent py_str 0 val_set]> fs2)))
          as [e He].
        rewrite Htest in He. discriminate He.
    + destruct (organize_conclusion_list_inl py_str x xs "haystack.jsonl"
                  (<["data/train_set.json" :=
                       json_dumps_indent py_str 0 (VList (x :: xs))]>
                     (disk w))) as [e He].
      rewrite Htrain in He. discriminate He.
  - right. exists d. split; [reflexivity|].
    destruct Hd as (xs & zs & -> & _ & -> & Hgood).
    apply good_split_items in Hgood. cbn [app] in Hgood.
    pose proof (dict_wf_perm _ _ (symmetry Hgood) Hwf) as Hwf'.
    intros id record Hin. rewrite -Hgood in Hin.
    apply elem_of_app in Hin as [Hin|Hin].
    + apply (f_equal fst) in Htrain.
      eapply (organize_conclusion_inr_fields py_str xs);
        [|exact Htrain|exact Hin].
      by eapply dict_wf_app_l.
    + apply (f_equal fst) in Htest.
      eapply (organize_conclusion_inr_fields py_str zs);
        [|exact Htest|exact Hin].
      by eapply dict_wf_app_r.
Qed.

(** X20: the script prints nothing when the split raises; otherwise it
    prints the four sizes, and does so before any file is written, so that
    they are printed also when a later step raises: the validation size is
    0 and the training and test sizes add up to the total. *)
Theorem main_report data (w : world) :
  data_wf data →
  match split_dataset data default_train_ratio default_val_ratio
          default_test_ratio default_seed (generator w) with
  | (inl e, _) =>
      (main py_str data w).1 = inl e ∧
      stdout (main py_str data w).2 = stdout w
  | (inr (train_set, val_set, test_set, _), _) =>
      stdout (main py_str data w).2
      = stdout w +:+ size_report (len data) (len train_set) 0 (len test_set) ∧
      (len train_set + len test_set = len data)%nat
  end.
Proof.
  intros Hwf.
  destruct (split_dataset data default_train_ratio default_val_ratio
              default_test_ratio default_seed (generator w))
    as [[e|[[[train_set val_set] test_set] idx]] g'] eqn:Hrun.
  { by rewrite (main_split_inl py_str _ _ _ _ Hrun). }
  rewrite (main_run py_str _ _ _ _ _ _ _ Hrun). cbv zeta.
  destruct (default_split _ _ _ _ _ _ _ Hwf Hrun) as (a & _ & _ & Hd).
  assert (len val_set = 0%nat ∧
          (len train_set + len test_set = len data)%nat) as [Hv Hsum].
  { destruct data as [| | | | |l|d]; try (exfalso; exact Hd).
    - destruct Hd as (xs & zs & -> & -> & -> & Hgood).
      apply good_split_items, Permutation_length in Hgood.
      cbn [app] in Hgood. rewrite length_app in Hgood. by split.
    - destruct Hd as (xs & zs & -> & -> & -> & Hgood).
      apply good_split_items, Permutation_length in Hgood.
      cbn [app] in Hgood. rewrite length_app in Hgood. by split. }
  rewrite Hv. split; [|exact Hsum].
  destruct (organize_conclusion py_str train_set "haystack.jsonl" _)
    as [[e|[]] fs2]; [reflexivity|].
  by destruct (organize_conclusion py_str test_set "needle.jsonl" _)
    as [[e|[]] fs4].
Qed.

End ScriptTheorems.

(** ** The further properties of the flattener and of the script on
    concrete inputs *)

(** X8, witness: five items split 0.6 / 0.2 / 0.2 and 0.6 / 0.4 / 0.0. *)
Lemma split_dataset_train_stable_witness :
  ∃ tr va te idx g1 tr' va' te' idx' g2,
    @split_dataset lcg_random five_items
      (Float.lit 6 10) (Float.lit 2 10) (Float.lit 2 10) 42 0
    = (inr (tr, va, te, idx), g1) ∧
    @split_dataset lcg_random five_items
      (Float.lit 6 10) (Float.lit 4 10) (Float.lit 0 1) 42 7
    = (inr (tr', va', te', idx'), g2) ∧
    tr' = tr ∧ train_indices idx' = train_indices idx.
Proof.
  destruct (@split_dataset lcg_random five_items
              (Float.lit 6 10) (Float.lit 2 10) (Float.lit 2 10) 42 0)
    as [[e|[[[tr va] te] idx]] g1] eqn:Hrun.
  { vm_compute in Hrun. discriminate Hrun. }
  destruct (@split_dataset lcg_random five_items
              (Float.lit 6 10) (Float.lit 4 10) (Float.lit 0 1) 42 7)
    as [[e|[[[tr' va'] te'] idx']] g2] eqn:Hrun'.
  { vm_compute in Hrun'. discriminate Hrun'. }
  exists tr, va, te, idx, g1, tr', va', te', idx', g2.
  split; [reflexivity|]. split; [reflexivity|].
  exact (@split_dataset_train_stable lcg_random _ _ _ _ _ _ _ _ _ _ _ _ _ _
           _ _ _ _ _ Hrun Hrun').
Defined.


(** X11, witness: another file of the file system. *)
Lemma organize_conclusion_frame_witness :
  (organize_conclusion (λ _, "") (VDict [("1", example_record)])
     "haystack.jsonl" {["notes.txt" := "kept"]}).2 !! "notes.txt"
  = ({["notes.txt" := "kept"]} : files) !! "notes.txt".
Proof.
  apply (organize_conclusion_frame (λ _, "") (VDict [("1", example_record)])
           "haystack.jsonl" {["notes.txt" := "kept"]} "notes.txt" "").
  discriminate.
Defined.

(** X12, witness: a complete record followed by an incomplete one. *)
Lemma organize_conclusion_partial_output_witness :
  ∃ e,
    organize_conclusion (λ _, "")
      (VDict ([("1", example_record)] ++ [("2", incomplete_record)]))
      "haystack.jsonl" ∅
    = (inl e,
       <["haystack.jsonl" :=
           foldr (λ o rest, json_dumps (λ _, "") o +:+ newline +:+ rest)
             "" [example_object]]> ∅).
Proof.
  apply (organize_conclusion_partial_output (λ _, "")
           [("1", example_record)] [] "2" incomplete_record "QUESTION"
           "haystack.jsonl" ∅ [example_object]).
  - apply (bool_decide_unpack _). vm_compute. exact I.
  - vm_compute. reflexivity.
  - unfold required_fields. do 2 right. left.
  - simpl. by intros [? ?].
Defined.

(** X13, witness: the example record. *)
Lemma organize_conclusion_returns_iff_witness :
  (organize_conclusion (λ _, "") (VDict [("1", example_record)])
     "haystack.jsonl" ∅).1 = inr tt.
Proof.
  assert (dict_wf [("1", example_record)]) as Hwf by apply NoDup_singleton.
  apply (proj2 (organize_conclusion_returns_iff (λ _, "")
                  [("1", example_record)] "haystack.jsonl" ∅ Hwf)).
  intros id record Hin. apply list_elem_of_singleton in Hin.
  injection Hin as -> ->. split.
  - intros field Hf. unfold required_fields in Hf.
    apply elem_of_cons in Hf as [->|Hf]; [by eexists|].
    apply elem_of_cons in Hf as [->|Hf]; [by eexists|].
    apply elem_of_cons in Hf as [->|Hf]; [by eexists|].
    apply elem_of_cons in Hf as [->|Hf]; [by eexists|].
    apply elem_of_cons in Hf as [->|Hf]; [by eexists|].
    by apply elem_of_nil in Hf.
  - eexists _, _, _. split; [reflexivity|]. split; reflexivity.
Defined.

(** X14, witness: a record that lacks [MESHES]. *)
Lemma organize_conclusion_key_error_witness :
  organize_conclusion (λ _, "")
    (VDict ([("1", example_record)]
            ++ [("2", VDict record_without_meshes)]))
    "haystack.jsonl" ∅
  = (inl (KeyError (VStr "MESHES")),
     <["haystack.jsonl" :=
         foldr (λ o rest, json_dumps (λ _, "") o +:+ newline +:+ rest)
           "" [example_object]]> ∅).
Proof.
  apply (organize_conclusion_key_error (λ _, "")
           [("1", example_record)] [] "2" record_without_meshes "MESHES"
           ["CONTEXTS"; "LONG_ANSWER"; "QUESTION"] ["final_decision"]
           "haystack.jsonl" ∅ [example_object]).
  - apply (bool_decide_unpack _). vm_compute. exact I.
  - vm_compute. reflexivity.
  - reflexivity.
  - intros f Hf.
    apply elem_of_cons in Hf as [->|Hf]; [by eexists|].
    apply elem_of_cons in Hf as [->|Hf]; [by eexists|].
    apply elem_of_cons in Hf as [->|Hf]; [by eexists|].
    by apply elem_of_nil in Hf.
  - reflexivity.
  - intros contexts [= <-]. by eexists.
Defined.

(** X15, witness: the example record. *)
Lemma organize_conclusion_json_lines_witness :
  ∃ texts,
    organize_conclusion (λ _, "") (VDict [("1", example_record)])
      "haystack.jsonl" ∅
    = (inr tt, <["haystack.jsonl" := lines_of texts]> ∅) ∧
    length texts = 1%nat ∧
    Forall (λ t, printable t = true) texts.
Proof.
  apply (organize_conclusion_json_lines (λ _, "") (λ _, eq_refl)
           [("1", example_record)] "haystack.jsonl" ∅ [example_object]).
  - apply NoDup_singleton.
  - vm_compute. reflexivity.
Defined.

(** X16, witness: a JSON string. *)
Lemma main_type_error_witness :
  @main lcg_random (λ _, "") (VStr "not a collection")
    (@Build_world lcg_random 7 ∅ "")
  = (inl type_error, (@Build_world lcg_random 7 ∅ "")).
Proof.
  apply (@main_type_error lcg_random (λ _, "") (VStr "not a collection")).
  reflexivity.
Defined.

Lemma two_records_wf : dict_wf two_records.
Proof. apply (bool_decide_unpack _). vm_compute. exact I. Defined.


(** X18, witness: a file the script does not name. *)
Lemma main_frame_witness :
  disk (@main lcg_random (λ _, "") (VDict two_records)
          (@Build_world lcg_random 0 {["notes.txt" := "kept"]} "")).2
    !! "notes.txt"
  = disk (@Build_world lcg_random 0 {["notes.txt" := "kept"]} "")
      !! "notes.txt".
Proof.
  apply (@main_frame lcg_random (λ _, "") (VDict two_records)
           (@Build_world lcg_random 0 {["notes.txt" := "kept"]} "") "notes.txt").
  unfold script_files. rewrite !not_elem_of_cons.
  repeat (split; [discriminate|]). apply not_elem_of_nil.
Defined.

(** X19, witness: the script returns on the two records. *)
Lemma main_returns_only_on_records_witness :
  VDict two_records = VList [] ∨
  ∃ d, VDict two_records = VDict d ∧
    ∀ id record, (id, record) ∈ d →
      ∀ field, field ∈ required_fields → has_field record field.
Proof.
  apply (@main_returns_only_on_records lcg_random (λ _, "")
           (VDict two_records)
           (@Build_world lcg_random 0 ∅ "")).
  - exact two_records_wf.
  - vm_compute. reflexivity.
Defined.

(** X20, witness: the report of a list of five items, on which the script
    then raises. *)
Lemma main_report_witness :
  match @split_dataset lcg_random five_items default_train_ratio
          default_val_ratio default_test_ratio default_seed 0 with
  | (inl e, _) =>
      (@main lcg_random (λ _, "") five_items
         (@Build_world lcg_random 0 ∅ "")).1 = inl e ∧
      stdout (@main lcg_random (λ _, "") five_items
                (@Build_world lcg_random 0 ∅ "")).2 = ""
  | (inr (train_set, val_set, test_set, _), _) =>
      stdout (@main lcg_random (λ _, "") five_items
                (@Build_world lcg_random 0 ∅ "")).2
      = "" +:+ size_report (len five_items) (len train_set) 0 (len test_set) ∧
      (len train_set + len test_set = len five_items)%nat
  end.
Proof.
  apply (@main_report lcg_random (λ _, "") five_items
           (@Build_world lcg_random 0 ∅ "")).
  exact I.
Defined.
